(** * Helpdesk: the route layer, the MySQL storage service and the WebSocket hub

    A shallow embedding of the server side of the helpdesk application:

    - [Js]: the fragments of the JavaScript runtime the handlers lean on
      (truthiness, [Number], [String.prototype.trim], strict equality);
    - [Html]: [escapeHtml] of the route file and [sanitizeInput];
    - [Storage]: the tables [MySQLStorage] reads and writes, and its
      operations, each SQL statement written as the list operation it
      denotes;
    - [Json]: the values handlers answer with and the hub sends;
    - [Hub]: [WebSocketManager], its client map and the three fan-out
      operations;
    - [Routes]: the handlers of [createHelpdeskRoutes], as functions from a
      world (tables, hub, sent mail) and a request to a response and a world.

    A string is held as the bytes of its UTF-8 encoding; [Js.length] counts
    its UTF-16 code units and [Js.lt] compares by them.  Identifiers and
    statuses are compared with exact equality on both the JavaScript and the
    SQL side (a binary collation), with two exceptions, both parameters
    here: the keys of [cms_user_prefs], a table the service creates itself
    with [DEFAULT CHARSET=utf8mb4], are compared under that table's
    collation, and [ORDER BY cms_sys_name] sorts under the collation of its
    column.  What the columns of the two meetings tables, which the service
    creates itself with a type for each, store for a value bound to them,
    and whether they take the value at all, is the server's doing and a
    parameter as well.  For the chat and preference tables the theorems
    speak of identifiers and texts that fit their columns.
    Numbers are the integers and NaN: ids, counts and department numbers never
    leave the safe-integer range of a double.  A route parameter [:id] enters
    a handler as the integer [Number(req.params.id)] denotes.  Response bodies
    carry the fields read from the ticket row; the display names the SELECTs
    join in (company, department, system, users) are left out. *)

From Stdlib Require Import ZArith List String Ascii Bool Lia DecimalString.
From stdpp Require Import base option list gmap strings.

Open Scope Z_scope.

(* ------------------------------------------------------------------ *)
(** ** JavaScript runtime fragments *)

Module Js.

(** A JavaScript number as the handlers meet it: an integer or NaN. *)
Inductive number : Type :=
| NaN
| Num (z : Z).

(** [if (n)] on a number: NaN and 0 are falsy. *)
Definition number_truthy (n : number) : bool :=
  match n with
  | NaN => false
  | Num z => negb (z =? 0)
  end.

(** [a === b] on numbers: NaN equals nothing, itself included. *)
Definition number_eq (a b : number) : bool :=
  match a, b with
  | Num x, Num y => x =? y
  | _, _ => false
  end.

(** [if (s)] on a string: only the empty string is falsy. *)
Definition string_truthy (s : string) : bool :=
  match s with
  | EmptyString => false
  | String _ _ => true
  end.

(** [if (v)] on [string | null | undefined]. *)
Definition opt_string_truthy (v : option string) : bool :=
  match v with
  | None => false
  | Some s => string_truthy s
  end.

(** [a === b] where [a] is a string and [b] is [string | null | undefined]. *)
Definition string_eq_opt (a : string) (b : option string) : bool :=
  match b with
  | None => false
  | Some s => String.eqb a s
  end.

(** The white space [trim], [Number] and [parseInt] skip is WhiteSpace and
    LineTerminator of ECMAScript.  Six of its characters are one byte long:
    TAB, LF, VT, FF, CR and the space. *)
Definition is_white_space (c : ascii) : bool :=
  let n := N_of_ascii c in
  ((9 <=? n) && (n <=? 13))%N || (n =? 32)%N.

(** One is two bytes long: U+00A0 (C2 A0). *)
Definition is_white_space2 (c1 c2 : ascii) : bool :=
  (N_of_ascii c1 =? 194)%N && (N_of_ascii c2 =? 160)%N.

(** The others are three bytes long: U+1680 (E1 9A 80), U+2000 to U+200A
    (E2 80 80 to E2 80 8A), U+2028, U+2029 and U+202F (E2 80 A8, A9, AF),
    U+205F (E2 81 9F), U+3000 (E3 80 80) and U+FEFF (EF BB BF). *)
Definition is_white_space3 (c1 c2 c3 : ascii) : bool :=
  let n1 := N_of_ascii c1 in
  let n2 := N_of_ascii c2 in
  let n3 := N_of_ascii c3 in
  ((n1 =? 225) && (n2 =? 154) && (n3 =? 128))%N ||
  ((n1 =? 226) && (n2 =? 128) &&
   (((128 <=? n3) && (n3 <=? 138)) || (n3 =? 168) || (n3 =? 169) || (n3 =? 175)))%N ||
  ((n1 =? 226) && (n2 =? 129) && (n3 =? 159))%N ||
  ((n1 =? 227) && (n2 =? 128) && (n3 =? 128))%N ||
  ((n1 =? 239) && (n2 =? 187) && (n3 =? 191))%N.

(** [s.trimStart()]. *)
Fixpoint trimStart (s : string) : string :=
  match s with
  | EmptyString => EmptyString
  | String c1 r1 =>
      if is_white_space c1 then trimStart r1
      else
        match r1 with
        | EmptyString => s
        | String c2 r2 =>
            if is_white_space2 c1 c2 then trimStart r2
            else
              match r2 with
              | EmptyString => s
              | String c3 r3 => if is_white_space3 c1 c2 c3 then trimStart r3 else s
              end
        end
  end.

(** [s.trimEnd()]: what is left of [s] is cut where only white space
    follows. *)
Fixpoint trimEnd (s : string) : string :=
  match s with
  | EmptyString => EmptyString
  | String c r =>
      match trimStart s with
      | EmptyString => EmptyString
      | _ => String c (trimEnd r)
      end
  end.

(** [s.trim()]. *)
Definition trim (s : string) : string := trimEnd (trimStart s).

Definition digit_of (c : ascii) : option Z :=
  let n := Z.of_N (N_of_ascii c) in
  if (48 <=? n) && (n <=? 57) then Some (n - 48) else None.

Fixpoint digits (acc : Z) (s : string) : option Z :=
  match s with
  | EmptyString => Some acc
  | String c r =>
      match digit_of c with
      | Some d => digits (10 * acc + d) r
      | None => None
      end
  end.

Definition unsigned_literal (s : string) : number :=
  match s with
  | EmptyString => NaN
  | _ => match digits 0 s with Some z => Num z | None => NaN end
  end.

(** [Number(s)] on a string: white space is trimmed, the empty string is 0,
    an optionally signed run of decimal digits is its value, and the rest is
    NaN.  (The fraction, exponent, radix-prefix and Infinity forms of the
    numeric string grammar do not arise from an integer column rendered with
    [String(...)] and are read as NaN here.) *)
Definition Number (s : string) : number :=
  match trim s with
  | EmptyString => Num 0
  | String "+" r => unsigned_literal r
  | String "-" r =>
      match unsigned_literal r with
      | Num z => Num (- z)
      | NaN => NaN
      end
  | t => unsigned_literal t
  end.

Fixpoint digits_prefix (acc : option Z) (s : string) : option Z :=
  match s with
  | EmptyString => acc
  | String c r =>
      match digit_of c with
      | Some d => digits_prefix (Some (10 * default 0 acc + d)) r
      | None => acc
      end
  end.

Definition number_of_option (o : option Z) : number :=
  match o with
  | Some z => Num z
  | None => NaN
  end.

(** [parseInt(s, 10)]: leading white space, an optional sign, and the
    longest run of digits; NaN when there is no digit. *)
Definition parseInt (s : string) : number :=
  match trimStart s with
  | String "-" r => number_of_option (Z.opp <$> digits_prefix None r)
  | String "+" r => number_of_option (digits_prefix None r)
  | t => number_of_option (digits_prefix None t)
  end.

Definition hex_digit_of (c : ascii) : option Z :=
  let n := Z.of_N (N_of_ascii c) in
  if (48 <=? n) && (n <=? 57) then Some (n - 48)
  else if (97 <=? n) && (n <=? 102) then Some (n - 87)
  else if (65 <=? n) && (n <=? 70) then Some (n - 55)
  else None.

Fixpoint hex_digits_prefix (acc : option Z) (s : string) : option Z :=
  match s with
  | EmptyString => acc
  | String c r =>
      match hex_digit_of c with
      | Some d => hex_digits_prefix (Some (16 * default 0 acc + d)) r
      | None => acc
      end
  end.

(** The digits [parseInt(s)] reads when it is given no radix: in base 16
    after a prefix 0x or 0X, in base 10 otherwise. *)
Definition digits_prefix_any_radix (s : string) : option Z :=
  match s with
  | String "0" (String c r) =>
      if Ascii.eqb c "x" || Ascii.eqb c "X" then hex_digits_prefix None r
      else digits_prefix None s
  | _ => digits_prefix None s
  end.

(** [parseInt(s)], no radix given: leading white space, an optional sign,
    an optional prefix 0x or 0X, and the longest run of digits of the base;
    NaN when there is no digit. *)
Definition parseInt_no_radix (s : string) : number :=
  match trimStart s with
  | String "-" r => number_of_option (Z.opp <$> digits_prefix_any_radix r)
  | String "+" r => number_of_option (digits_prefix_any_radix r)
  | t => number_of_option (digits_prefix_any_radix t)
  end.

(** [Math.max(lo, Math.min(hi, n))]: NaN in, NaN out. *)
Definition clamp (lo hi : Z) (n : number) : number :=
  match n with
  | Num z => Num (Z.max lo (Z.min hi z))
  | NaN => NaN
  end.

(** [Math.max(lo, n)]. *)
Definition at_least (lo : Z) (n : number) : number :=
  match n with
  | Num z => Num (Z.max lo z)
  | NaN => NaN
  end.

(** [Number(v)] where [v] may be undefined. *)
Definition Number_opt (v : option string) : number :=
  match v with
  | Some s => Number s
  | None => NaN
  end.

(** [a || b] on optional strings (environment variables). *)
Definition or_opt (a b : option string) : option string :=
  if opt_string_truthy a then a else b.

(** A value placed in a template literal: undefined prints as such. *)
Definition show (v : option string) : string := default "undefined" v.

(** [String(n)] on an integer. *)
Definition String_of_Z (z : Z) : string := NilZero.string_of_int (Z.to_int z).

Definition lower_char (c : ascii) : ascii :=
  let n := N_of_ascii c in
  if ((65 <=? n) && (n <=? 90))%N then ascii_of_N (n + 32) else c.

Definition upper_char (c : ascii) : ascii :=
  let n := N_of_ascii c in
  if ((97 <=? n) && (n <=? 122))%N then ascii_of_N (n - 32) else c.

(** [s.toLowerCase()], on the ASCII letters. *)
Fixpoint toLowerCase (s : string) : string :=
  match s with
  | EmptyString => EmptyString
  | String c r => String (lower_char c) (toLowerCase r)
  end.

(** [s.charAt(0).toUpperCase() + s.slice(1)]. *)
Definition capitalize (s : string) : string :=
  match s with
  | EmptyString => EmptyString
  | String c r => String (upper_char c) r
  end.

(** [s.split('\n')[0]]. *)
Fixpoint first_line (s : string) : string :=
  match s with
  | EmptyString => EmptyString
  | String c r => if Ascii.eqb c "010" then EmptyString else String c (first_line r)
  end.

(** [s.length], the UTF-16 code units of [s]: one for each byte that starts
    a character (every byte but 128 to 191), and one more for a character
    beyond the basic plane (a first byte of 240 or more). *)
Fixpoint length (s : string) : nat :=
  match s with
  | EmptyString => 0%nat
  | String c r =>
      let n := N_of_ascii c in
      ((if ((n <? 128) || (192 <=? n))%N then 1 else 0) +
       (if (240 <=? n)%N then 1 else 0) + length r)%nat
  end.

(** Where a byte stands among the bytes when strings are compared by
    UTF-16 code units: the first bytes of the characters beyond the basic
    plane (240 and up; surrogate pairs, D800 to DFFF) come before those of
    U+E000 to U+FFFF (238 and 239), and everything else is in byte order. *)
Definition unit_rank (c : ascii) : N :=
  let n := N_of_ascii c in
  if (240 <=? n)%N then (n - 2)%N
  else if (238 <=? n)%N then (n + 16)%N
  else n.

(** [a < b] on strings: at the first place where they differ. *)
Fixpoint lt (a b : string) : bool :=
  match a, b with
  | _, EmptyString => false
  | EmptyString, String _ _ => true
  | String x a', String y b' =>
      if (unit_rank x <? unit_rank y)%N then true
      else if (unit_rank x =? unit_rank y)%N then lt a' b'
      else false
  end.

(** [s.includes(c)] for a one-character needle. *)
Fixpoint includes_char (c : ascii) (s : string) : bool :=
  match s with
  | EmptyString => false
  | String x r => Ascii.eqb x c || includes_char c r
  end.

(** [s.startsWith(p)]. *)
Definition startsWith (p s : string) : bool := String.prefix p s.

(** [a || b] on strings. *)
Definition or_string (a b : string) : string := if string_truthy a then a else b.

(** [a || b] where [a] may be undefined. *)
Definition or_default (a : option string) (b : string) : string :=
  match a with
  | Some s => or_string s b
  | None => b
  end.

(** [a ?? b]. *)
Definition nullish {A} (a b : option A) : option A :=
  match a with
  | Some _ => a
  | None => b
  end.

End Js.

(* ------------------------------------------------------------------ *)
(** ** HTML escaping and input sanitising *)

Module Html.

Definition dquote : ascii := "034"%char.

(** [s.replace(/c/g, by)] for a one-character pattern. *)
Fixpoint replace_char (c : ascii) (by_ : string) (s : string) : string :=
  match s with
  | EmptyString => EmptyString
  | String x r =>
      if Ascii.eqb x c then by_ +:+ replace_char c by_ r
      else String x (replace_char c by_ r)
  end.

(** [escapeHtml] of the route file: five global replacements, in order. *)
Definition escapeHtml (str : string) : string :=
  replace_char "'" "&#39;"
    (replace_char dquote "&quot;"
      (replace_char ">" "&gt;"
        (replace_char "<" "&lt;"
          (replace_char "&" "&amp;" str)))).

Section Sanitize.

(** The filter of the [xss] package, called with an empty white list,
    [stripIgnoreTag] and [stripIgnoreTagBody: ['script']].  The package is
    not part of the repository; every statement below holds for whatever
    function it computes. *)
Variable xss : string -> string.

Definition sanitizeInput (input : string) : string := xss input.

End Sanitize.

End Html.

(* ------------------------------------------------------------------ *)
(** ** The storage service ([MySQLStorage]) *)

Module Storage.

(** A table: its rows in insertion order and its AUTO_INCREMENT counter. *)
Record Table (A : Type) : Type := mkTable {
  rows : list A;
  auto_increment : Z;
}.
Arguments mkTable {A} _ _.
Arguments rows {A} _.
Arguments auto_increment {A} _.

(** [INSERT INTO t ...]: the new row takes the counter as its key; the pair
    is [insertId] and the table afterwards. *)
Definition sql_insert {A} (mk : Z -> A) (t : Table A) : Z * Table A :=
  (auto_increment t,
   mkTable (rows t ++ [mk (auto_increment t)]) (auto_increment t + 1)).

(** [UPDATE t SET ... WHERE ...]. *)
Definition sql_update {A} (where_ : A -> bool) (set : A -> A) (t : Table A) : Table A :=
  mkTable (List.map (fun r => if where_ r then set r else r) (rows t)) (auto_increment t).

(** [SELECT ... FROM t WHERE ...]. *)
Definition sql_select {A} (where_ : A -> bool) (t : Table A) : list A :=
  List.filter where_ (rows t).

Fixpoint insert_by {A} (le : A -> A -> bool) (x : A) (l : list A) : list A :=
  match l with
  | [] => [x]
  | y :: r => if le x y then x :: l else y :: insert_by le x r
  end.

(** [ORDER BY], as a stable sort. *)
Definition order_by {A} (le : A -> A -> bool) (l : list A) : list A :=
  List.fold_right (insert_by le) [] l.

(** [cms_company_details]. *)
Record CompanyRow : Type := mkCompany {
  cms_com_id_c : Z;
  cms_com_name : string;
  cms_com_created_at : option Z;
  cms_com_status_c : Z;
}.

(** [cms_dep_details]. *)
Record DepartmentRow : Type := mkDepartment {
  cms_dep_id_d : Z;
  cms_dep_name : string;
  cms_dep_com_id : option Z;
  cms_created_at_d : option Z;
  cms_status_d : Z;
}.

(** [cms_sys_details]. *)
Record SystemRow : Type := mkSystem {
  cms_sys_id_s : Z;
  cms_sys_name : string;
  cms_dep_id_s : Z;
  cms_comp_id_s : option Z;
  cms_sys_created_at : option Z;
  cms_sys_status : Z;
}.

(** [cms_complaint_details], the tickets: every column the service names. *)
Record ComplaintRow : Type := mkComplaint {
  cms_com_id : Z;
  cms_com_ticket_no : string;
  cms_com_comp_id : option Z;
  cms_sys_dep_id : option Z;
  cms_sys_id : option Z;
  cms_com_description : option string;
  cms_com_user_priority : string;
  cms_com_status : option string;
  cms_user_id : string;
  cms_sys_l1_id : option string;
  cms_created_at : option Z;
  cms_file_location : option string;
}.

(** [cms_user_details]; [cms_user_id] is the key the service identifies a
    user by (login and user sync insert only when no row carries it). *)
Record UserRow : Type := mkUser {
  user_pk : Z;
  cms_user_id_u : string;
  cms_user_username : string;
  cms_user_firstname : string;
  cms_user_lastname : string;
  cms_user_email : option string;
  cms_user_dep_id : option Z;
  cms_user_type_id : Z;
  cms_user_password : option string;
  cms_user_status : Z;
}.

(** [cms_resolve], the ticket chat. *)
Record ResolveRow : Type := mkResolve {
  cms_resolve_id : Z;
  cms_resolove_ticket_no : string;
  cms_resolve_desc : string;
  cms_resolve_user_id : Z;
  cms_resolve_created_at : option Z;
  cms_resolve_status : Z;
}.

(** [cms_user_prefs]. *)
Record PrefsRow : Type := mkPrefs {
  prefs_user_id : string;
  notifications : bool;
  daily_summary : bool;
}.

(** [cms_meetings] and [cms_meeting_attendees]. *)
Record MeetingRow : Type := mkMeeting {
  meeting_id : Z;
  title : string;
  date : string;
  time : string;
  meeting_link : option string;
  location : option string;
  description_m : option string;
  created_by_m : string;
  created_at_m : option Z;
}.

Record AttendeeRow : Type := mkAttendee {
  attendee_id : Z;
  attendee_meeting_id : Z;
  attendee_email : string;
}.

(** [cms_user_conversations] and [cms_user_conversation_messages]. *)
Record ConversationRow : Type := mkConversation {
  conv_id : Z;
  member_a_id : string;
  member_b_id : string;
  dept_id : option Z;
  conv_created_at : option Z;
}.

Record ConversationMessageRow : Type := mkConversationMessage {
  cmsg_id : Z;
  conversation_id : Z;
  sender_id_c : string;
  message_c : string;
  cmsg_created_at : option Z;
}.

(** The database the pool [helpdeskConnection] talks to. *)
Record DB : Type := mkDB {
  companies : Table CompanyRow;
  departments : Table DepartmentRow;
  systems : Table SystemRow;
  complaints : Table ComplaintRow;
  users : Table UserRow;
  resolves : Table ResolveRow;
  prefs : list PrefsRow;
  meetings : Table MeetingRow;
  attendees : Table AttendeeRow;
  conversations : Table ConversationRow;
  conversation_messages : Table ConversationMessageRow;
}.

Definition set_companies (f : Table CompanyRow -> Table CompanyRow) (d : DB) : DB :=
  mkDB (f (companies d)) (departments d) (systems d) (complaints d) (users d)
       (resolves d) (prefs d) (meetings d) (attendees d) (conversations d)
       (conversation_messages d).
Definition set_departments (f : Table DepartmentRow -> Table DepartmentRow) (d : DB) : DB :=
  mkDB (companies d) (f (departments d)) (systems d) (complaints d) (users d)
       (resolves d) (prefs d) (meetings d) (attendees d) (conversations d)
       (conversation_messages d).
Definition set_systems (f : Table SystemRow -> Table SystemRow) (d : DB) : DB :=
  mkDB (companies d) (departments d) (f (systems d)) (complaints d) (users d)
       (resolves d) (prefs d) (meetings d) (attendees d) (conversations d)
       (conversation_messages d).
Definition set_complaints (f : Table ComplaintRow -> Table ComplaintRow) (d : DB) : DB :=
  mkDB (companies d) (departments d) (systems d) (f (complaints d)) (users d)
       (resolves d) (prefs d) (meetings d) (attendees d) (conversations d)
       (conversation_messages d).
Definition set_users (f : Table UserRow -> Table UserRow) (d : DB) : DB :=
  mkDB (companies d) (departments d) (systems d) (complaints d) (f (users d))
       (resolves d) (prefs d) (meetings d) (attendees d) (conversations d)
       (conversation_messages d).
Definition set_resolves (f : Table ResolveRow -> Table ResolveRow) (d : DB) : DB :=
  mkDB (companies d) (departments d) (systems d) (complaints d) (users d)
       (f (resolves d)) (prefs d) (meetings d) (attendees d) (conversations d)
       (conversation_messages d).
Definition set_meetings (f : Table MeetingRow -> Table MeetingRow) (d : DB) : DB :=
  mkDB (companies d) (departments d) (systems d) (complaints d) (users d)
       (resolves d) (prefs d) (f (meetings d)) (attendees d) (conversations d)
       (conversation_messages d).
Definition set_attendees (f : Table AttendeeRow -> Table AttendeeRow) (d : DB) : DB :=
  mkDB (companies d) (departments d) (systems d) (complaints d) (users d)
       (resolves d) (prefs d) (meetings d) (f (attendees d)) (conversations d)
       (conversation_messages d).
Definition set_conversations (f : Table ConversationRow -> Table ConversationRow) (d : DB) : DB :=
  mkDB (companies d) (departments d) (systems d) (complaints d) (users d)
       (resolves d) (prefs d) (meetings d) (attendees d) (f (conversations d))
       (conversation_messages d).
Definition set_conversation_messages
  (f : Table ConversationMessageRow -> Table ConversationMessageRow) (d : DB) : DB :=
  mkDB (companies d) (departments d) (systems d) (complaints d) (users d)
       (resolves d) (prefs d) (meetings d) (attendees d) (conversations d)
       (f (conversation_messages d)).

(** A storage call either returns or throws. *)
Inductive result (A : Type) : Type :=
| Ok (a : A)
| Throw (msg : string).
Arguments Ok {A} _.
Arguments Throw {A} _.

(** The role a user type id stands for. *)
Inductive Role : Type := employee | admin | super_admin.

Definition role_of_type_id (t : Z) : Role :=
  if t =? 99 then super_admin else if t =? 1 then admin else employee.

(** [HRMSUser], as the session carries it. *)
Record HRMSUser : Type := mkHRMSUser {
  id : string;
  employee_id : string;
  first_name : string;
  last_name : string;
  email : string;
  department : string;
  role : Role;
}.

(** [TicketWithDetails]: the row under the aliases of the SELECT, with the
    status normalised and the attachment names.  The LEFT JOINs only add
    display columns (names of company, department, system and users); the
    chat messages the service also loads are read by no handler below. *)
Record Ticket : Type := mkTicket {
  ticket_id : Z;
  ticket_number : string;
  company_id : option Z;
  department_id : option Z;
  target_system_id : option Z;
  subject : string;
  description : option string;
  priority : string;
  status : string;
  created_by : string;
  assigned_to : option string;
  created_at : option Z;
  updated_at : option Z;
  attachments : list string;
}.

Definition mem_string (s : string) (l : list string) : bool :=
  List.existsb (String.eqb s) l.

(** [mapStatusToStandard]. *)
Definition mapStatusToStandard (status : option string) : string :=
  if negb (Js.opt_string_truthy status) then "open"
  else
    let s := Js.toLowerCase (default "" status) in
    if mem_string s ["open"; "opened"; "new"] then "open"
    else if mem_string s ["in_progress"; "in-progress"; "progress"; "assigned"] then "in_progress"
    else if mem_string s ["resolved"; "done"; "fixed"] then "resolved"
    else if mem_string s ["closed"; "complete"; "completed"] then "closed"
    else s.

(** [loc.split(',')]. *)
Fixpoint split_comma (acc : string) (s : string) : list string :=
  match s with
  | EmptyString => [acc]
  | String c r =>
      if Ascii.eqb c "," then acc :: split_comma EmptyString r
      else split_comma (acc +:+ String c EmptyString) r
  end.

(** [getTicketAttachments]: the comma-separated [cms_file_location]. *)
Definition getTicketAttachments (row : ComplaintRow) : list string :=
  match cms_file_location row with
  | Some loc => if Js.string_truthy loc then split_comma EmptyString loc else []
  | None => []
  end.

Definition ticket_of_row (r : ComplaintRow) : Ticket :=
  {| ticket_id := cms_com_id r;
     ticket_number := cms_com_ticket_no r;
     company_id := cms_com_comp_id r;
     department_id := cms_sys_dep_id r;
     target_system_id := cms_sys_id r;
     subject := Js.or_string (Js.first_line (default "" (cms_com_description r))) "";
     description := cms_com_description r;
     priority := cms_com_user_priority r;
     status := mapStatusToStandard (cms_com_status r);
     created_by := cms_user_id r;
     assigned_to := cms_sys_l1_id r;
     created_at := cms_created_at r;
     updated_at := cms_created_at r;
     attachments := getTicketAttachments r |}.

(** [getTicketById]: the first row of [WHERE t.cms_com_id = ?], or null. *)
Definition getTicketById (id_ : Z) (d : DB) : option Ticket :=
  match sql_select (fun r => cms_com_id r =? id_) (complaints d) with
  | r :: _ => Some (ticket_of_row r)
  | [] => None
  end.

(** [updateTicketStatus]: [SET cms_com_status = ? WHERE cms_com_id = ?],
    then the ticket read back. *)
Definition updateTicketStatus (id_ : Z) (status_ : string) (d : DB) : option Ticket * DB :=
  let d' :=
    set_complaints
      (sql_update (fun r => cms_com_id r =? id_)
         (fun r =>
            mkComplaint (cms_com_id r) (cms_com_ticket_no r) (cms_com_comp_id r)
              (cms_sys_dep_id r) (cms_sys_id r) (cms_com_description r)
              (cms_com_user_priority r) (Some status_) (cms_user_id r)
              (cms_sys_l1_id r) (cms_created_at r) (cms_file_location r))) d in
  (getTicketById id_ d', d').

(** The CASE of [assignTicket]'s UPDATE. *)
Definition reopened_status (s : option string) : option string :=
  match s with
  | Some v => if mem_string v ["resolved"; "closed"] then Some "in_progress" else s
  | None => None
  end.

(** [assignTicket]: sets [cms_sys_l1_id], moves a resolved or closed ticket
    back to in_progress, then reads the ticket back. *)
Definition assignTicket (id_ : Z) (assignedToId : string) (d : DB) : option Ticket * DB :=
  let d' :=
    set_complaints
      (sql_update (fun r => cms_com_id r =? id_)
         (fun r =>
            mkComplaint (cms_com_id r) (cms_com_ticket_no r) (cms_com_comp_id r)
              (cms_sys_dep_id r) (cms_sys_id r) (cms_com_description r)
              (cms_com_user_priority r) (reopened_status (cms_com_status r))
              (cms_user_id r) (Some assignedToId) (cms_created_at r)
              (cms_file_location r))) d in
  (getTicketById id_ d', d').

(** [createCompany]: the INSERT, then the row read back by [insertId]. *)
Definition createCompany (now : Z) (name : string) (d : DB) : option CompanyRow * DB :=
  let '(insertId, t) :=
    sql_insert (fun k => mkCompany k name (Some now) 1) (companies d) in
  (head (sql_select (fun r => cms_com_id_c r =? insertId) t),
   set_companies (fun _ => t) d).

(** [createDepartment]. *)
Definition createDepartment (now : Z) (name : string) (d : DB) : option DepartmentRow * DB :=
  let '(insertId, t) :=
    sql_insert (fun k => mkDepartment k name None (Some now) 1) (departments d) in
  (head (sql_select (fun r => cms_dep_id_d r =? insertId) t),
   set_departments (fun _ => t) d).

Section TargetSystems.

(** [ORDER BY cms_sys_name] sorts in the order of the column's collation.
    The repository does not create [cms_sys_details]; which of two names
    comes first, or that neither does, is a parameter. *)
Variable sys_name_le : string -> string -> bool.

(** [getTargetSystemsByDepartment]: [WHERE cms_dep_id = ? ORDER BY cms_sys_name]. *)
Definition getTargetSystemsByDepartment (departmentId : Z) (d : DB) : list SystemRow :=
  order_by (fun a b => sys_name_le (cms_sys_name a) (cms_sys_name b))
    (sql_select (fun r => cms_dep_id_s r =? departmentId) (systems d)).

End TargetSystems.

(** [x || null] on a nullable integer column. *)
Definition or_null (x : option Z) : option Z :=
  match x with
  | Some z => if z =? 0 then None else Some z
  | None => None
  end.

(** [createTargetSystem]: the company is inferred from the department. *)
Definition createTargetSystem (now : Z) (name : string) (departmentId : Z) (d : DB)
  : option SystemRow * DB :=
  let deptRows := sql_select (fun r => cms_dep_id_d r =? departmentId) (departments d) in
  let companyId := or_null (head deptRows ≫= cms_dep_com_id) in
  let '(insertId, t) :=
    sql_insert (fun k => mkSystem k name departmentId companyId (Some now) 1) (systems d) in
  (head (sql_select (fun r => cms_sys_id_s r =? insertId) t),
   set_systems (fun _ => t) d).

(** The argument of [createTicket]. *)
Record NewTicket : Type := mkNewTicket {
  nt_company_id : Z;
  nt_department_id : Z;
  nt_target_system_id : Z;
  nt_subject : string;
  nt_description : string;
  nt_priority : string;
  nt_created_by : string;
}.

(** [createTicket]: the INSERT names no subject column, so only the
    description is written; the result is the first row of
    [SELECT * ... WHERE cms_com_id = insertId]. *)
Definition createTicket (now : Z) (ticketNumber : string) (ticket : NewTicket) (d : DB)
  : option ComplaintRow * DB :=
  let '(insertId, t) :=
    sql_insert
      (fun k =>
         mkComplaint k ticketNumber (Some (nt_company_id ticket))
           (Some (nt_department_id ticket)) (Some (nt_target_system_id ticket))
           (Some (nt_description ticket)) (nt_priority ticket) (Some "open")
           (nt_created_by ticket) None (Some now) None)
      (complaints d) in
  (head (sql_select (fun r => cms_com_id r =? insertId) t),
   set_complaints (fun _ => t) d).

(** The CONCAT of [createTicketAttachment]: the file name joins
    [cms_file_location], after a comma unless that is NULL or empty. *)
Definition append_file_location (file_name : string) (loc : option string) : option string :=
  match loc with
  | Some l => if Js.string_truthy l then Some (l +:+ "," +:+ file_name) else Some file_name
  | None => Some file_name
  end.

(** [createTicketAttachment]. *)
Definition createTicketAttachment (ticket_id_ : Z) (file_name : string) (d : DB) : DB :=
  set_complaints
    (sql_update (fun r => cms_com_id r =? ticket_id_)
       (fun r =>
          mkComplaint (cms_com_id r) (cms_com_ticket_no r) (cms_com_comp_id r)
            (cms_sys_dep_id r) (cms_sys_id r) (cms_com_description r)
            (cms_com_user_priority r) (cms_com_status r) (cms_user_id r)
            (cms_sys_l1_id r) (cms_created_at r)
            (append_file_location file_name (cms_file_location r)))) d.

(** [getUsersByDepartment]: active users of the department. *)
Definition getUsersByDepartment (departmentId : Z) (d : DB) : list UserRow :=
  sql_select
    (fun r => (cms_user_status r =? 1) &&
              match cms_user_dep_id r with Some z => z =? departmentId | None => false end)
    (users d).

(** [listEmailsForNotifications]: admins and super admins with a non-empty
    email whose preferences row has notifications on. *)
Definition listEmailsForNotifications (d : DB) : list string :=
  List.flat_map
    (fun u =>
       List.flat_map
         (fun p =>
            if String.eqb (prefs_user_id p) (cms_user_id_u u) && notifications p &&
               ((cms_user_type_id u =? 99) || (cms_user_type_id u =? 1))
            then match cms_user_email u with
                 | Some e => if Js.string_truthy e then [e] else []
                 | None => []
                 end
            else [])
         (prefs d))
    (rows (users d)).

(** [String(senderId).split('-')[0]]. *)
Fixpoint before_dash (s : string) : string :=
  match s with
  | EmptyString => EmptyString
  | String c r => if Ascii.eqb c "-" then EmptyString else String c (before_dash r)
  end.

(** [TicketMessage], as [createTicketMessage] returns it. *)
Record TicketMessage : Type := mkTicketMessage {
  tm_id : Z;
  tm_ticket_id : Z;
  tm_sender_id : string;
  tm_message : string;
  tm_created_at : Z;
}.

(** [createTicketMessage], one transaction: the ticket number is looked up
    (none, NULL or empty: rollback and throw), the sender is inserted into
    [cms_user_details] unless a row already carries the id (INSERT IGNORE),
    its numeric key is resolved by id and then by user name (neither:
    rollback and throw), and the message is inserted into [cms_resolve]. *)
Definition createTicketMessage (now : Z) (ticket_id_ : Z) (sender_id : string)
  (message : string) (d : DB) : result TicketMessage * DB :=
  let ticketNo :=
    head (sql_select (fun r => cms_com_id r =? ticket_id_) (complaints d)) in
  match ticketNo with
  | None => (Throw "Ticket not found", d)
  | Some row =>
      if negb (Js.string_truthy (cms_com_ticket_no row)) then (Throw "Ticket not found", d)
      else
        let firstName := Js.or_string (before_dash sender_id) sender_id in
        let users1 :=
          if List.existsb (fun u => String.eqb (cms_user_id_u u) sender_id) (rows (users d))
          then users d
          else snd (sql_insert
                      (fun k => mkUser k sender_id sender_id firstName "" None (Some 1) 3 None 1)
                      (users d)) in
        let byId := sql_select (fun u => String.eqb (cms_user_id_u u) sender_id) users1 in
        let byName := sql_select (fun u => String.eqb (cms_user_username u) sender_id) users1 in
        match (match byId with u :: _ => Some u | [] => head byName end) with
        | None => (Throw "Failed to ensure user exists for message sender", d)
        | Some u =>
            let '(insertId, t) :=
              sql_insert
                (fun k => mkResolve k (cms_com_ticket_no row) message (user_pk u) (Some now) 1)
                (resolves d) in
            (Ok (mkTicketMessage insertId ticket_id_ sender_id message now),
             set_resolves (fun _ => t) (set_users (fun _ => users1) d))
        end
  end.

(** The argument of [createMeeting]. *)
Record NewMeeting : Type := mkNewMeeting {
  nm_title : string;
  nm_date : string;
  nm_time : string;
  nm_meeting_link : option string;
  nm_location : option string;
  nm_description : option string;
  nm_created_by : string;
  nm_attendees : list string;
}.

(** [x || null] on an optional string. *)
Definition or_null_string (x : option string) : option string :=
  match x with
  | Some s => if Js.string_truthy s then Some s else None
  | None => None
  end.

(** The types [ensureMeetingsTables] gives the string columns of
    [cms_meetings] and [cms_meeting_attendees]. *)
Inductive ColumnType : Type :=
| VARCHAR (n : nat)
| TEXT
| DATE.

Section Meetings.

(** What a column of the given type stores for a string bound to it, or
    nothing when the server refuses the statement.  Whether a value that is
    too long for the column, or that is no date, is refused, cut or read as
    another value is the doing of the server and its SQL mode; it is not
    repository code. *)
Variable stored_as : ColumnType -> string -> option string.

(** The same for a column that may be NULL. *)
Definition stored_nullable (ty : ColumnType) (v : option string) : option (option string) :=
  match v with
  | Some s => Some <$> stored_as ty s
  | None => Some None
  end.

(** The values of one multi-row INSERT: all are stored, or the statement is
    refused. *)
Fixpoint stored_all (ty : ColumnType) (l : list string) : option (list string) :=
  match l with
  | [] => Some []
  | e :: r =>
      match stored_as ty e, stored_all ty r with
      | Some e', Some r' => Some (e' :: r')
      | _, _ => None
      end
  end.

(** The row the INSERT into [cms_meetings] (title VARCHAR(255), date DATE,
    time VARCHAR(20), meeting_link and location VARCHAR(255), description
    TEXT, created_by VARCHAR(255)) stores under a key, when the server takes
    all seven values. *)
Definition stored_meeting (now : Z) (data : NewMeeting) : option (Z -> MeetingRow) :=
  stored_as (VARCHAR 255) (nm_title data) ≫= fun title_ =>
  stored_as DATE (nm_date data) ≫= fun date_ =>
  stored_as (VARCHAR 20) (nm_time data) ≫= fun time_ =>
  stored_nullable (VARCHAR 255) (or_null_string (nm_meeting_link data)) ≫= fun link =>
  stored_nullable (VARCHAR 255) (or_null_string (nm_location data)) ≫= fun location_ =>
  stored_nullable TEXT (or_null_string (nm_description data)) ≫= fun description_ =>
  stored_as (VARCHAR 255) (nm_created_by data) ≫= fun by_ =>
  Some (fun k => mkMeeting k title_ date_ time_ link location_ description_ by_ (Some now)).

(** [createMeeting]: the meeting row, then, when there are attendees, their
    rows (email VARCHAR(255)) in one INSERT.  A statement the server refuses
    throws; the meeting row is in the table by the time the second
    statement runs. *)
Definition createMeeting (now : Z) (data : NewMeeting) (d : DB) : result Z * DB :=
  match stored_meeting now data with
  | None => (Throw "cms_meetings: the INSERT is refused", d)
  | Some row =>
      let '(id_, t) := sql_insert row (meetings d) in
      let d1 := set_meetings (fun _ => t) d in
      match nm_attendees data with
      | [] => (Ok id_, d1)
      | _ :: _ =>
          match stored_all (VARCHAR 255) (nm_attendees data) with
          | None => (Throw "cms_meeting_attendees: the INSERT is refused", d1)
          | Some emails =>
              (Ok id_,
               set_attendees
                 (fun a =>
                    List.fold_left
                      (fun a e => snd (sql_insert (fun k => mkAttendee k id_ e) a))
                      emails a)
                 d1)
          end
      end
  end.

End Meetings.

(** The pair of members in the order the table keeps it:
    [currentUserId < otherUserId ? [currentUserId, otherUserId]
                                 : [otherUserId, currentUserId]]. *)
Definition ordered_members (currentUserId otherUserId : string) : string * string :=
  if Js.lt currentUserId otherUserId then (currentUserId, otherUserId)
  else (otherUserId, currentUserId).

Definition conversation_of (a b : string) (c : ConversationRow) : bool :=
  String.eqb (member_a_id c) a && String.eqb (member_b_id c) b.

(** [getOrCreateConversation]: the row of the ordered pair when there is
    one, else a new row, read back. *)
Definition getOrCreateConversation (now : Z) (currentUserId otherUserId : string)
  (deptId : option Z) (d : DB) : option ConversationRow * DB :=
  let '(a, b) := ordered_members currentUserId otherUserId in
  match sql_select (conversation_of a b) (conversations d) with
  | conv :: _ => (Some conv, d)
  | [] =>
      let '(_, t) :=
        sql_insert (fun k => mkConversation k a b (or_null deptId) (Some now))
          (conversations d) in
      (head (sql_select (conversation_of a b) t), set_conversations (fun _ => t) d)
  end.

(** [addConversationMessage]: the INSERT is refused when no conversation
    carries the id (the foreign key [fk_conv_msg_conv] of [ensureChatTables]);
    otherwise the new row is read back. *)
Definition addConversationMessage (now : Z) (conversationId : Z) (senderId message : string)
  (d : DB) : result (option ConversationMessageRow) * DB :=
  if List.existsb (fun c => conv_id c =? conversationId) (rows (conversations d)) then
    let '(insertId, t) :=
      sql_insert (fun k => mkConversationMessage k conversationId senderId message (Some now))
        (conversation_messages d) in
    (Ok (head (sql_select (fun r => cmsg_id r =? insertId) t)),
     set_conversation_messages (fun _ => t) d)
  else (Throw "foreign key constraint fails", d).

(** The filters of [getTickets]. *)
Record Filters : Type := mkFilters {
  f_userId : option string;
  f_departmentId : option Js.number;
  f_status : option string;
  f_priority : option string;
  f_search : option string;
}.

Definition newer_first (a b : ComplaintRow) : bool :=
  match cms_created_at a, cms_created_at b with
  | Some x, Some y => y <=? x
  | Some _, None => true
  | None, Some _ => false
  | None, None => true
  end.

Section GetTickets.

(** [value LIKE pattern] of the server. *)
Variable sql_like : string -> string -> bool.

(** The WHERE clause [getTickets] assembles: a filter takes part only when
    its value is truthy. *)
Definition tickets_where (filters : Filters) (r : ComplaintRow) : bool :=
  (match f_userId filters with
   | Some u =>
       if Js.string_truthy u
       then String.eqb (cms_user_id r) u || Js.string_eq_opt u (cms_sys_l1_id r)
       else true
   | None => true
   end) &&
  (match f_departmentId filters with
   | Some (Js.Num z) =>
       if z =? 0 then true
       else match cms_sys_dep_id r with Some x => x =? z | None => false end
   | _ => true
   end) &&
  (match f_status filters with
   | Some v => if Js.string_truthy v then Js.string_eq_opt v (cms_com_status r) else true
   | None => true
   end) &&
  (match f_priority filters with
   | Some v => if Js.string_truthy v then String.eqb (cms_com_user_priority r) v else true
   | None => true
   end) &&
  (match f_search filters with
   | Some v =>
       if Js.string_truthy v
       then (match cms_com_description r with
             | Some dsc => sql_like dsc ("%" +:+ v +:+ "%")
             | None => false
             end) || sql_like (cms_com_ticket_no r) ("%" +:+ v +:+ "%")
       else true
   | None => true
   end).

(** [getTickets]: [WHERE ... ORDER BY t.cms_created_at DESC LIMIT ? OFFSET ?]. *)
Definition getTickets (filters : Filters) (limit offset : Z) (d : DB) : list Ticket :=
  List.map ticket_of_row
    (firstn (Z.to_nat limit)
       (skipn (Z.to_nat offset)
          (order_by newer_first (sql_select (tickets_where filters) (complaints d))))).

End GetTickets.

(** [TicketStats]. *)
Record TicketStats : Type := mkTicketStats {
  total : Z;
  open : Z;
  in_progress : Z;
  resolved : Z;
  closed : Z;
}.

(** The row count and [SUM(CASE WHEN ... THEN 1 ELSE 0 END)] over rows, read
    with [parseInt(...) || 0]: the number of rows that satisfy the test (the
    NULL sum of no rows reads as 0). *)
Definition count_where {A} (p : A -> bool) (l : list A) : Z :=
  Z.of_nat (List.length (List.filter p l)).

(** The WHERE clause of [getTicketStats]; [departmentId] is the number the
    route passes (the array form is used by no caller). *)
Definition stats_where (userId : option string) (departmentId : option Js.number)
  (r : ComplaintRow) : bool :=
  (match userId with
   | Some u =>
       if Js.string_truthy u
       then String.eqb (cms_user_id r) u || Js.string_eq_opt u (cms_sys_l1_id r)
       else true
   | None => true
   end) &&
  (match departmentId with
   | Some (Js.Num z) =>
       if z =? 0 then true
       else match cms_sys_dep_id r with Some x => x =? z | None => false end
   | _ => true
   end).

(** [getTicketStats]. *)
Definition getTicketStats (userId : option string) (departmentId : option Js.number) (d : DB)
  : TicketStats :=
  let rs := sql_select (stats_where userId departmentId) (complaints d) in
  {| total := Z.of_nat (List.length rs);
     open := count_where (fun r => Js.string_eq_opt "open" (cms_com_status r)) rs;
     in_progress :=
       count_where
         (fun r =>
            match cms_com_status r with
            | Some s => mem_string s ["in_progress"; "in-progress"; "assigned"]
            | None => false
            end) rs;
     resolved := count_where (fun r => Js.string_eq_opt "resolved" (cms_com_status r)) rs;
     closed := count_where (fun r => Js.string_eq_opt "closed" (cms_com_status r)) rs |}.

(** A chat message as [getTicketMessages] returns it; the sender columns
    come from the LEFT JOIN and are NULL when no user row has the key. *)
Record ChatMessage : Type := mkChatMessage {
  chat_id : Z;
  chat_ticket_id : Z;
  chat_sender_id : option string;
  chat_message : string;
  chat_created_at : option Z;
  chat_sender_first_name : option string;
  chat_sender_last_name : option string;
  chat_sender_email : option string;
}.

Definition older_first (a b : option Z) : bool :=
  match a, b with
  | Some x, Some y => x <=? y
  | None, _ => true
  | Some _, None => false
  end.

(** [getTicketMessages]: the chat rows under the ticket's number, oldest
    first, each joined with the users whose numeric key it names; no ticket,
    or a ticket without a number, has no messages. *)
Definition getTicketMessages (ticketId : Z) (d : DB) : list ChatMessage :=
  match head (sql_select (fun r => cms_com_id r =? ticketId) (complaints d)) with
  | None => []
  | Some row =>
      if negb (Js.string_truthy (cms_com_ticket_no row)) then []
      else
        List.flat_map
          (fun r =>
             match sql_select (fun u => user_pk u =? cms_resolve_user_id r) (users d) with
             | [] =>
                 [mkChatMessage (cms_resolve_id r) ticketId None (cms_resolve_desc r)
                    (cms_resolve_created_at r) None None None]
             | us =>
                 List.map
                   (fun u =>
                      mkChatMessage (cms_resolve_id r) ticketId (Some (cms_user_id_u u))
                        (cms_resolve_desc r) (cms_resolve_created_at r)
                        (Some (cms_user_firstname u)) (Some (cms_user_lastname u))
                        (cms_user_email u))
                   us
             end)
          (order_by
             (fun a b => older_first (cms_resolve_created_at a) (cms_resolve_created_at b))
             (sql_select
                (fun r => String.eqb (cms_resolove_ticket_no r) (cms_com_ticket_no row))
                (resolves d)))
  end.

(** [getConversationMessages]: the messages of a conversation, oldest first. *)
Definition getConversationMessages (conversationId : Z) (d : DB)
  : list ConversationMessageRow :=
  order_by (fun a b => older_first (cmsg_created_at a) (cmsg_created_at b))
    (sql_select (fun m => conversation_id m =? conversationId) (conversation_messages d)).

(** What [getUserPrefs] returns. *)
Record UserPrefs : Type := mkUserPrefs {
  up_notifications : bool;
  up_daily_summary : bool;
}.

Definition set_prefs (f : list PrefsRow -> list PrefsRow) (d : DB) : DB :=
  mkDB (companies d) (departments d) (systems d) (complaints d) (users d)
       (resolves d) (f (prefs d)) (meetings d) (attendees d) (conversations d)
       (conversation_messages d).

Section Prefs.

(** When two values are the same key of [cms_user_prefs].  [ensurePrefsTable]
    creates the table with [cms_user_id VARCHAR(255) PRIMARY KEY] and
    [DEFAULT CHARSET=utf8mb4], so keys are compared under the default
    collation of that character set, which is the server's (and ignores the
    case of letters); it is not repository code. *)
Variable prefs_key_eq : string -> string -> bool.

(** [getUserPrefs]: the row of the key, or notifications on and daily
    summary off when there is none. *)
Definition getUserPrefs (userId : string) (d : DB) : UserPrefs :=
  match List.find (fun p => prefs_key_eq (prefs_user_id p) userId) (prefs d) with
  | Some r => mkUserPrefs (notifications r) (daily_summary r)
  | None => mkUserPrefs true false
  end.

(** [upsertUserPrefs]: a value left undefined keeps what [getUserPrefs]
    reads.  [INSERT ... ON DUPLICATE KEY UPDATE]: a row whose key is the
    same as the given one keeps its key and takes the two values; when
    there is none, a row with the given key is added. *)
Definition upsertUserPrefs (userId : string) (notifications_ daily_summary_ : option bool)
  (d : DB) : DB :=
  let current := getUserPrefs userId d in
  let n := default (up_notifications current) notifications_ in
  let s := default (up_daily_summary current) daily_summary_ in
  set_prefs
    (fun l =>
       if List.existsb (fun p => prefs_key_eq (prefs_user_id p) userId) l
       then List.map
              (fun p =>
                 if prefs_key_eq (prefs_user_id p) userId then mkPrefs (prefs_user_id p) n s
                 else p) l
       else l ++ [mkPrefs userId n s])
    d.

End Prefs.

(** [listEmailsForDailySummary]: as [listEmailsForNotifications], on the
    daily-summary flag. *)
Definition listEmailsForDailySummary (d : DB) : list string :=
  List.flat_map
    (fun u =>
       List.flat_map
         (fun p =>
            if String.eqb (prefs_user_id p) (cms_user_id_u u) && daily_summary p &&
               ((cms_user_type_id u =? 99) || (cms_user_type_id u =? 1))
            then match cms_user_email u with
                 | Some e => if Js.string_truthy e then [e] else []
                 | None => []
                 end
            else [])
         (prefs d))
    (rows (users d)).

End Storage.

(* ------------------------------------------------------------------ *)
(** ** JSON values, for response bodies and WebSocket payloads *)

Module Json.

#[local] Unset Elimination Schemes.

Inductive t : Type :=
| Null
| Bool (b : bool)
| Number (z : Z)
| Str (s : string)
| Date (at_ : Z)
| Arr (items : list t)
| Obj (fields : list (string * t)).

#[local] Set Elimination Schemes.

(** A property whose value may be undefined: serialisation drops it. *)
Definition field {A} (name : string) (f : A -> t) (v : option A) : list (string * t) :=
  match v with
  | Some a => [(name, f a)]
  | None => []
  end.

(** A property whose value may be null. *)
Definition nullable {A} (f : A -> t) (v : option A) : t :=
  match v with
  | Some a => f a
  | None => Null
  end.

End Json.

(* ------------------------------------------------------------------ *)
(** ** The WebSocket hub ([WebSocketManager]) *)

Module Hub.

Inductive ReadyState : Type := CONNECTING | OPEN | CLOSING | CLOSED.

(** A socket: its state and what has been sent on it, oldest first. *)
Record WebSocket : Type := mkWebSocket {
  readyState : ReadyState;
  sent : list string;
}.

Definition is_open (w : WebSocket) : bool :=
  match readyState w with
  | OPEN => true
  | _ => false
  end.

(** [ws.send(data)]. *)
Definition send (data : string) (w : WebSocket) : WebSocket :=
  mkWebSocket (readyState w) (sent w ++ [data]).

(** What a connection tracks as its ticket: nothing, the number parsed from
    the connection URL or sent with [join_ticket], or whatever other JSON
    value a [join_ticket] message carried. *)
Inductive TicketId : Type :=
| Undefined
| Numeric (n : Js.number)
| NonNumeric (v : Json.t).

(** [client.ticketId === ticketId] for a numeric [ticketId]. *)
Definition ticketId_is (tracked : TicketId) (ticketId : Z) : bool :=
  match tracked with
  | Numeric n => Js.number_eq n (Js.Num ticketId)
  | _ => false
  end.

(** [ClientConnection]; every connection owns its socket. *)
Record ClientConnection : Type := mkClient {
  ws : WebSocket;
  userId : string;
  ticketId : TicketId;
}.

Definition client_send (data : string) (c : ClientConnection) : ClientConnection :=
  mkClient (send data (ws c)) (userId c) (ticketId c).

(** [this.clients]: client id to connection. *)
Abbreviation Clients := (gmap string ClientConnection).

(** The three message types [handleMessage] knows. *)
Inductive ClientMessage : Type :=
| join_ticket (ticketId : TicketId)
| leave_ticket
| ping
| unknown_type.

Section Fanout.

(** [encryptMessage] of [lib/crypto.js] (AES of the crypto-js package under
    the fixed secret) and [JSON.stringify]: neither is repository code. *)
Variable encryptMessage : string -> string.
Variable JSON_stringify : Json.t -> string.

(** [handleMessage]: a message from an untracked client is dropped. *)
Definition handleMessage (now : string) (clientId : string) (message : ClientMessage)
  (clients : Clients) : Clients :=
  match clients !! clientId with
  | None => clients
  | Some client =>
      match message with
      | join_ticket t => <[clientId := mkClient (ws client) (userId client) t]> clients
      | leave_ticket => <[clientId := mkClient (ws client) (userId client) Undefined]> clients
      | ping =>
          if is_open (ws client)
          then <[clientId :=
                   client_send
                     (JSON_stringify
                        (Json.Obj [("type", Json.Str "pong"); ("timestamp", Json.Str now)]))
                     client]> clients
          else clients
      | unknown_type => clients
      end
  end.

(** [targets.forEach(client => { if (client.ws.readyState === WebSocket.OPEN)
    client.ws.send(data) })], the targets named by their client ids. *)
Definition forEach_send (data : string) (targets : list (string * ClientConnection))
  (clients : Clients) : Clients :=
  List.fold_left
    (fun cs kc => if is_open (ws (snd kc)) then alter (client_send data) (fst kc) cs else cs)
    targets clients.

(** [broadcastTicketMessage]. *)
Definition broadcastTicketMessage (now : string) (ticketId_ : Z) (message : Json.t)
  (clients : Clients) : Clients :=
  let ticketClients :=
    List.filter (fun kc => ticketId_is (ticketId (snd kc)) ticketId_) (map_to_list clients) in
  let messageData :=
    encryptMessage
      (JSON_stringify
         (Json.Obj [("type", Json.Str "new_message"); ("ticketId", Json.Number ticketId_);
                    ("message", message); ("timestamp", Json.Str now)])) in
  forEach_send messageData ticketClients clients.

(** [broadcastTicketUpdate]. *)
Definition broadcastTicketUpdate (now : string) (ticketId_ : Z) (update : Json.t)
  (clients : Clients) : Clients :=
  let ticketClients :=
    List.filter (fun kc => ticketId_is (ticketId (snd kc)) ticketId_) (map_to_list clients) in
  let updateData :=
    encryptMessage
      (JSON_stringify
         (Json.Obj [("type", Json.Str "ticket_update"); ("ticketId", Json.Number ticketId_);
                    ("update", update); ("timestamp", Json.Str now)])) in
  forEach_send updateData ticketClients clients.

(** [notifyUser]. *)
Definition notifyUser (now : string) (userId_ : string) (notification : Json.t)
  (clients : Clients) : Clients :=
  let userClients :=
    List.filter (fun kc => String.eqb (userId (snd kc)) userId_) (map_to_list clients) in
  let notificationData :=
    encryptMessage
      (JSON_stringify
         (Json.Obj [("type", Json.Str "notification"); ("notification", notification);
                    ("timestamp", Json.Str now)])) in
  forEach_send notificationData userClients clients.

(** The ['connection'] handler.  Without a user id in the URL the socket is
    closed (1008) and not tracked.  Otherwise the connection is tracked under
    [userId-Date.now()], with the ticket id parsed from the URL when there is
    one ([parseInt] is called without a radix), and is sent the encrypted
    confirmation. *)
Definition connection (now_ms : Z) (now : string) (query_userId query_ticketId : option string)
  (clients : Clients) : Clients :=
  match query_userId with
  | None => clients
  | Some u =>
      if negb (Js.string_truthy u) then clients
      else
        let tracked :=
          match query_ticketId with
          | Some t =>
              if Js.string_truthy t then Numeric (Js.parseInt_no_radix t) else Undefined
          | None => Undefined
          end in
        let clientId := u +:+ "-" +:+ Js.String_of_Z now_ms in
        <[clientId :=
            client_send
              (encryptMessage
                 (JSON_stringify
                    (Json.Obj [("type", Json.Str "connected"); ("clientId", Json.Str clientId);
                               ("timestamp", Json.Str now)])))
              (mkClient (mkWebSocket OPEN []) u tracked)]> clients
  end.

(** The ['close'] and ['error'] handlers of a connection: its client id is
    removed. *)
Definition close (clientId : string) (clients : Clients) : Clients := delete clientId clients.

End Fanout.

End Hub.

(* ------------------------------------------------------------------ *)
(** ** The route layer ([createHelpdeskRoutes]) *)

Module Routes.

Import Storage.

(** What a handler reads from its surroundings: [process.env], the clock
    ([Date.now()], [NOW()] and the ISO rendering of [new Date()]) and the
    two generators ([generateTicketNumber], [customAlphabet(...)()]). *)
Record Env : Type := mkEnv {
  SMTP_HOST : option string;
  SMTP_USER : option string;
  SMTP_PASS : option string;
  SMTP_FROM : option string;
  FRONTEND_URL : option string;
  MEET_PROVIDER : option string;
  MEET_ROOM_PREFIX : option string;
  now : Z;
  now_iso : string;
  fresh_ticket_number : string;
  fresh_nano : string;
}.

(** A message handed to [transporter.sendMail]. *)
Record Mail : Type := mkMail {
  mail_from : option string;
  mail_to : string;
  mail_subject : string;
  mail_text : option string;
  mail_html : option string;
}.

(** The state a handler runs against: the tables, the hub when one was
    initialised ([getWebSocketManager()] is null otherwise) and the mail
    handed to the transport so far. *)
Record World : Type := mkWorld {
  db : DB;
  hub : option Hub.Clients;
  outbox : list Mail;
}.

Definition with_db (d : DB) (w : World) : World := mkWorld d (hub w) (outbox w).
Definition with_hub (f : Hub.Clients -> Hub.Clients) (w : World) : World :=
  mkWorld (db w) (f <$> hub w) (outbox w).
Definition with_mail (ms : list Mail) (w : World) : World :=
  mkWorld (db w) (hub w) (outbox w ++ ms).

(** [res.status(code).json(body)]. *)
Record Response : Type := mkResponse {
  code : Z;
  body : Json.t;
}.

Definition error (c : Z) (msg : string) : Response :=
  mkResponse c (Json.Obj [("error", Json.Str msg)]).

Definition is_role (r : Role) (u : HRMSUser) : bool :=
  match role u, r with
  | employee, employee | admin, admin | super_admin, super_admin => true
  | _, _ => false
  end.

(** [requester.role === 'admin' || requester.role === 'super_admin']. *)
Definition is_admin (u : HRMSUser) : bool := is_role admin u || is_role super_admin u.

(** [updateStatusSchema.parse]: the status must be one of the four. *)
Definition updateStatusSchema (status_ : option string) : option string :=
  match status_ with
  | Some s => if mem_string s ["open"; "in_progress"; "resolved"; "closed"] then Some s else None
  | None => None
  end.

(** [assignTicketSchema.parse]: any string. *)
Definition assignTicketSchema (assigned_to_ : option string) : option string := assigned_to_.

(** [messageSchema.parse]: a string of at least one character. *)
Definition messageSchema (message : option string) : option string :=
  match message with
  | Some s => if Js.string_truthy s then Some s else None
  | None => None
  end.

(** [(d.split('\n')[0] || '').trim()] on the optional description. *)
Definition subject_of_description (d : option string) : string :=
  Js.trim (Js.or_string (Js.first_line (default "" d)) "").

(** The ticket shape the status, assign and accept handlers answer with. *)
Definition mapped_ticket (with_updated : bool) (t : Ticket) : Json.t :=
  Json.Obj
    ([("id", Json.Number (ticket_id t));
      ("ticketNumber", Json.Str (ticket_number t));
      ("subject", Json.Str (subject_of_description (description t)));
      ("description", Json.nullable Json.Str (description t));
      ("priority", Json.Str (priority t));
      ("status", Json.Str (status t));
      ("createdAt", Json.nullable Json.Date (created_at t))] ++
     (if with_updated then [("updatedAt", Json.nullable Json.Date (updated_at t))] else [])).

(** [(ticket as any).department_id === Number(requester.department)]. *)
Definition same_department_strict (t : Ticket) (u : HRMSUser) : bool :=
  match department_id t with
  | Some d => Js.number_eq (Js.Num d) (Js.Number (department u))
  | None => false
  end.

(** [!(ticket as any).assigned_to]. *)
Definition unassigned (t : Ticket) : bool := negb (Js.opt_string_truthy (assigned_to t)).

(** [canUpdate] of the status handler. *)
Definition canUpdate (requester : HRMSUser) (ticket : Ticket) : bool :=
  is_role admin requester ||
  is_role super_admin requester ||
  (is_role employee requester &&
   same_department_strict ticket requester &&
   (Js.string_eq_opt (employee_id requester) (assigned_to ticket) || unassigned ticket)).

(** The double quote, as a one-character string. *)
Definition q : string := String Html.dquote EmptyString.

(** The literal parts of the HTML body of the department notification,
    between its seven interpolations. *)
Definition html_lit_0 : string :=
  "
            <div style=" +:+ q +:+ "font-family:Segoe UI,Arial,sans-serif;max-width:600px;margin:0 auto;background:#f9f9f9;padding:32px 24px 24px 24px;border-radius:10px;border:1px solid #e5e7eb;" +:+ q +:+ ">
              <img src='https://www.lscgroup.in/images/logo.png' alt='LSC Logo' style='height:40px;margin-bottom:24px;'>
              <h2 style=" +:+ q +:+ "color:#2563eb;margin-bottom:8px;" +:+ q +:+ ">New Support Ticket Created</h2>
              <p style=" +:+ q +:+ "color:#222;font-size:16px;" +:+ q +:+ ">Dear Team,</p>
              <p style=" +:+ q +:+ "color:#222;font-size:15px;" +:+ q +:+ ">A new support ticket has been raised in the LSC Helpdesk system. Please review the details below:</p>
              <table style=" +:+ q +:+ "margin:18px 0 24px 0;font-size:15px;color:#222;" +:+ q +:+ ">
                <tr><td style=" +:+ q +:+ "font-weight:bold;padding-right:8px;" +:+ q +:+ ">Subject:</td><td>".

Definition html_lit_1 : string :=
  "</td></tr>
                <tr><td style=" +:+ q +:+ "font-weight:bold;padding-right:8px;" +:+ q +:+ ">Priority:</td><td>".

Definition html_lit_2 : string :=
  "</td></tr>
                <tr><td style=" +:+ q +:+ "font-weight:bold;padding-right:8px;" +:+ q +:+ ">Raised by:</td><td>".

Definition html_lit_3 : string :=
  " ".

Definition html_lit_4 : string :=
  "</td></tr>
                <tr><td style=" +:+ q +:+ "font-weight:bold;padding-right:8px;" +:+ q +:+ ">Target System:</td><td>".

Definition html_lit_5 : string :=
  "</td></tr>
                <tr><td style=" +:+ q +:+ "font-weight:bold;padding-right:8px;" +:+ q +:+ ">Ticket Number:</td><td>".

Definition html_lit_6 : string :=
  "</td></tr>
              </table>
              <a href=" +:+ q.

Definition html_lit_7 : string :=
  q +:+ " style=" +:+ q +:+ "display:inline-block;margin-top:8px;padding:12px 28px;background:#2563eb;color:#fff;text-decoration:none;border-radius:6px;font-weight:bold;font-size:16px;" +:+ q +:+ ">View Ticket</a>
              <p style=" +:+ q +:+ "margin-top:32px;font-size:13px;color:#888;" +:+ q +:+ ">This is an automated message from LSC Helpdesk. If you have questions, contact helpdesk@mylsc.in.<br>Logistics Sector Skill Council, India</p>
            </div>
          ".

(** The department notification's HTML body: every interpolation goes
    through [escapeHtml]. *)
Definition department_mail_html (subject_ priority_ first_name_ last_name_ target_system_
  ticket_number_ ticketLink : string) : string :=
  html_lit_0 +:+ Html.escapeHtml subject_ +:+
  html_lit_1 +:+ Html.escapeHtml (Js.capitalize priority_) +:+
  html_lit_2 +:+ Html.escapeHtml first_name_ +:+
  html_lit_3 +:+ Html.escapeHtml last_name_ +:+
  html_lit_4 +:+ Html.escapeHtml target_system_ +:+
  html_lit_5 +:+ Html.escapeHtml ticket_number_ +:+
  html_lit_6 +:+ Html.escapeHtml ticketLink +:+
  html_lit_7.

(** The dash and the three markers of the mail texts, byte for byte. *)
Definition mail_dash : string := "â€”".
Definition when_mark : string := "ðŸ“…".
Definition where_mark : string := "ðŸ“".
Definition note_mark : string := "ðŸ“".

Definition newline : string := String "010" EmptyString.

(** The plain-text body of a meeting reminder: the template literal, then
    [trim]. *)
Definition meeting_mail_text (description_ date_ time_ where_ : string)
  (reminderNote : option string) : string :=
  Js.trim
    (newline +:+ description_ +:+ newline +:+ newline +:+
     when_mark +:+ " When: " +:+ date_ +:+ " at " +:+ time_ +:+ newline +:+
     where_mark +:+ " Where: " +:+ where_ +:+ newline +:+
     (match reminderNote with
      | Some n => if Js.string_truthy n then newline +:+ note_mark +:+ " Note: " +:+ n else ""
      | None => ""
      end) +:+ newline +:+ "                ").

(** The multipart fields of [POST /tickets]. *)
Record TicketForm : Type := mkTicketForm {
  form_department_id : option string;
  form_departmentId : option string;
  form_company_id : option string;
  form_companyId : option string;
  form_target_system_id : option string;
  form_targetSystemId : option string;
  form_subject : option string;
  form_description : option string;
  form_priority : option string;
}.

(** A file as multer stored it. *)
Record UploadedFile : Type := mkUploadedFile {
  filename : string;
  originalname : string;
  mimetype : string;
  size : Z;
  path : string;
}.

(** [createTicketSchema.parse]: three numbers (NaN is refused), a subject
    of 1 to 500 characters, a non-empty description and a priority out of
    three; [created_by] is added by the handler. *)
Definition createTicketSchema (company_id_ department_id_ target_system_id_ : Js.number)
  (subject_ description_ priority_ created_by_ : string) : option NewTicket :=
  match company_id_, department_id_, target_system_id_ with
  | Js.Num c, Js.Num d, Js.Num t =>
      if (1 <=? Js.length subject_)%nat && (Js.length subject_ <=? 500)%nat &&
         (1 <=? Js.length description_)%nat &&
         mem_string priority_ ["low"; "medium"; "high"]
      then Some (mkNewTicket c d t subject_ description_ priority_ created_by_)
      else None
  | _, _, _ => None
  end.

(** The row [createTicket] hands back is a row of [SELECT *]: its keys are
    the column names of the table.  Read through the [Ticket] interface, as
    the handler does, the properties below are all undefined. *)
Record CreatedTicket : Type := mkCreatedTicket {
  ct_id : option Z;
  ct_ticket_number : option string;
  ct_description : option string;
  ct_priority : option string;
  ct_status : option string;
  ct_created_at : option Z;
}.

Definition created_view (r : ComplaintRow) : CreatedTicket :=
  mkCreatedTicket None None None None None None.

(** [!process.env.SMTP_HOST || !(process.env.SMTP_USER || process.env.SMTP_FROM)],
    negated. *)
Definition smtp_configured (e : Env) : bool :=
  Js.opt_string_truthy (SMTP_HOST e) &&
  Js.opt_string_truthy (Js.or_opt (SMTP_USER e) (SMTP_FROM e)).

(** The query string of [GET /tickets]. *)
Record TicketQuery : Type := mkTicketQuery {
  q_status : option string;
  q_department_id : option string;
  q_priority : option string;
  q_search : option string;
  q_limit : option string;
  q_offset : option string;
}.

(** The body of [POST /meetings]. *)
Record MeetingForm : Type := mkMeetingForm {
  m_title : option string;
  m_date : option string;
  m_time : option string;
  m_attendees : list string;
  m_meetingType : option string;
  m_location : option string;
  m_description : option string;
  m_sendReminder : bool;
  m_reminderNote : option string;
  m_meetId : option string;
}.

(** An optional string kept only when truthy. *)
Definition truthy (v : option string) : option string :=
  match v with
  | Some s => if Js.string_truthy s then Some s else None
  | None => None
  end.

Definition json_company (c : CompanyRow) : Json.t :=
  Json.Obj [("id", Json.Number (cms_com_id_c c)); ("name", Json.Str (cms_com_name c));
            ("created_at", Json.nullable Json.Date (cms_com_created_at c))].

Definition json_department (r : DepartmentRow) : Json.t :=
  Json.Obj [("id", Json.Number (cms_dep_id_d r)); ("name", Json.Str (cms_dep_name r));
            ("company_id", Json.nullable Json.Number (cms_dep_com_id r));
            ("created_at", Json.nullable Json.Date (cms_created_at_d r))].

Definition json_system (r : SystemRow) : Json.t :=
  Json.Obj [("id", Json.Number (cms_sys_id_s r)); ("name", Json.Str (cms_sys_name r));
            ("department_id", Json.Number (cms_dep_id_s r));
            ("company_id", Json.nullable Json.Number (cms_comp_id_s r));
            ("created_at", Json.nullable Json.Date (cms_sys_created_at r))].

Definition json_conversation (c : ConversationRow) : Json.t :=
  Json.Obj [("id", Json.Number (conv_id c)); ("member_a_id", Json.Str (member_a_id c));
            ("member_b_id", Json.Str (member_b_id c));
            ("dept_id", Json.nullable Json.Number (dept_id c));
            ("created_at", Json.nullable Json.Date (conv_created_at c))].

Definition json_conversation_message (m : ConversationMessageRow) : Json.t :=
  Json.Obj [("id", Json.Number (cmsg_id m)); ("conversation_id", Json.Number (conversation_id m));
            ("sender_id", Json.Str (sender_id_c m)); ("message", Json.Str (message_c m));
            ("created_at", Json.nullable Json.Date (cmsg_created_at m))].

(** One entry of the list [GET /tickets] answers with. *)
Definition listed_ticket (t : Ticket) : Json.t :=
  Json.Obj [("id", Json.Number (ticket_id t));
            ("ticketNumber", Json.Str (ticket_number t));
            ("subject", Json.Str (subject t));
            ("description", Json.nullable Json.Str (description t));
            ("priority", Json.Str (priority t));
            ("status", Json.Str (status t));
            ("createdAt", Json.nullable Json.Date (created_at t));
            ("department", Json.Obj [("id", Json.nullable Json.Number (department_id t))]);
            ("assignedTo",
             if Js.opt_string_truthy (assigned_to t)
             then Json.Obj [("id", Json.nullable Json.Str (assigned_to t))]
             else Json.Null);
            ("createdBy", Json.Obj [("id", Json.Str (created_by t))])].

Section Handlers.

Variable xss : string -> string.
Variable encryptMessage : string -> string.
Variable JSON_stringify : Json.t -> string.
Variable sql_like : string -> string -> bool.

Variable env : Env.

(** What the columns of [cms_meetings] and [cms_meeting_attendees] store,
    as in the storage service. *)
Variable stored_as : ColumnType -> string -> option string.

(** The order [ORDER BY cms_sys_name] sorts in, as in the storage service. *)
Variable sys_name_le : string -> string -> bool.

Abbreviation sanitizeInput := (Html.sanitizeInput xss).
Abbreviation broadcastTicketUpdate :=
  (Hub.broadcastTicketUpdate encryptMessage JSON_stringify (now_iso env)).
Abbreviation broadcastTicketMessage :=
  (Hub.broadcastTicketMessage encryptMessage JSON_stringify (now_iso env)).
Abbreviation notifyUser := (Hub.notifyUser encryptMessage JSON_stringify (now_iso env)).

(** [GET /tickets/:id]; [id_] is [Number(req.params.id)].  The department
    check of the source is commented out ("TEMP: Allow all authenticated
    users to view tickets for debugging"): the requester is not consulted. *)
Definition get_ticket (w : World) (requester : HRMSUser) (id_ : Z) : Response * World :=
  match getTicketById id_ (db w) with
  | None => (error 404 "Ticket not found", w)
  | Some ticket =>
      (mkResponse 200
         (Json.Obj
            ([("id", Json.Number (ticket_id ticket));
              ("ticketNumber", Json.Str (ticket_number ticket));
              ("subject", Json.Str (subject_of_description (description ticket)));
              ("description", Json.nullable Json.Str (description ticket));
              ("priority", Json.Str (priority ticket));
              ("status", Json.Str (status ticket));
              ("createdAt", Json.nullable Json.Date (created_at ticket));
              ("updatedAt", Json.nullable Json.Date (updated_at ticket));
              ("department", Json.Obj [("id", Json.nullable Json.Number (department_id ticket))]);
              ("createdBy", Json.Obj [("id", Json.Str (created_by ticket))])] ++
             (if Js.opt_string_truthy (assigned_to ticket)
              then [("assignedTo", Json.Obj [("id", Json.nullable Json.Str (assigned_to ticket))])]
              else []) ++
             [("attachments",
               Json.Arr (List.map (fun f => Json.Obj [("fileName", Json.Str f)])
                           (attachments ticket)))])),
       w)
  end.

(** [PATCH /tickets/:id/status]. *)
Definition patch_ticket_status (w : World) (requester : HRMSUser) (id_ : Z)
  (body_status : option string) : Response * World :=
  match updateStatusSchema body_status with
  | None => (error 500 "Failed to update ticket status", w)
  | Some status_ =>
      match getTicketById id_ (db w) with
      | None => (error 404 "Ticket not found", w)
      | Some ticket =>
          if negb (canUpdate requester ticket) then
            (error 403
               "You can only update tickets from your department that you have accepted or that are unassigned",
             w)
          else
            let '(updatedTicket, d) := updateTicketStatus id_ status_ (db w) in
            let w1 :=
              with_hub (broadcastTicketUpdate id_ (Json.Obj [("status", Json.Str status_)]))
                (with_db d w) in
            match updatedTicket with
            | None => (error 500 "Failed to update ticket status", w1)
            | Some u => (mkResponse 200 (mapped_ticket true u), w1)
            end
      end
  end.

(** [PATCH /tickets/:id/assign]: the role is checked before the ticket is
    looked for. *)
Definition patch_ticket_assign (w : World) (requester : HRMSUser) (id_ : Z)
  (body_assigned_to : option string) : Response * World :=
  match assignTicketSchema body_assigned_to with
  | None => (error 500 "Failed to assign ticket", w)
  | Some assigned_to_ =>
      if negb (is_admin requester) then (error 403 "Only admins can reassign tickets", w)
      else
        match getTicketById id_ (db w) with
        | None => (error 404 "Ticket not found", w)
        | Some ticket =>
            let '(updatedTicket, d) := assignTicket id_ assigned_to_ (db w) in
            match updatedTicket with
            | None => (error 500 "Failed to assign ticket", with_db d w)
            | Some u =>
                let w1 :=
                  with_hub
                    (broadcastTicketUpdate id_
                       (Json.Obj [("assigned_to", Json.Str assigned_to_);
                                  ("status", Json.Str (status u))]))
                    (with_db d w) in
                (mkResponse 200 (mapped_ticket true ticket), w1)
            end
        end
  end.

(** [POST /tickets/:id/accept]. *)
Definition post_ticket_accept (w : World) (requester : HRMSUser) (id_ : Z) : Response * World :=
  match getTicketById id_ (db w) with
  | None => (error 404 "Ticket not found", w)
  | Some ticket =>
      if Js.opt_string_truthy (assigned_to ticket) then (error 409 "Ticket already accepted", w)
      else
        let assignedTo := employee_id requester in
        let '(updatedTicket, d) := assignTicket id_ assignedTo (db w) in
        match updatedTicket with
        | None => (error 500 "Failed to accept ticket", with_db d w)
        | Some u =>
            let w1 :=
              with_hub
                (broadcastTicketUpdate id_
                   (Json.Obj [("assigned_to", Json.Str assignedTo);
                              ("status", Json.Str (status u))]))
                (with_db d w) in
            (mkResponse 200 (mapped_ticket false u), w1)
        end
  end.

(** [x ? Number(x) : undefined] on the requester's department. *)
Definition userDep (u : HRMSUser) : option Js.number :=
  if Js.string_truthy (department u) then Some (Js.Number (department u)) else None.

(** [x ? Number(x) : undefined] on the ticket's department. *)
Definition ticketDep (t : Ticket) : option Js.number :=
  match department_id t with
  | Some d => if d =? 0 then None else Some (Js.Num d)
  | None => None
  end.

(** [userDep && userDep === ticketDep]. *)
Definition shares_department (u : HRMSUser) (t : Ticket) : bool :=
  match userDep u with
  | Some n =>
      Js.number_truthy n &&
      match ticketDep t with
      | Some m => Js.number_eq n m
      | None => false
      end
  | None => false
  end.

(** [allowed] of the chat handler. *)
Definition allowed (user : HRMSUser) (t : Ticket) : bool :=
  is_admin user ||
  shares_department user t ||
  String.eqb (employee_id user) (created_by t) ||
  Js.string_eq_opt (employee_id user) (assigned_to t).

(** [POST /tickets/:id/messages]. *)
Definition post_ticket_message (w : World) (user : HRMSUser) (ticketId : Z)
  (body_message : option string) : Response * World :=
  match messageSchema body_message with
  | None => (error 500 "Failed to create message", w)
  | Some raw =>
      let message := sanitizeInput raw in
      match getTicketById ticketId (db w) with
      | None => (error 404 "Ticket not found", w)
      | Some t =>
          if negb (allowed user t) then (error 403 "Not allowed to post in this chat", w)
          else
            match createTicketMessage (now env) ticketId (employee_id user) message (db w) with
            | (Throw _, _) => (error 500 "Failed to create message", w)
            | (Ok newMessage, d) =>
                let mapped :=
                  Json.Obj [("id", Json.Number (tm_id newMessage));
                            ("message", Json.Str (tm_message newMessage));
                            ("createdAt", Json.Date (tm_created_at newMessage));
                            ("sender", Json.Obj [("id", Json.Str (tm_sender_id newMessage))])] in
                (mkResponse 201 mapped,
                 with_hub (broadcastTicketMessage ticketId mapped) (with_db d w))
            end
      end
  end.

(** [POST /companies]. *)
Definition post_company (w : World) (name : option string) : Response * World :=
  match truthy name with
  | None => (error 400 "Company name is required", w)
  | Some n =>
      let '(company, d) := createCompany (now env) (sanitizeInput n) (db w) in
      (mkResponse 201 (Json.nullable json_company company), with_db d w)
  end.

(** [POST /departments]. *)
Definition post_department (w : World) (name : option string) : Response * World :=
  match truthy name with
  | None => (error 400 "Department name is required", w)
  | Some n =>
      let '(department_, d) := createDepartment (now env) (sanitizeInput n) (db w) in
      (mkResponse 201 (Json.nullable json_department department_), with_db d w)
  end.

(** [POST /target-systems]; a department id of 0 is falsy. *)
Definition post_target_system (w : World) (name : option string) (department_id_ : option Z)
  : Response * World :=
  match truthy name, or_null department_id_ with
  | Some n, Some dep =>
      let '(targetSystem, d) := createTargetSystem (now env) (sanitizeInput n) dep (db w) in
      (mkResponse 201 (Json.nullable json_system targetSystem), with_db d w)
  | _, _ => (error 400 "Name and department ID are required", w)
  end.

(** The creator's row, inserted when [cms_user_details] has none for the id. *)
Definition ensure_creator (user : HRMSUser) (dep : Z) (d : DB) : DB :=
  if List.existsb (fun u => String.eqb (cms_user_id_u u) (employee_id user)) (rows (users d))
  then d
  else
    set_users
      (fun t =>
         snd (sql_insert
                (fun k =>
                   mkUser k (employee_id user) (employee_id user)
                     (Js.or_string (first_name user) "") (Js.or_string (last_name user) "")
                     (Some (Js.or_string (email user) "")) (or_null (Some dep)) 3
                     (Some (employee_id user)) 1)
                t))
      d.

(** [sendAdminNotification]: one plain-text mail per recipient. *)
Definition sendAdminNotification (subject_ text : string) (d : DB) : list Mail :=
  if smtp_configured env then
    List.map
      (fun r => mkMail (Js.or_opt (SMTP_FROM env) (SMTP_USER env)) r subject_ (Some text) None)
      (listEmailsForNotifications d)
  else [].

(** The department-wide notification of a new ticket: one HTML mail per
    active user of the department who has an email. *)
Definition sendDepartmentNotification (user : HRMSUser) (v : NewTicket) (ticket : CreatedTicket)
  (d : DB) : list Mail :=
  if smtp_configured env then
    let targetSystemName :=
      match List.find (fun s => cms_sys_id_s s =? nt_target_system_id v)
              (getTargetSystemsByDepartment sys_name_le (nt_department_id v) d) with
      | Some s => cms_sys_name s
      | None => ""
      end in
    let ticketLink :=
      Js.or_default (FRONTEND_URL env) "http://localhost:5173" +:+ "/tickets/" +:+
      Js.show (Js.String_of_Z <$> ct_id ticket) in
    let subject_ := "LSC Helpdesk: New Ticket Raised " +:+ mail_dash +:+ " " +:+ nt_subject v in
    let html :=
      department_mail_html (nt_subject v) (nt_priority v)
        (Js.or_string (first_name user) "") (Js.or_string (last_name user) "")
        (Js.or_string targetSystemName (Js.String_of_Z (nt_target_system_id v)))
        (Js.show (ct_ticket_number ticket)) ticketLink in
    List.flat_map
      (fun u =>
         match truthy (cms_user_email u) with
         | Some e => [mkMail (Js.or_opt (SMTP_FROM env) (SMTP_USER env)) e subject_ None (Some html)]
         | None => []
         end)
      (getUsersByDepartment (nt_department_id v) d)
  else [].

(** The attachment loop: [createTicketAttachment] is called with
    [ticket.id]; an undefined bind parameter is refused by the driver. *)
Fixpoint store_attachments (ticket : CreatedTicket) (files : list UploadedFile) (d : DB)
  : result DB :=
  match files with
  | [] => Ok d
  | f :: r =>
      match ct_id ticket with
      | None => Throw "Bind parameters must not contain undefined"
      | Some i => store_attachments ticket r (createTicketAttachment i (filename f) d)
      end
  end.

(** The target system of a new ticket: the requested one when the
    department has it; else the department's first by name; else a system
    'General' created on the spot (NaN when the created row cannot be read). *)
Definition resolve_target_system (dep : Z) (requested : Js.number) (d : DB)
  : Js.number * DB :=
  let systems_ := getTargetSystemsByDepartment sys_name_le dep d in
  let allowedIds_has :=
    List.existsb (fun s => Js.number_eq (Js.Num (cms_sys_id_s s)) requested) systems_ in
  if negb (Js.number_truthy requested) || negb allowedIds_has then
    match systems_ with
    | [] =>
        let '(created, d') := createTargetSystem (now env) "General" dep d in
        (Js.number_of_option (cms_sys_id_s <$> created), d')
    | s0 :: _ => (Js.Num (cms_sys_id_s s0), d)
    end
  else (requested, d).

(** The company of a new ticket: when none was given, the department's. *)
Definition infer_company (company_id_ department_id_ : Js.number) (dep : Z) (d : DB)
  : Js.number :=
  if negb (Js.number_truthy company_id_) && Js.number_truthy department_id_ then
    match or_null
            (head (sql_select (fun r => cms_dep_id_d r =? dep) (departments d))
               ≫= cms_dep_com_id) with
    | Some cid => Js.Num cid
    | None => company_id_
    end
  else company_id_.

(** The notification given to the hub for the creator of a new ticket. *)
Definition new_ticket_note (v : NewTicket) (ticket : CreatedTicket) : Json.t :=
  Json.Obj
    ([("title", Json.Str ("New Ticket " +:+ Js.show (ct_ticket_number ticket)));
      ("body", Json.Str (nt_subject v))] ++
     Json.field "ticketId" Json.Number (ct_id ticket)).

(** The plain-text notification to admins about a new ticket. *)
Definition new_ticket_admin_mail (v : NewTicket) (ticket : CreatedTicket) (d : DB)
  : list Mail :=
  sendAdminNotification
    ("New Ticket " +:+ Js.show (ct_ticket_number ticket))
    ("Ticket " +:+ Js.show (ct_ticket_number ticket) +:+
     " created in department " +:+ Js.String_of_Z (nt_department_id v) +:+ newline +:+
     "Priority: " +:+ nt_priority v +:+ newline +:+
     "Subject: " +:+ nt_subject v)
    d.

(** The body [POST /tickets] answers 201 with. *)
Definition created_ticket_body (v : NewTicket) (ticket : CreatedTicket) : Json.t :=
  Json.Obj
    (Json.field "id" Json.Number (ct_id ticket) ++
     Json.field "ticketNumber" Json.Str (ct_ticket_number ticket) ++
     [("subject", Json.Str (nt_subject v))] ++
     Json.field "description" Json.Str (ct_description ticket) ++
     Json.field "priority" Json.Str (ct_priority ticket) ++
     Json.field "status" Json.Str (ct_status ticket) ++
     Json.field "createdAt" Json.Date (ct_created_at ticket)).

(** [POST /tickets].  With a department that is NaN the request ends in
    500 whatever the driver does (the schema refuses NaN); here the first
    statement bound to NaN fails, so nothing is written.  The two mails are
    sent without being awaited, and the hub is notified, before the
    attachments are stored. *)
Definition post_ticket (w : World) (user : HRMSUser) (body_ : TicketForm)
  (files : list UploadedFile) : Response * World :=
  let fail (w' : World) := (error 500 "Failed to create ticket", w') in
  let department_id_ :=
    Js.Number_opt
      (Js.nullish (Js.nullish (form_department_id body_) (form_departmentId body_))
         (Some (department user))) in
  let company_id_ := Js.Number_opt (Js.nullish (form_company_id body_) (form_companyId body_)) in
  let requested :=
    Js.Number_opt (Js.nullish (form_target_system_id body_) (form_targetSystemId body_)) in
  match department_id_ with
  | Js.NaN => fail w
  | Js.Num dep =>
      let '(target, d1) := resolve_target_system dep requested (db w) in
      match target with
      | Js.NaN => fail (with_db d1 w)
      | Js.Num _ =>
          let company_id1 := infer_company company_id_ department_id_ dep d1 in
          let d2 := ensure_creator user dep d1 in
          let subject_ := sanitizeInput (default "" (form_subject body_)) in
          let description_ := sanitizeInput (default "" (form_description body_)) in
          let priority_ := default "medium" (form_priority body_) in
          match createTicketSchema company_id1 department_id_ target subject_ description_
                  priority_ (employee_id user) with
          | None => fail (with_db d2 w)
          | Some validatedData =>
              let '(created, d3) :=
                createTicket (now env) (fresh_ticket_number env) validatedData d2 in
              match created with
              | None => fail (with_db d3 w)
              | Some row =>
                  let ticket := created_view row in
                  let w1 :=
                    with_hub
                      (notifyUser (employee_id user) (new_ticket_note validatedData ticket))
                      (with_mail
                         (new_ticket_admin_mail validatedData ticket d3 ++
                          sendDepartmentNotification user validatedData ticket d3)
                         (with_db d3 w)) in
                  match store_attachments ticket files d3 with
                  | Throw _ => fail w1
                  | Ok d4 => (mkResponse 201 (created_ticket_body validatedData ticket),
                              with_db d4 w1)
                  end
              end
          end
      end
  end.

(** The filters [GET /tickets] builds: everyone but a super admin starts
    from their own department when it is a non-zero number, and a
    [department_id] in the query string replaces it for every role. *)
Definition ticket_filters (user : HRMSUser) (query : TicketQuery) : Filters :=
  let own :=
    if negb (is_role super_admin user) then
      match userDep user with
      | Some depId => if Js.number_truthy depId then Some depId else None
      | None => None
      end
    else None in
  mkFilters None
    (match truthy (q_department_id query) with
     | Some v => Some (Js.Number v)
     | None => own
     end)
    (sanitizeInput <$> truthy (q_status query))
    (sanitizeInput <$> truthy (q_priority query))
    (sanitizeInput <$> truthy (q_search query)).

(** [GET /tickets]. *)
Definition get_tickets (w : World) (user : HRMSUser) (query : TicketQuery) : Response * World :=
  let filters := ticket_filters user query in
  let limitNum :=
    match truthy (q_limit query) with
    | Some l => Js.clamp 1 100 (Js.parseInt l)
    | None => Js.Num 20
    end in
  let offsetNum :=
    match truthy (q_offset query) with
    | Some o => Js.at_least 0 (Js.parseInt o)
    | None => Js.Num 0
    end in
  match limitNum, offsetNum with
  | Js.Num l, Js.Num o =>
      (mkResponse 200
         (Json.Arr (List.map listed_ticket (getTickets sql_like filters l o (db w)))), w)
  | _, _ => (error 500 "Failed to fetch tickets", w)
  end.

(** The link generated for the configured provider. *)
Definition generated_link (code_ : string) : string :=
  let provider := Js.toLowerCase (Js.or_default (MEET_PROVIDER env) "jitsi") in
  if String.eqb provider "google" then "https://meet.google.com/" +:+ code_
  else if String.eqb provider "zoom" then "https://zoom.us/j/" +:+ code_
  else if String.eqb provider "teams" then "https://teams.microsoft.com/l/meetup-join/" +:+ code_
  else "https://meet.jit.si/" +:+ Js.or_default (MEET_ROOM_PREFIX env) "Helpdesk" +:+
       "-" +:+ code_.

(** The link of an online meeting: the location when it is a URL, else a
    generated one. *)
Definition meeting_link_of (location_ : option string) (code_ : string) : string :=
  match truthy location_ with
  | Some l => if Js.startsWith "http" l then l else generated_link code_
  | None => generated_link code_
  end.

(** [POST /meetings]: title and description reach [createMeeting] and the
    reminder as they were submitted.  When [createMeeting] throws, the
    handler's catch answers 500, after whatever was written. *)
Definition post_meeting (w : World) (user : HRMSUser) (body_ : MeetingForm) : Response * World :=
  match truthy (m_title body_), truthy (m_date body_), truthy (m_time body_) with
  | Some title_, Some date_, Some time_ =>
      let attendeesList0 := List.filter (Js.includes_char "@") (m_attendees body_) in
      let creatorEmail := Js.trim (Js.or_string (email user) "") in
      let attendeesList :=
        if Js.string_truthy creatorEmail && Js.includes_char "@" creatorEmail &&
           negb (mem_string creatorEmail attendeesList0)
        then attendeesList0 ++ [creatorEmail]
        else attendeesList0 in
      let isOnline :=
        String.eqb (Js.toLowerCase (Js.or_default (m_meetingType body_) "")) "online" in
      let code_ := default (fresh_nano env) (truthy (m_meetId body_)) in
      let meetingLink :=
        if isOnline then Some (meeting_link_of (m_location body_) code_) else None in
      let location_ :=
        if Js.opt_string_truthy meetingLink then None else truthy (m_location body_) in
      match createMeeting stored_as (now env)
              (mkNewMeeting title_ date_ time_ meetingLink location_
                 (truthy (m_description body_)) (employee_id user) attendeesList)
              (db w) with
      | (Throw _, d) => (error 500 "Failed to create meeting", with_db d w)
      | (Ok id_, d) =>
          let reminders :=
            if m_sendReminder body_ && negb (Nat.eqb (List.length attendeesList) 0) &&
               Js.opt_string_truthy (SMTP_HOST env)
            then
              let subject_ :=
                "[Meeting] " +:+ title_ +:+ " " +:+ mail_dash +:+ " " +:+ date_ +:+ " " +:+ time_ in
              let text :=
                meeting_mail_text (Js.or_default (m_description body_) "") date_ time_
                  (match truthy meetingLink with
                   | Some l => l
                   | None => Js.or_default (m_location body_) "TBD"
                   end)
                  (m_reminderNote body_) in
              List.map
                (fun e =>
                   mkMail (Js.or_opt (SMTP_FROM env) (SMTP_USER env)) e subject_ (Some text)
                     None)
                attendeesList
            else [] in
          (mkResponse 201
             (Json.Obj [("id", Json.Number id_);
                        ("title", Json.Str title_);
                        ("date", Json.Str date_);
                        ("time", Json.Str time_);
                        ("attendees", Json.Arr (List.map Json.Str attendeesList));
                        ("meetingType", Json.Str (if isOnline then "online" else "in_person"));
                        ("meetingLink", Json.nullable Json.Str meetingLink);
                        ("location", Json.nullable Json.Str location_);
                        ("description", Json.nullable Json.Str (truthy (m_description body_)));
                        ("sentReminders",
                         Json.Bool (m_sendReminder body_ &&
                                    negb (Nat.eqb (List.length attendeesList) 0) &&
                                    Js.opt_string_truthy (SMTP_HOST env)))]),
           with_mail reminders (with_db d w))
      end
  | _, _, _ => (error 400 "title, date, time are required", w)
  end.

(** [POST /messages/conversations]. *)
Definition post_conversation (w : World) (user : HRMSUser) (body_userId : option string)
  : Response * World :=
  let otherId := Js.trim (default "" body_userId) in
  if negb (Js.string_truthy otherId) then (error 400 "userId is required", w)
  else
    let depId :=
      match userDep user with
      | Some (Js.Num z) => Some z
      | _ => None
      end in
    let '(conv, d) :=
      getOrCreateConversation (now env) (employee_id user) otherId depId (db w) in
    (mkResponse 201 (Json.nullable json_conversation conv), with_db d w).

(** [POST /messages/conversations/:id]: the text is trimmed and stored; the
    sanitiser is not called. *)
Definition post_conversation_message (w : World) (user : HRMSUser) (convId : Z)
  (body_message : option string) : Response * World :=
  let text := default "" body_message in
  if negb (Js.string_truthy (Js.trim text)) then (error 400 "message is required", w)
  else
    match addConversationMessage (now env) convId (employee_id user) (Js.trim text) (db w) with
    | (Throw _, _) => (error 500 "Failed to send message", w)
    | (Ok msg, d) =>
        (mkResponse 201 (Json.nullable json_conversation_message msg), with_db d w)
    end.

End Handlers.

(** The name of a role, as [req.user.role] holds it. *)
Definition role_name (r : Role) : string :=
  match r with
  | employee => "employee"
  | admin => "admin"
  | super_admin => "super_admin"
  end.

Definition message (c : Z) (msg : string) : Response :=
  mkResponse c (Json.Obj [("message", Json.Str msg)]).

(** [requireAuth]: the answer that ends the request, or none to go on. *)
Definition requireAuth (session_user : option HRMSUser) : option Response :=
  match session_user with
  | None => Some (message 401 "Authentication required")
  | Some _ => None
  end.

(** [requireRole(roles)]: a super admin passes whatever the roles are. *)
Definition requireRole (roles : list string) (user : option HRMSUser) : option Response :=
  match user with
  | None => Some (message 401 "Authentication required")
  | Some u =>
      if is_role super_admin u then None
      else if negb (mem_string (role_name (role u)) roles)
           then Some (message 403 "Insufficient permissions")
      else None
  end.

(** A route declared as [requireAuth, requireRole(roles), handler]. *)
Definition guarded {W : Type} (roles : list string) (session_user : option HRMSUser)
  (handler : HRMSUser -> W -> Response * W) (w : W) : Response * W :=
  match requireAuth session_user with
  | Some r => (r, w)
  | None =>
      match requireRole roles session_user with
      | Some r => (r, w)
      | None =>
          match session_user with
          | Some u => handler u w
          | None => (message 401 "Authentication required", w)
          end
      end
  end.

Definition json_stats (s : TicketStats) : Json.t :=
  Json.Obj [("total", Json.Number (total s)); ("open", Json.Number (open s));
            ("in_progress", Json.Number (in_progress s));
            ("resolved", Json.Number (resolved s)); ("closed", Json.Number (closed s))].

(** The department [GET /stats] counts: none for a super admin, else the
    requester's when the session has one, and in every case the query's
    [department_id] when that is given. *)
Definition stats_department (user : HRMSUser) (query_department_id : option string)
  : option Js.number :=
  match truthy query_department_id with
  | Some v => Some (Js.Number v)
  | None => if is_role super_admin user then None else userDep user
  end.

(** [GET /stats]. *)
Definition get_stats (w : World) (user : HRMSUser) (query_department_id : option string)
  : Response * World :=
  (mkResponse 200
     (json_stats (getTicketStats None (stats_department user query_department_id) (db w))), w).

Definition json_chat_message (m : ChatMessage) : Json.t :=
  Json.Obj [("id", Json.Number (chat_id m));
            ("message", Json.Str (chat_message m));
            ("createdAt", Json.nullable Json.Date (chat_created_at m));
            ("sender",
             Json.Obj [("id", Json.nullable Json.Str (chat_sender_id m));
                       ("firstName",
                        Json.nullable Json.Str (or_null_string (chat_sender_first_name m)));
                       ("lastName",
                        Json.nullable Json.Str (or_null_string (chat_sender_last_name m)));
                       ("email",
                        Json.nullable Json.Str (or_null_string (chat_sender_email m)))]);
            ("attachments", Json.Arr [])].

(** [GET /tickets/:id/messages]: a ticket id that is NaN is answered 400;
    the requester is not consulted. *)
Definition get_ticket_messages (w : World) (user : HRMSUser) (ticketId : Js.number)
  : Response * World :=
  match ticketId with
  | Js.NaN => (error 400 "Invalid ticket ID", w)
  | Js.Num i =>
      (mkResponse 200 (Json.Arr (List.map json_chat_message (getTicketMessages i (db w)))), w)
  end.

(** [GET /messages/conversations/:id]: the requester is not consulted. *)
Definition get_conversation_messages (w : World) (user : HRMSUser) (convId : Z)
  : Response * World :=
  (mkResponse 200
     (Json.Arr (List.map json_conversation_message (getConversationMessages convId (db w)))),
   w).

(** Whose preferences an admin-settings request is about: a super admin
    may name a user, everybody else gets their own. *)
Definition prefs_target (user : HRMSUser) (user_id : option string) : string :=
  match user_id with
  | Some i => if is_role super_admin user then i else employee_id user
  | None => employee_id user
  end.

Section PrefsHandlers.

(** The key comparison of [cms_user_prefs], as in the storage service. *)
Variable prefs_key_eq : string -> string -> bool.

(** [GET /admin/prefs], behind [requireRole(['admin'])]. *)
Definition get_admin_prefs (session_user : option HRMSUser) (query_user_id : option string)
  (w : World) : Response * World :=
  guarded ["admin"] session_user
    (fun user w =>
       let p := getUserPrefs prefs_key_eq (prefs_target user query_user_id) (db w) in
       (mkResponse 200
          (Json.Obj [("notifications", Json.Bool (up_notifications p));
                     ("daily_summary", Json.Bool (up_daily_summary p))]), w))
    w.

(** [POST /admin/prefs], behind [requireRole(['admin'])]. *)
Definition post_admin_prefs (session_user : option HRMSUser) (body_user_id : option string)
  (notifications_ dailySummary : option bool) (w : World) : Response * World :=
  guarded ["admin"] session_user
    (fun user w =>
       (mkResponse 200 (Json.Obj [("ok", Json.Bool true)]),
        with_db
          (upsertUserPrefs prefs_key_eq (prefs_target user body_user_id) notifications_
             dailySummary (db w))
          w))
    w.

End PrefsHandlers.

Section AdminHandlers.

Variable env : Env.

(** The plain-text body of the daily summary. *)
Definition daily_summary_text (s : TicketStats) : string :=
  "Tickets: total=" +:+ Js.String_of_Z (total s) +:+
  ", open=" +:+ Js.String_of_Z (open s) +:+
  ", in_progress=" +:+ Js.String_of_Z (in_progress s) +:+
  ", resolved=" +:+ Js.String_of_Z (resolved s) +:+
  ", closed=" +:+ Js.String_of_Z (closed s).

(** [POST /admin/run-daily-summary], behind [requireRole(['admin'])]: the
    handler itself lets only a super admin through. *)
Definition run_daily_summary (session_user : option HRMSUser) (w : World) : Response * World :=
  guarded ["admin"] session_user
    (fun requester w =>
       if negb (is_role super_admin requester)
       then (error 403 "Only super admin can run daily summary", w)
       else
         let stats := getTicketStats None None (db w) in
         let recipients := listEmailsForDailySummary (db w) in
         match recipients with
         | [] =>
             (mkResponse 200
                (Json.Obj [("ok", Json.Bool true);
                           ("message", Json.Str "No subscribed recipients")]), w)
         | _ =>
             (mkResponse 200
                (Json.Obj [("ok", Json.Bool true);
                           ("sent", Json.Number (Z.of_nat (List.length recipients)))]),
              with_mail
                (List.map
                   (fun r =>
                      mkMail (Js.or_opt (SMTP_FROM env) (SMTP_USER env)) r
                        "Daily Helpdesk Summary" (Some (daily_summary_text stats)) None)
                   recipients)
                w)
         end)
    w.

End AdminHandlers.

(** What [roleMap[role]] reads: a number of its own, something inherited
    from [Object.prototype] (truthy, and no number), or nothing. *)
Inductive RoleId : Type :=
| OwnRoleId (z : Z)
| InheritedProperty
| NoRoleId.

Definition object_prototype_names : list string :=
  ["constructor"; "toString"; "toLocaleString"; "valueOf"; "hasOwnProperty";
   "isPrototypeOf"; "propertyIsEnumerable"; "__proto__"; "__defineGetter__";
   "__defineSetter__"; "__lookupGetter__"; "__lookupSetter__"].

(** [{ super_admin: 99, admin: 1, employee: 3 }[role]]. *)
Definition role_update_map (role_ : string) : RoleId :=
  if String.eqb role_ "super_admin" then OwnRoleId 99
  else if String.eqb role_ "admin" then OwnRoleId 1
  else if String.eqb role_ "employee" then OwnRoleId 3
  else if mem_string role_ object_prototype_names then InheritedProperty
  else NoRoleId.

Definition set_user_type (type_id : Z) (r : UserRow) : UserRow :=
  mkUser (user_pk r) (cms_user_id_u r) (cms_user_username r) (cms_user_firstname r)
    (cms_user_lastname r) (cms_user_email r) (cms_user_dep_id r) type_id
    (cms_user_password r) (cms_user_status r).

(** The handler of [PATCH /admin/users/:id/role], on the user directory
    behind [hrmsConnection].  A requester who is no super admin may not give
    the super admin role and may only touch a user whose department is a
    non-zero number equal to [Number(requester.department)].  A role id that
    is no number cannot be bound to the UPDATE (500). *)
Definition update_user_role (userId : string) (body_role : option string)
  (requester : HRMSUser) (directory : Table UserRow) : Response * Table UserRow :=
  let role_ := Js.trim (default "" body_role) in
  match role_update_map role_ with
  | NoRoleId => (error 400 "Invalid role", directory)
  | roleId =>
      let refusal :=
        if negb (is_role super_admin requester) then
          if String.eqb role_ "super_admin"
          then Some (error 403 "Only super admin can assign super admin role")
          else
            match head (sql_select (fun r => String.eqb (cms_user_id_u r) userId) directory)
                    ≫= cms_user_dep_id with
            | Some dep =>
                if (dep =? 0) ||
                   negb (Js.number_eq (Js.Num dep) (Js.Number (department requester)))
                then Some (error 403 "You can only change roles of users in your department")
                else None
            | None => Some (error 403 "You can only change roles of users in your department")
            end
        else None in
      match refusal, roleId with
      | Some r, _ => (r, directory)
      | None, OwnRoleId z =>
          (mkResponse 200 (Json.Obj [("id", Json.Str userId); ("role", Json.Str role_)]),
           sql_update (fun r => String.eqb (cms_user_id_u r) userId) (set_user_type z)
             directory)
      | None, _ => (error 500 "Failed to update role", directory)
      end
  end.

(** [PATCH /admin/users/:id/role]. *)
Definition patch_user_role (session_user : option HRMSUser) (userId : string)
  (body_role : option string) (directory : Table UserRow) : Response * Table UserRow :=
  guarded ["admin"] session_user (update_user_role userId body_role) directory.

(** The body of [POST /admin/users]. *)
Record UserForm : Type := mkUserForm {
  uf_employeeId : option string;
  uf_username : option string;
  uf_firstName : option string;
  uf_lastName : option string;
  uf_email : option string;
  uf_departmentId : option string;
  uf_role : option string;
  uf_password : option string;
}.

Section CreateUser.

(** The email test of the validation library and the MD5 digest in hex:
    neither is repository code.  Nor are the keys and constraints of
    [cms_user_details], a table the repository does not create:
    [directory_refuses] says which rows its INSERT turns down. *)
Variable is_email : string -> bool.
Variable md5_hex : string -> string.
Variable directory_refuses : UserRow -> Table UserRow -> bool.

Definition at_least_chars (n : nat) (v : option string) : bool :=
  match v with
  | Some s => (n <=? Js.length s)%nat
  | None => false
  end.

(** [createUserSchema.parse]: whether the body passes. *)
Definition createUserSchema (f : UserForm) : bool :=
  at_least_chars 1 (uf_employeeId f) &&
  at_least_chars 1 (uf_username f) &&
  at_least_chars 1 (uf_firstName f) &&
  (match uf_email f with Some e => is_email e | None => true end) &&
  (match uf_role f with
   | Some r => mem_string r ["super_admin"; "admin"; "employee"]
   | None => false
   end) &&
  at_least_chars 4 (uf_password f).

(** The handler of [POST /admin/users].  Its role map knows admin and
    employee only: for super_admin the role id is undefined and cannot be
    bound.  A department that is NaN cannot be bound either. *)
Definition create_user (f : UserForm) (requester : HRMSUser) (directory : Table UserRow)
  : Response * Table UserRow :=
  let fail := (error 500 "Failed to create user", directory) in
  if negb (createUserSchema f) then fail
  else
    let roleId :=
      match uf_role f with
      | Some r =>
          if String.eqb r "admin" then Some 1
          else if String.eqb r "employee" then Some 3
          else None
      | None => None
      end in
    let depId : option Js.number :=
      if is_role super_admin requester then
        match uf_departmentId f with
        | Some dpt =>
            if Js.string_truthy dpt && Js.string_truthy (Js.trim dpt)
            then Some (Js.Number dpt) else None
        | None => None
        end
      else Some (Js.Number (department requester)) in
    let employeeId :=
      Js.trim (Js.or_string (default "" (uf_employeeId f))
                 (Js.or_string (default "" (uf_username f)) "")) in
    if negb (Js.string_truthy employeeId)
    then (error 400 "Employee ID or Username is required", directory)
    else
      match roleId, depId with
      | None, _ => fail
      | Some _, Some Js.NaN => fail
      | Some rid, dep =>
          let row k :=
            mkUser k employeeId
              (Js.or_string (default "" (uf_username f)) employeeId)
              (default "" (uf_firstName f)) (default "" (uf_lastName f))
              (Some (default "" (uf_email f)))
              (match dep with Some (Js.Num z) => Some z | _ => None end)
              rid (Some (md5_hex (default "" (uf_password f)))) 1 in
          if directory_refuses (row (auto_increment directory)) directory then fail
          else
            (mkResponse 201 (Json.Obj [("id", Json.Str employeeId)]),
             snd (sql_insert row directory))
      end.

(** [POST /admin/users]. *)
Definition post_admin_user (session_user : option HRMSUser) (f : UserForm)
  (directory : Table UserRow) : Response * Table UserRow :=
  guarded ["admin"] session_user (create_user f) directory.

End CreateUser.

End Routes.

(* ------------------------------------------------------------------ *)
(** ** The client's WebSocket hook ([useWebSocket]) *)

Module Client.

Definition MAX_RECONNECT_DELAY : Z := 30000.
Definition BASE_RECONNECT_DELAY : Z := 1000.
Definition MAX_RECONNECT_ATTEMPTS : Z := 10.

(** The reconnect part of [onclose]: below the attempt limit, the delay of
    the scheduled reconnect ([BASE * 2^attempts], capped) and the attempt
    counter raised by one; at the limit nothing is scheduled. *)
Definition onclose (reconnectAttempts : Z) : option Z * Z :=
  if reconnectAttempts <? MAX_RECONNECT_ATTEMPTS then
    (Some (Z.min (BASE_RECONNECT_DELAY * 2 ^ reconnectAttempts) MAX_RECONNECT_DELAY),
     reconnectAttempts + 1)
  else (None, reconnectAttempts).

(** [n] closes in a row, no connection opening in between: the delays that
    were scheduled, and the counter. *)
Fixpoint closes (n : nat) (reconnectAttempts : Z) : list Z * Z :=
  match n with
  | O => ([], reconnectAttempts)
  | S k =>
      match onclose reconnectAttempts with
      | (Some d, a) => let '(ds, a') := closes k a in (d :: ds, a')
      | (None, a) => closes k a
      end
  end.

End Client.

(* ------------------------------------------------------------------ *)
(** ** Properties *)

Import Storage Routes.

(** *** The specification's vocabulary, stated on the data *)

(** The ticket's department is the requester's: the department number of
    the ticket is the number the requester's department string denotes. *)
Definition same_department (u : HRMSUser) (t : Ticket) : Prop :=
  exists d, department_id t = Some d /\ Js.Number (department u) = Js.Num d.

(** The ticket has no assignee: the column is NULL or empty. *)
Definition is_unassigned (t : Ticket) : Prop :=
  assigned_to t = None \/ assigned_to t = Some EmptyString.

(** The ticket is assigned to the user. *)
Definition assigned_to_user (u : HRMSUser) (t : Ticket) : Prop :=
  assigned_to t = Some (employee_id u).

(** The four statuses of [updateStatusSchema]. *)
Definition valid_status (s : string) : Prop :=
  s = "open" \/ s = "in_progress" \/ s = "resolved" \/ s = "closed".

(** The stored status of ticket [id_] in a database. *)
Definition stored_status (id_ : Z) (d : DB) : option (option string) :=
  cms_com_status <$> head (sql_select (fun r => cms_com_id r =? id_) (complaints d)).

(** The stored assignee of ticket [id_] in a database. *)
Definition stored_assignee (id_ : Z) (d : DB) : option (option string) :=
  cms_sys_l1_id <$> head (sql_select (fun r => cms_com_id r =? id_) (complaints d)).

Definition assigned_row (a : string) (r : ComplaintRow) : ComplaintRow :=
  mkComplaint (cms_com_id r) (cms_com_ticket_no r) (cms_com_comp_id r)
    (cms_sys_dep_id r) (cms_sys_id r) (cms_com_description r)
    (cms_com_user_priority r) (reopened_status (cms_com_status r))
    (cms_user_id r) (Some a) (cms_created_at r) (cms_file_location r).

Definition status_row (s : string) (r : ComplaintRow) : ComplaintRow :=
  mkComplaint (cms_com_id r) (cms_com_ticket_no r) (cms_com_comp_id r)
    (cms_sys_dep_id r) (cms_sys_id r) (cms_com_description r)
    (cms_com_user_priority r) (Some s) (cms_user_id r)
    (cms_sys_l1_id r) (cms_created_at r) (cms_file_location r).

(** The requester may set the status of the ticket: an admin or super
    admin, or an employee of the ticket's department when the ticket is
    unassigned or assigned to them. *)
Definition authorized_to_update (u : HRMSUser) (t : Ticket) : Prop :=
  role u = admin \/ role u = super_admin \/
  (role u = employee /\ same_department u t /\ (is_unassigned t \/ assigned_to_user u t)).

(** The requester and the ticket have one department, a non-zero number. *)
Definition shares_numbered_department (u : HRMSUser) (t : Ticket) : Prop :=
  exists d, d <> 0 /\ department_id t = Some d /\ Js.Number (department u) = Js.Num d.

(** The requester may post in the ticket's chat. *)
Definition may_post (u : HRMSUser) (t : Ticket) : Prop :=
  role u = admin \/ role u = super_admin \/
  shares_numbered_department u t \/
  employee_id u = created_by t \/
  assigned_to_user u t.

(** The chat row [createTicketMessage] writes for a message. *)
Definition chat_row (k : Z) (t : Ticket) (message : string) (sender_pk : Z) (at_ : Z)
  : ResolveRow :=
  mkResolve k (ticket_number t) message sender_pk (Some at_) 1.

(** *** Sample data *)

Definition no_rows {A} : Table A := mkTable [] 1.

(** A ticket of department 2, created by emp7, unassigned, resolved. *)
Definition sample_row : ComplaintRow :=
  mkComplaint 1 "TKT-1" (Some 1) (Some 2) (Some 1) (Some "printer broken") "high"
    (Some "resolved") "emp7" None (Some 100) None.

(** A ticket that names department 0. *)
Definition orphan_row : ComplaintRow :=
  mkComplaint 2 "TKT-2" (Some 1) (Some 0) (Some 1) (Some "no department") "low"
    (Some "open") "emp7" None (Some 101) None.

(** A ticket of department 3 that carries no ticket number. *)
Definition unnumbered_row : ComplaintRow :=
  mkComplaint 3 "" (Some 1) (Some 3) (Some 1) (Some "legacy row") "low"
    (Some "open") "emp7" None (Some 102) None.

Definition sample_db : DB :=
  mkDB no_rows no_rows no_rows (mkTable [sample_row; orphan_row; unnumbered_row] 4)
    no_rows no_rows [] no_rows no_rows no_rows no_rows.

Definition sample_world : World := mkWorld sample_db None [].

Definition sample_env : Env :=
  mkEnv (Some "smtp.example") (Some "helpdesk") None None None None None 500
    "2025-01-01T00:00:00.000Z" "TKT-NEW" "abcdefghijkl".

(** An employee of department 1, one of department 2, one of department 0,
    and an admin. *)
Definition employee_dep1 : HRMSUser := mkHRMSUser "e1" "e1" "Ann" "One" "ann@example" "1" employee.
Definition employee_dep2 : HRMSUser := mkHRMSUser "e2" "e2" "Bob" "Two" "bob@example" "2" employee.
Definition employee_dep0 : HRMSUser := mkHRMSUser "e0" "e0" "Cy" "Zero" "cy@example" "0" employee.
Definition admin_dep1 : HRMSUser := mkHRMSUser "a1" "a1" "Dee" "Admin" "dee@example" "1" admin.

(** Stand-ins for the two library functions where a concrete run needs one. *)
Definition identity_filter (s : string) : string := s.
Definition opaque_json (j : Json.t) : string := "{}".

(** A server whose columns store every value bound to them as it is. *)
Definition stored_unchanged (ty : ColumnType) (s : string) : option string := Some s.

(** The connection tracks ticket [T]: its ticket id is the number [T]. *)
Definition tracks (T : Z) (c : Hub.ClientConnection) : bool :=
  match Hub.ticketId c with
  | Hub.Numeric (Js.Num z) => z =? T
  | _ => false
  end.

(** The connection is one of user [U]. *)
Definition of_user (U : string) (c : Hub.ClientConnection) : bool :=
  String.eqb (Hub.userId c) U.

(** What a fan-out does to one connection.  When the socket is open and
    the connection is selected, the list of what was sent on the socket is
    the old list with the data at its end, and the state of the socket, the
    user id and the ticket id are as before; any other connection is as
    before altogether. *)
Definition delivered (selected : Hub.ClientConnection -> bool) (data : string)
  (c : Hub.ClientConnection) : Hub.ClientConnection :=
  match Hub.readyState (Hub.ws c) with
  | Hub.OPEN =>
      if selected c
      then Hub.mkClient (Hub.mkWebSocket Hub.OPEN (Hub.sent (Hub.ws c) ++ [data]))
             (Hub.userId c) (Hub.ticketId c)
      else c
  | _ => c
  end.

(** The databases whose conversation table came about through
    [getOrCreateConversation] alone, from an empty table; any step that
    leaves the table as it is may come in between. *)
Inductive conversations_reachable : DB -> Prop :=
| reach_empty (d : DB) :
    rows (conversations d) = [] -> conversations_reachable d
| reach_other (d d' : DB) :
    conversations_reachable d -> conversations d' = conversations d ->
    conversations_reachable d'
| reach_call (d : DB) (at_ : Z) (u v : string) (dep : option Z) :
    conversations_reachable d ->
    conversations_reachable (snd (getOrCreateConversation at_ u v dep d)).

(** The conversation is between [u] and [v], in either order. *)
Definition between (u v : string) (c : ConversationRow) : bool :=
  (String.eqb (member_a_id c) u && String.eqb (member_b_id c) v) ||
  (String.eqb (member_a_id c) v && String.eqb (member_b_id c) u).

(** The rows keep their members in order, and no two rows have the same
    members: the table's unique key, together with the ordering. *)
Definition canonical_table (l : list ConversationRow) : Prop :=
  Forall (fun c => Js.lt (member_b_id c) (member_a_id c) = false) l /\
  List.NoDup (List.map (fun c => (member_a_id c, member_b_id c)) l).

(** The identifier fits a [VARCHAR(n)] column as it is, whatever the
    server's mode: it has at most [n] bytes. *)
Definition fits_varchar (n : nat) (s : string) : Prop := (String.length s <= n)%nat.

(** The text fits a [TEXT] column as it is: it has at most 65535 bytes. *)
Definition fits_text (s : string) : Prop := Z.of_nat (String.length s) <= 65535.

(** The record is the conversation of [u] and [v]: they are its two
    members, stored with the smaller one first. *)
Definition conversation_between (u v : string) (c : ConversationRow) : Prop :=
  ((member_a_id c = u /\ member_b_id c = v) \/ (member_a_id c = v /\ member_b_id c = u)) /\
  Js.lt (member_b_id c) (member_a_id c) = false.

(** [after] is [before] with rows appended, each of which satisfies [P]. *)
Definition appended {A} (P : A -> Prop) (before after : list A) : Prop :=
  exists new, after = before ++ new /\ Forall P new.

(** The HTML body [h] is the literal text of the department notification
    with an escaped value in each of its seven places: [escapeHtml] of the
    subject, of the capitalised priority and of the two names given, and
    [escapeHtml] of a target system, of a ticket number and of a link. *)
Definition escaped_html_body (subject_ priority_ first_name_ last_name_ h : string) : Prop :=
  exists target_system_ ticket_number_ link,
    h = html_lit_0 +:+ Html.escapeHtml subject_ +:+
        html_lit_1 +:+ Html.escapeHtml (Js.capitalize priority_) +:+
        html_lit_2 +:+ Html.escapeHtml first_name_ +:+
        html_lit_3 +:+ Html.escapeHtml last_name_ +:+
        html_lit_4 +:+ Html.escapeHtml target_system_ +:+
        html_lit_5 +:+ Html.escapeHtml ticket_number_ +:+
        html_lit_6 +:+ Html.escapeHtml link +:+
        html_lit_7.

(** The four characters that open markup or close an attribute. *)
Definition markup_chars : list ascii := ["<"; ">"; Html.dquote; "'"]%char.

(** A world with one conversation, between e1 and e2. *)
Definition chat_world : World :=
  mkWorld
    (set_conversations (fun _ => mkTable [mkConversation 1 "e1" "e2" None (Some 1)] 2) sample_db)
    None [].

(** A meeting whose title is " a" and whose description is markup, with a
    reminder to one attendee. *)
Definition sample_meeting : MeetingForm :=
  mkMeetingForm (Some " a") (Some "2025-01-01") (Some "10:00") ["x@example"] None None
    (Some "<b>") true None None.

(** *** Vocabulary of the further properties *)

(** What one character becomes under HTML escaping. *)
Definition escape_char (c : ascii) : string :=
  if Ascii.eqb c "&" then "&amp;"
  else if Ascii.eqb c "<" then "&lt;"
  else if Ascii.eqb c ">" then "&gt;"
  else if Ascii.eqb c Html.dquote then "&quot;"
  else if Ascii.eqb c "'" then "&#39;"
  else String c EmptyString.

(** A string escaped character by character, in one pass. *)
Fixpoint escape_each (s : string) : string :=
  match s with
  | EmptyString => EmptyString
  | String c r => escape_char c +:+ escape_each r
  end.

(** The five characters [escapeHtml] rewrites. *)
Definition escaped_chars : list ascii := ["&"; "<"; ">"; Html.dquote; "'"]%char.

(** The four statuses the service writes. *)
Definition canonical_status (s : option string) : Prop :=
  s = Some "open" \/ s = Some "in_progress" \/ s = Some "resolved" \/ s = Some "closed".

(** Every key of the table is below its AUTO_INCREMENT counter. *)
Definition keys_below_counter (t : Table ComplaintRow) : Prop :=
  Forall (fun r => cms_com_id r < auto_increment t) (rows t).


(** The comparison is an equivalence, as the equality of a collation is. *)
Definition key_equivalence (key_eq : string -> string -> bool) : Prop :=
  (forall a, key_eq a a = true) /\
  (forall a b, key_eq a b = key_eq b a) /\
  (forall a b c, key_eq a b = true -> key_eq b c = true -> key_eq a c = true).

(** A comparison that ignores the case of the ASCII letters. *)
Definition same_ignoring_case (a b : string) : bool :=
  String.eqb (Js.toLowerCase a) (Js.toLowerCase b).

(** The keys of the preference rows. *)
Definition prefs_keys (d : DB) : list string := List.map prefs_user_id (prefs d).

(** A database whose one preference row, of key a1, has both flags on. *)
Definition prefs_db : DB := set_prefs (fun _ => [mkPrefs "a1" true true]) sample_db.

(** The six stored statuses [getTicketStats] puts in one of its four
    buckets. *)
Definition counted_status (s : option string) : bool :=
  match s with
  | Some v =>
      mem_string v ["open"; "in_progress"; "in-progress"; "assigned"; "resolved"; "closed"]
  | None => false
  end.

(** The tickets of department [z]. *)
Definition of_department (z : Z) (r : ComplaintRow) : bool :=
  match cms_sys_dep_id r with
  | Some x => x =? z
  | None => false
  end.

(** The frames the hub sends. *)
Definition message_frame (encryptMessage : string -> string) (JSON_stringify : Json.t -> string)
  (now_ : string) (T : Z) (m : Json.t) : string :=
  encryptMessage
    (JSON_stringify
       (Json.Obj [("type", Json.Str "new_message"); ("ticketId", Json.Number T);
                  ("message", m); ("timestamp", Json.Str now_)])).

Definition update_frame (encryptMessage : string -> string) (JSON_stringify : Json.t -> string)
  (now_ : string) (T : Z) (u : Json.t) : string :=
  encryptMessage
    (JSON_stringify
       (Json.Obj [("type", Json.Str "ticket_update"); ("ticketId", Json.Number T);
                  ("update", u); ("timestamp", Json.Str now_)])).

Definition notification_frame (encryptMessage : string -> string)
  (JSON_stringify : Json.t -> string) (now_ : string) (n : Json.t) : string :=
  encryptMessage
    (JSON_stringify
       (Json.Obj [("type", Json.Str "notification"); ("notification", n);
                  ("timestamp", Json.Str now_)])).

Definition connected_frame (encryptMessage : string -> string)
  (JSON_stringify : Json.t -> string) (now_ : string) (clientId : string) : string :=
  encryptMessage
    (JSON_stringify
       (Json.Obj [("type", Json.Str "connected"); ("clientId", Json.Str clientId);
                  ("timestamp", Json.Str now_)])).

(** The client id of a connection of [u] made at [now_ms]. *)
Definition client_id (u : string) (now_ms : Z) : string :=
  u +:+ "-" +:+ Js.String_of_Z now_ms.

(** What has been sent to the client [k] of a hub. *)
Definition sent_to (k : string) (clients : Hub.Clients) : option (list string) :=
  (fun c => Hub.sent (Hub.ws c)) <$> clients !! k.

(** A file name that can be read back from the comma-separated column. *)
Definition plain_file_name (name : string) : Prop :=
  name <> EmptyString /\ Js.includes_char "," name = false.

(** The ticket with other attachments. *)
Definition with_attachments (names : list string) (t : Ticket) : Ticket :=
  mkTicket (ticket_id t) (ticket_number t) (company_id t) (department_id t)
    (target_system_id t) (subject t) (description t) (priority t) (status t)
    (created_by t) (assigned_to t) (created_at t) (updated_at t) names.

(** The row [createTicket] inserts. *)
Definition created_row (k now_ : Z) (ticketNumber : string) (ticket : NewTicket) : ComplaintRow :=
  mkComplaint k ticketNumber (Some (nt_company_id ticket)) (Some (nt_department_id ticket))
    (Some (nt_target_system_id ticket)) (Some (nt_description ticket)) (nt_priority ticket)
    (Some "open") (nt_created_by ticket) None (Some now_) None.

(** The value of a property of a JSON object. *)
Definition property (name : string) (j : Json.t) : option Json.t :=
  match j with
  | Json.Obj fields => snd <$> List.find (fun kv => String.eqb (fst kv) name) fields
  | _ => None
  end.

(** Every key of the target-system table is below its AUTO_INCREMENT
    counter. *)
Definition system_keys_below_counter (t : Table SystemRow) : Prop :=
  Forall (fun r => cms_sys_id_s r < auto_increment t) (rows t).

(** Of any two names one comes no later than the other, and coming no later
    is transitive: what [ORDER BY] needs of a collation. *)
Definition total_preorder (le : string -> string -> bool) : Prop :=
  (forall a b, le a b = true \/ le b a = true) /\
  (forall a b c, le a b = true -> le b c = true -> le a c = true).

(** The department has the requested system: [requested] is the id of a row
    of [cms_sys_details] of department [dep], and is not 0. *)
Definition offered (dep : Z) (requested : Js.number) (d : DB) : Prop :=
  exists x,
    In x (rows (systems d)) /\ cms_dep_id_s x = dep /\ cms_sys_id_s x <> 0 /\
    requested = Js.Num (cms_sys_id_s x).

(** Three target systems: Payroll and Email of department 2, VPN of
    department 5. *)
Definition systems_db : DB :=
  set_systems
    (fun _ => mkTable [mkSystem 1 "Payroll" 2 None None 1; mkSystem 2 "Email" 2 None None 1;
                       mkSystem 3 "VPN" 5 None None 1] 4)
    sample_db.

(** The user table has a row for the user id. *)
Definition registered (user_id : string) (d : DB) : bool :=
  List.existsb (fun r => String.eqb (cms_user_id_u r) user_id) (rows (users d)).

(** A hub with one open connection, of e2, that tracks no ticket. *)
Definition sample_hub : Hub.Clients :=
  {[ "e2-1" := Hub.mkClient (Hub.mkWebSocket Hub.OPEN []) "e2" Hub.Undefined ]}.

(** A directory with an employee of department 1 and one of department 2. *)
Definition sample_directory : Table UserRow :=
  mkTable [mkUser 1 "e1" "e1" "Ann" "One" None (Some 1) 3 None 1;
           mkUser 2 "e2" "e2" "Bob" "Two" None (Some 2) 3 None 1] 3.

(** *** Tables *)

Lemma select_update_same {A} (p : A -> bool) (f : A -> A) (t : Table A) :
  (forall r, p r = true -> p (f r) = true) ->
  sql_select p (sql_update p f t) = List.map f (sql_select p t).
Proof.
  intros Hp. unfold sql_select, sql_update. simpl.
  induction (rows t) as [|r l IH]; simpl; [reflexivity|].
  destruct (p r) eqn:E.
  - rewrite (Hp r E). simpl. now rewrite IH.
  - rewrite E. exact IH.
Qed.

Lemma getTicketById_spec (id_ : Z) (d : DB) :
  getTicketById id_ d =
  ticket_of_row <$> head (sql_select (fun r => cms_com_id r =? id_) (complaints d)).
Proof.
  unfold getTicketById. now destruct (sql_select _ _).
Qed.

Lemma mem_string_In (s : string) (l : list string) :
  mem_string s l = true <-> In s l.
Proof.
  unfold mem_string. rewrite existsb_exists. split.
  - intros (x & Hx & E). apply String.eqb_eq in E. now subst.
  - intros H. exists s. split; [exact H | apply String.eqb_refl].
Qed.

Lemma valid_status_schema (s : string) :
  valid_status s <-> updateStatusSchema (Some s) = Some s.
Proof.
  unfold updateStatusSchema, valid_status. split.
  - intros H. replace (mem_string s _) with true; [reflexivity|].
    symmetry. apply mem_string_In. simpl. intuition.
  - destruct (mem_string s _) eqn:E; [|discriminate]. intros _.
    apply mem_string_In in E. simpl in E. intuition.
Qed.

Lemma invalid_status_schema (s : string) :
  ~ valid_status s -> updateStatusSchema (Some s) = None.
Proof.
  intros H. unfold updateStatusSchema.
  destruct (mem_string s _) eqn:E; [|reflexivity].
  exfalso. apply H. apply mem_string_In in E. unfold valid_status. simpl in E. intuition.
Qed.

Lemma mapStatus_valid (s : string) :
  valid_status s -> mapStatusToStandard (Some s) = s.
Proof.
  intros [-> | [-> | [-> | ->]]]; reflexivity.
Qed.

(** *** [assignTicket] and [updateTicketStatus] on the table *)

Lemma assignTicket_select (id_ : Z) (a : string) (d : DB) :
  sql_select (fun r => cms_com_id r =? id_) (complaints (snd (assignTicket id_ a d))) =
  List.map (assigned_row a) (sql_select (fun r => cms_com_id r =? id_) (complaints d)).
Proof.
  unfold assignTicket. simpl. apply select_update_same. intros r H. exact H.
Qed.

Lemma updateTicketStatus_select (id_ : Z) (s : string) (d : DB) :
  sql_select (fun r => cms_com_id r =? id_) (complaints (snd (updateTicketStatus id_ s d))) =
  List.map (status_row s) (sql_select (fun r => cms_com_id r =? id_) (complaints d)).
Proof.
  unfold updateTicketStatus. simpl. apply select_update_same. intros r H. exact H.
Qed.

Lemma assignTicket_fst (id_ : Z) (a : string) (d : DB) :
  fst (assignTicket id_ a d) = getTicketById id_ (snd (assignTicket id_ a d)).
Proof. reflexivity. Qed.

Lemma updateTicketStatus_fst (id_ : Z) (s : string) (d : DB) :
  fst (updateTicketStatus id_ s d) = getTicketById id_ (snd (updateTicketStatus id_ s d)).
Proof. reflexivity. Qed.

Lemma reopened_resolved (s : option string) :
  s = Some "resolved" \/ s = Some "closed" -> reopened_status s = Some "in_progress".
Proof. intros [-> | ->]; reflexivity. Qed.

Lemma reopened_other (s : option string) :
  s <> Some "resolved" -> s <> Some "closed" -> reopened_status s = s.
Proof.
  intros H1 H2. destruct s as [v|]; [|reflexivity]. unfold reopened_status.
  destruct (mem_string v ["resolved"; "closed"]) eqn:E; [|reflexivity].
  apply mem_string_In in E. simpl in E.
  destruct E as [<- | [<- | []]]; congruence.
Qed.

(** C10.  [assignTicket id a] leaves every table but the tickets alone,
    keeps the number and order of the ticket rows and the AUTO_INCREMENT
    counter, leaves every row with another id as it was, and in a row with
    this id writes [a] into the assignee column, moves the status from
    'resolved' or 'closed' to 'in_progress' and keeps any other status, and
    keeps every other column. *)
Theorem C10_assignTicket_frame (d : DB) (id_ : Z) (a : string) :
  let d' := snd (assignTicket id_ a d) in
  (companies d' = companies d /\ departments d' = departments d /\
   systems d' = systems d /\ users d' = users d /\ resolves d' = resolves d /\
   prefs d' = prefs d /\ meetings d' = meetings d /\ attendees d' = attendees d /\
   conversations d' = conversations d /\
   conversation_messages d' = conversation_messages d) /\
  auto_increment (complaints d') = auto_increment (complaints d) /\
  Forall2
    (fun r r' =>
       (cms_com_id r <> id_ -> r' = r) /\
       (cms_com_id r = id_ ->
        cms_sys_l1_id r' = Some a /\
        (cms_com_status r = Some "resolved" \/ cms_com_status r = Some "closed" ->
         cms_com_status r' = Some "in_progress") /\
        (cms_com_status r <> Some "resolved" -> cms_com_status r <> Some "closed" ->
         cms_com_status r' = cms_com_status r) /\
        cms_com_id r' = cms_com_id r /\
        cms_com_ticket_no r' = cms_com_ticket_no r /\
        cms_com_comp_id r' = cms_com_comp_id r /\
        cms_sys_dep_id r' = cms_sys_dep_id r /\
        cms_sys_id r' = cms_sys_id r /\
        cms_com_description r' = cms_com_description r /\
        cms_com_user_priority r' = cms_com_user_priority r /\
        cms_user_id r' = cms_user_id r /\
        cms_created_at r' = cms_created_at r /\
        cms_file_location r' = cms_file_location r))
    (rows (complaints d)) (rows (complaints d')).
Proof.
  simpl. split; [repeat split|]. split; [reflexivity|].
  induction (rows (complaints d)) as [|r l IH]; simpl; constructor; [|exact IH].
  destruct (cms_com_id r =? id_) eqn:E.
  - apply Z.eqb_eq in E. split; [intros H; contradiction|]. intros _. simpl.
    split; [reflexivity|].
    split; [apply reopened_resolved|].
    split; [apply reopened_other|].
    repeat split.
  - apply Z.eqb_neq in E. split; [reflexivity | intros H; contradiction].
Qed.

(** *** The predicates of the handlers, reflected *)

#[local] Arguments updateTicketStatus : simpl never.
#[local] Arguments assignTicket : simpl never.
#[local] Arguments getTicketById : simpl never.
#[local] Arguments createTicketMessage : simpl never.
#[local] Arguments Hub.broadcastTicketUpdate : simpl never.
#[local] Arguments Hub.broadcastTicketMessage : simpl never.
#[local] Arguments Hub.notifyUser : simpl never.

Lemma number_eq_Num (d : Z) (n : Js.number) :
  Js.number_eq (Js.Num d) n = true <-> n = Js.Num d.
Proof.
  destruct n as [|z]; simpl; [split; discriminate|].
  rewrite Z.eqb_eq. split; [intros ->; reflexivity | intros [= ->]; reflexivity].
Qed.

Lemma same_department_strict_iff (u : HRMSUser) (t : Ticket) :
  same_department_strict t u = true <-> same_department u t.
Proof.
  unfold same_department_strict, same_department.
  destruct (department_id t) as [d|].
  - rewrite number_eq_Num. split.
    + intros H. exists d. split; [reflexivity | exact H].
    + intros (d' & [= <-] & H). exact H.
  - split; [discriminate | intros (d & H & _); discriminate].
Qed.

Lemma unassigned_iff (t : Ticket) : unassigned t = true <-> is_unassigned t.
Proof.
  unfold unassigned, is_unassigned.
  destruct (assigned_to t) as [[|c s]|]; simpl; split; intros H;
    try reflexivity; try discriminate; try (now left); try (now right);
    destruct H; discriminate.
Qed.

Lemma string_eq_opt_iff (a : string) (b : option string) :
  Js.string_eq_opt a b = true <-> b = Some a.
Proof.
  destruct b as [s|]; simpl; [|split; discriminate].
  rewrite String.eqb_eq. split; [intros ->; reflexivity | intros [= ->]; reflexivity].
Qed.

Lemma is_admin_iff (u : HRMSUser) :
  is_admin u = true <-> role u = admin \/ role u = super_admin.
Proof.
  unfold is_admin, is_role. destruct (role u); simpl; split; intros H;
    try reflexivity; try discriminate; try (now left); try (now right);
    destruct H; discriminate.
Qed.

Lemma canUpdate_iff (u : HRMSUser) (t : Ticket) :
  canUpdate u t = true <-> authorized_to_update u t.
Proof.
  unfold canUpdate, authorized_to_update.
  rewrite !orb_true_iff, !andb_true_iff, orb_true_iff.
  rewrite same_department_strict_iff, unassigned_iff, string_eq_opt_iff.
  unfold assigned_to_user, is_role.
  destruct (role u); simpl; split; intros H.
  - destruct H as [[H|H]|[[_ H1] H2]]; try discriminate.
    right; right. split; [reflexivity|]. split; [exact H1|]. tauto.
  - destruct H as [H|[H|(_ & H1 & H2)]]; try discriminate.
    right. split; [split; [reflexivity | exact H1]|]. tauto.
  - now left.
  - left; now left.
  - right; now left.
  - left; now right.
Qed.

Lemma authorized_dec (u : HRMSUser) (t : Ticket) :
  authorized_to_update u t \/ ~ authorized_to_update u t.
Proof.
  destruct (canUpdate u t) eqn:E.
  - left. now apply canUpdate_iff.
  - right. intros H. apply canUpdate_iff in H. congruence.
Qed.

(** *** The status handler *)

Section StatusHandler.

Variable encryptMessage : string -> string.
Variable JSON_stringify : Json.t -> string.
Variable env : Env.

Lemma head_select_of_ticket (id_ : Z) (d : DB) (t : Ticket) :
  getTicketById id_ d = Some t ->
  exists r, head (sql_select (fun r => cms_com_id r =? id_) (complaints d)) = Some r /\
            t = ticket_of_row r.
Proof.
  rewrite getTicketById_spec.
  destruct (head _) as [r|]; simpl; [|discriminate].
  intros [= <-]. now exists r.
Qed.

Lemma head_map {A B} (f : A -> B) (l : list A) : head (List.map f l) = f <$> head l.
Proof. now destruct l. Qed.

Lemma patch_status_authorized (w : World) (u : HRMSUser) (id_ : Z) (t : Ticket) (s : string) :
  getTicketById id_ (db w) = Some t ->
  valid_status s ->
  canUpdate u t = true ->
  let r := patch_ticket_status encryptMessage JSON_stringify env w u id_ (Some s) in
  code (fst r) = 200 /\
  stored_status id_ (db (snd r)) = Some (Some s) /\
  status <$> getTicketById id_ (db (snd r)) = Some s.
Proof.
  intros Ht Hs Hc r. subst r. unfold patch_ticket_status.
  apply valid_status_schema in Hs as Hs'. rewrite Hs', Ht, Hc.
  destruct (head_select_of_ticket _ _ _ Ht) as (r & Hr & ->).
  pose proof (updateTicketStatus_select id_ s (db w)) as Hsel.
  pose proof (updateTicketStatus_fst id_ s (db w)) as Hfst.
  rewrite (surjective_pairing (updateTicketStatus id_ s (db w))).
  set (d' := snd (updateTicketStatus id_ s (db w))) in *.
  assert (head (sql_select (fun r => cms_com_id r =? id_) (complaints d')) =
          Some (status_row s r)) as Hh.
  { rewrite Hsel, head_map, Hr. reflexivity. }
  assert (getTicketById id_ d' = Some (ticket_of_row (status_row s r))) as Hg.
  { rewrite getTicketById_spec, Hh. reflexivity. }
  rewrite Hfst, Hg. cbn [negb fst snd code db with_hub with_db].
  split; [reflexivity|]. split.
  - unfold stored_status. rewrite Hh. reflexivity.
  - rewrite Hg. cbn. f_equal. now apply mapStatus_valid.
Qed.

Lemma patch_status_forbidden (w : World) (u : HRMSUser) (id_ : Z) (t : Ticket) (s : string) :
  getTicketById id_ (db w) = Some t ->
  valid_status s ->
  canUpdate u t = false ->
  let r := patch_ticket_status encryptMessage JSON_stringify env w u id_ (Some s) in
  code (fst r) = 403 /\ snd r = w.
Proof.
  intros Ht Hs Hc r. subst r. unfold patch_ticket_status.
  apply valid_status_schema in Hs. rewrite Hs, Ht, Hc. split; reflexivity.
Qed.

(** C3.  For an existing ticket and a status out of the four: an employee's
    request answers 200 and stores the status exactly when the ticket is of
    the employee's department and is unassigned or assigned to them, and
    answers 403 leaving the world as it was otherwise; an admin's or super
    admin's request answers 200 and stores the status for any ticket. *)
Theorem C3_employee_status_update (w : World) (u : HRMSUser) (id_ : Z) (t : Ticket)
  (s : string) :
  getTicketById id_ (db w) = Some t ->
  valid_status s ->
  let r := patch_ticket_status encryptMessage JSON_stringify env w u id_ (Some s) in
  (role u = employee ->
   ((code (fst r) = 200 /\ stored_status id_ (db (snd r)) = Some (Some s)) <->
    (same_department u t /\ (is_unassigned t \/ assigned_to_user u t))) /\
   (~ (same_department u t /\ (is_unassigned t \/ assigned_to_user u t)) ->
    code (fst r) = 403 /\ snd r = w)) /\
  (role u = admin \/ role u = super_admin ->
   code (fst r) = 200 /\ stored_status id_ (db (snd r)) = Some (Some s)).
Proof.
  intros Ht Hs r. subst r. split.
  - intros Hrole.
    assert (authorized_to_update u t <->
            same_department u t /\ (is_unassigned t \/ assigned_to_user u t)) as Hau.
    { unfold authorized_to_update. rewrite Hrole. split.
      - intros [H|[H|(_ & H)]]; try discriminate. exact H.
      - intros H. right; right. split; [reflexivity | exact H]. }
    destruct (canUpdate u t) eqn:Hc.
    + destruct (patch_status_authorized w u id_ t s Ht Hs Hc) as (H1 & H2 & _).
      apply canUpdate_iff, Hau in Hc. split.
      * split; [intros _; exact Hc | intros _; split; assumption].
      * intros Hn. contradiction.
    + destruct (patch_status_forbidden w u id_ t s Ht Hs Hc) as (H1 & H2).
      assert (~ (same_department u t /\ (is_unassigned t \/ assigned_to_user u t))) as Hn.
      { intros H. apply Hau, canUpdate_iff in H. congruence. }
      split.
      * split; [intros [H _]; rewrite H1 in H; discriminate | intros H; contradiction].
      * intros _. split; assumption.
  - intros Hrole.
    assert (canUpdate u t = true) as Hc.
    { apply canUpdate_iff. unfold authorized_to_update. tauto. }
    destruct (patch_status_authorized w u id_ t s Ht Hs Hc) as (H1 & H2 & _).
    split; assumption.
Qed.

(** C9.  For a requester who may update the ticket, whatever the ticket's
    current status: every status out of the four is accepted, stored, and
    read back as the ticket's status; a body whose status is none of the
    four (or is missing) is refused with 500 and changes nothing. *)
Theorem C9_any_status_to_any_status (w : World) (u : HRMSUser) (id_ : Z) (t : Ticket)
  (body_status : option string) :
  getTicketById id_ (db w) = Some t ->
  authorized_to_update u t ->
  let r := patch_ticket_status encryptMessage JSON_stringify env w u id_ body_status in
  (forall s, body_status = Some s -> valid_status s ->
     code (fst r) = 200 /\
     stored_status id_ (db (snd r)) = Some (Some s) /\
     status <$> getTicketById id_ (db (snd r)) = Some s) /\
  ((forall s, body_status = Some s -> ~ valid_status s) ->
     code (fst r) = 500 /\ snd r = w).
Proof.
  intros Ht Hau r. subst r. apply canUpdate_iff in Hau. split.
  - intros s -> Hs. now apply patch_status_authorized with (t := t).
  - intros Hbad. unfold patch_ticket_status.
    assert (updateStatusSchema body_status = None) as ->.
    { destruct body_status as [s|]; [|reflexivity].
      apply invalid_status_schema. now apply Hbad. }
    split; reflexivity.
Qed.

(** C4.  For an existing ticket and a request naming an assignee: an admin's
    or super admin's request answers 200 and stores the assignee; any other
    requester's answers 403 and leaves the world as it was. *)
Theorem C4_only_admins_reassign (w : World) (u : HRMSUser) (id_ : Z) (t : Ticket)
  (a : string) :
  getTicketById id_ (db w) = Some t ->
  let r := patch_ticket_assign encryptMessage JSON_stringify env w u id_ (Some a) in
  ((code (fst r) = 200 /\ stored_assignee id_ (db (snd r)) = Some (Some a)) <->
   (role u = admin \/ role u = super_admin)) /\
  (~ (role u = admin \/ role u = super_admin) ->
   fst r = error 403 "Only admins can reassign tickets" /\ snd r = w).
Proof.
  intros Ht r. subst r. unfold patch_ticket_assign, assignTicketSchema.
  destruct (is_admin u) eqn:Ha; cbn [negb].
  - rewrite Ht. apply is_admin_iff in Ha.
    destruct (head_select_of_ticket _ _ _ Ht) as (r & Hr & ->).
    pose proof (assignTicket_select id_ a (db w)) as Hsel.
    pose proof (assignTicket_fst id_ a (db w)) as Hfst.
    rewrite (surjective_pairing (assignTicket id_ a (db w))).
    set (d' := snd (assignTicket id_ a (db w))) in *.
    assert (head (sql_select (fun r => cms_com_id r =? id_) (complaints d')) =
            Some (assigned_row a r)) as Hh.
    { rewrite Hsel, head_map, Hr. reflexivity. }
    rewrite Hfst, getTicketById_spec, Hh.
    cbn [fmap option_fmap option_map fst snd code db with_hub with_db].
    split; [|intros Hn; contradiction].
    split; [intros _; exact Ha|]. intros _. split; [reflexivity|].
    unfold stored_assignee. rewrite Hh. reflexivity.
  - assert (~ (role u = admin \/ role u = super_admin)) as Hn.
    { intros H. apply is_admin_iff in H. congruence. }
    split; [|intros _; split; reflexivity].
    split; [intros [H _]; discriminate | intros H; contradiction].
Qed.

(** C5.  For an existing ticket: the accept request answers 200 and stores
    the requester as assignee exactly when the ticket has no assignee;
    otherwise it answers 409 'Ticket already accepted' and leaves the world
    as it was. *)
Theorem C5_accept_only_unassigned (w : World) (u : HRMSUser) (id_ : Z) (t : Ticket) :
  getTicketById id_ (db w) = Some t ->
  let r := post_ticket_accept encryptMessage JSON_stringify env w u id_ in
  ((code (fst r) = 200 /\ stored_assignee id_ (db (snd r)) = Some (Some (employee_id u))) <->
   is_unassigned t) /\
  (~ is_unassigned t -> fst r = error 409 "Ticket already accepted" /\ snd r = w).
Proof.
  intros Ht r. subst r. unfold post_ticket_accept. rewrite Ht.
  pose proof (unassigned_iff t) as Hu. unfold unassigned in Hu.
  destruct (Js.opt_string_truthy (assigned_to t)) eqn:Ha; cbn [negb] in *.
  - assert (~ is_unassigned t) as Hn by (intros H; apply Hu in H; discriminate).
    split; [|intros _; split; reflexivity].
    split; [intros [H _]; discriminate | intros H; contradiction].
  - assert (is_unassigned t) as Hy by (now apply Hu).
    destruct (head_select_of_ticket _ _ _ Ht) as (r & Hr & ->).
    pose proof (assignTicket_select id_ (employee_id u) (db w)) as Hsel.
    pose proof (assignTicket_fst id_ (employee_id u) (db w)) as Hfst.
    rewrite (surjective_pairing (assignTicket id_ (employee_id u) (db w))).
    set (d' := snd (assignTicket id_ (employee_id u) (db w))) in *.
    assert (head (sql_select (fun r => cms_com_id r =? id_) (complaints d')) =
            Some (assigned_row (employee_id u) r)) as Hh.
    { rewrite Hsel, head_map, Hr. reflexivity. }
    rewrite Hfst, getTicketById_spec, Hh.
    cbn [fmap option_fmap option_map fst snd code db with_hub with_db].
    split; [|intros Hn; contradiction].
    split; [intros _; exact Hy|]. intros _. split; [reflexivity|].
    unfold stored_assignee. rewrite Hh. reflexivity.
Qed.

End StatusHandler.

(** *** The chat handler *)

Lemma filter_nonempty_of_existsb {A} (p : A -> bool) (l : list A) :
  existsb p l = true -> exists x r, List.filter p l = x :: r.
Proof.
  induction l as [|a l IH]; simpl; [discriminate|].
  destruct (p a) eqn:E; simpl.
  - intros _. now exists a, (List.filter p l).
  - exact IH.
Qed.

Lemma filter_nonempty_snoc {A} (p : A -> bool) (l : list A) (x : A) :
  p x = true -> exists y r, List.filter p (l ++ [x]) = y :: r.
Proof.
  intros Hx. apply filter_nonempty_of_existsb.
  rewrite existsb_app. simpl. rewrite Hx. now rewrite orb_true_r.
Qed.

Lemma string_truthy_iff (s : string) : Js.string_truthy s = true <-> s <> EmptyString.
Proof. destruct s; simpl; split; congruence. Qed.

Lemma createTicketMessage_ok (at_ : Z) (id_ : Z) (sender message : string) (d : DB)
  (row : ComplaintRow) :
  head (sql_select (fun r => cms_com_id r =? id_) (complaints d)) = Some row ->
  cms_com_ticket_no row <> EmptyString ->
  exists k pk d',
    createTicketMessage at_ id_ sender message d =
      (Ok (mkTicketMessage k id_ sender message at_), d') /\
    rows (resolves d') =
      rows (resolves d) ++ [mkResolve k (cms_com_ticket_no row) message pk (Some at_) 1] /\
    complaints d' = complaints d.
Proof.
  intros Hrow Hno. unfold createTicketMessage. rewrite Hrow.
  apply string_truthy_iff in Hno. rewrite Hno. cbn [negb].
  set (users1 := if existsb _ _ then _ else _).
  assert (exists u r, sql_select (fun u => String.eqb (cms_user_id_u u) sender) users1 = u :: r)
    as (u & r & Hu).
  { subst users1. unfold sql_select.
    destruct (existsb _ (rows (users d))) eqn:E.
    - now apply filter_nonempty_of_existsb.
    - cbn [sql_insert snd rows]. apply filter_nonempty_snoc. cbn. apply String.eqb_refl. }
  rewrite Hu. cbn [sql_insert].
  eexists _, _, _. split; [reflexivity|]. split; reflexivity.
Qed.

Lemma shares_department_iff (u : HRMSUser) (t : Ticket) :
  shares_department u t = true <-> shares_numbered_department u t.
Proof.
  unfold shares_department, shares_numbered_department, userDep, ticketDep. split.
  - destruct (Js.string_truthy (department u)); [|discriminate].
    rewrite andb_true_iff. intros [Hn H].
    destruct (department_id t) as [d|]; [|discriminate].
    destruct (d =? 0) eqn:E; [discriminate|].
    apply Z.eqb_neq in E. exists d. split; [exact E|]. split; [reflexivity|].
    destruct (Js.Number (department u)) as [|z]; [discriminate|].
    simpl in H. apply Z.eqb_eq in H. now subst.
  - intros (d & Hd & Ht & Hu). rewrite Ht, Hu.
    assert (Js.string_truthy (department u) = true) as ->.
    { apply string_truthy_iff. intros E. rewrite E in Hu.
      vm_compute in Hu. injection Hu as Hu. congruence. }
    apply Z.eqb_neq in Hd. rewrite Hd. simpl. rewrite Hd, Z.eqb_refl. reflexivity.
Qed.

Lemma allowed_iff (u : HRMSUser) (t : Ticket) : allowed u t = true <-> may_post u t.
Proof.
  unfold allowed, may_post. rewrite !orb_true_iff.
  rewrite is_admin_iff, shares_department_iff, String.eqb_eq, string_eq_opt_iff.
  unfold assigned_to_user. tauto.
Qed.

Section ChatHandler.

Variable xss : string -> string.
Variable encryptMessage : string -> string.
Variable JSON_stringify : Json.t -> string.
Variable env : Env.

Lemma messageSchema_nonempty (m : string) :
  m <> EmptyString -> messageSchema (Some m) = Some m.
Proof.
  intros H. unfold messageSchema. apply string_truthy_iff in H. now rewrite H.
Qed.

(** C6, as the code has it.  For an existing ticket that carries a ticket
    number and a non-empty message: the post answers 201 and appends one chat
    row holding the sanitised message when the requester is an admin or super
    admin, or the requester's department is a non-zero number equal to the
    ticket's, or the requester created the ticket, or is its assignee; in
    every other case it answers 403 and leaves the world as it was. *)
Theorem C6_chat_post_authorization (w : World) (u : HRMSUser) (id_ : Z) (t : Ticket)
  (m : string) :
  getTicketById id_ (db w) = Some t ->
  ticket_number t <> EmptyString ->
  m <> EmptyString ->
  let r := post_ticket_message xss encryptMessage JSON_stringify env w u id_ (Some m) in
  (may_post u t ->
   code (fst r) = 201 /\
   exists k pk,
     rows (resolves (db (snd r))) =
     rows (resolves (db w)) ++ [chat_row k t (Html.sanitizeInput xss m) pk (now env)]) /\
  (~ may_post u t ->
   fst r = error 403 "Not allowed to post in this chat" /\ snd r = w).
Proof.
  intros Ht Hno Hm r. subst r. unfold post_ticket_message.
  rewrite (messageSchema_nonempty m Hm), Ht.
  destruct (allowed u t) eqn:Ha; cbn [negb].
  - split; [|intros Hn; apply allowed_iff in Ha; contradiction]. intros _.
    destruct (head_select_of_ticket _ _ _ Ht) as (row & Hrow & ->).
    destruct (createTicketMessage_ok (now env) id_ (employee_id u)
                (Html.sanitizeInput xss m) (db w) row Hrow Hno)
      as (k & pk & d' & -> & Hres & _).
    cbn [fst snd code db with_hub with_db]. split; [reflexivity|].
    exists k, pk. exact Hres.
  - split; [|intros _; split; reflexivity].
    intros H. apply allowed_iff in H. congruence.
Qed.

End ChatHandler.

(** C6, the stated claim refuted.  An employee whose department is "0" asks
    to post in the chat of a ticket whose department is 0: the two
    departments are equal, and the answer is 403.  An admin asks to post in
    the chat of a ticket that carries no ticket number: the answer is 500. *)
Lemma C6_counterexample_guards :
  (getTicketById 2 (db sample_world) = Some (ticket_of_row orphan_row) /\
   same_department employee_dep0 (ticket_of_row orphan_row) /\
   fst (post_ticket_message identity_filter identity_filter opaque_json sample_env
          sample_world employee_dep0 2 (Some "hello")) =
   error 403 "Not allowed to post in this chat") /\
  (getTicketById 3 (db sample_world) = Some (ticket_of_row unnumbered_row) /\
   role admin_dep1 = admin /\
   fst (post_ticket_message identity_filter identity_filter opaque_json sample_env
          sample_world admin_dep1 3 (Some "hello")) =
   error 500 "Failed to create message").
Proof.
  split.
  - split; [reflexivity|]. split; [|reflexivity].
    exists 0. split; reflexivity.
  - repeat split.
Qed.

(** *** The hub's fan-out *)

Section FanoutProperties.

Variable encryptMessage : string -> string.
Variable JSON_stringify : Json.t -> string.

Lemma forEach_send_lookup (data : string) (targets : list (string * Hub.ClientConnection))
  (clients : Hub.Clients) (k : string) :
  NoDup (targets.*1) ->
  Hub.forEach_send data targets clients !! k =
  (fun c =>
     if existsb (fun kc => String.eqb (fst kc) k && Hub.is_open (Hub.ws (snd kc))) targets
     then Hub.client_send data c else c) <$> clients !! k.
Proof.
  unfold Hub.forEach_send. revert clients.
  induction targets as [|[k0 c0] rest IH]; intros clients Hnd; simpl.
  - now destruct (clients !! k).
  - apply NoDup_cons in Hnd as [Hk0 Hnd]. rewrite (IH _ Hnd). clear IH.
    destruct (String.eqb_spec k0 k) as [->|Hne]; simpl.
    + assert (existsb (fun kc => String.eqb (fst kc) k && Hub.is_open (Hub.ws (snd kc))) rest
              = false) as ->.
      { apply not_true_is_false. intros H. apply existsb_exists in H as ([k1 c1] & Hin & H).
        simpl in H. apply andb_true_iff in H as [H _]. apply String.eqb_eq in H. subst k1.
        apply Hk0. apply list_elem_of_fmap. exists (k, c1). split; [reflexivity|].
        now apply list_elem_of_In. }
      destruct (Hub.is_open (Hub.ws c0)).
      * rewrite lookup_alter_eq. now destruct (clients !! k).
      * now destruct (clients !! k).
    + destruct (Hub.is_open (Hub.ws c0)); [|reflexivity].
      rewrite lookup_alter_ne by exact Hne. reflexivity.
Qed.

Lemma delivered_send (selected : Hub.ClientConnection -> bool) (data : string)
  (c : Hub.ClientConnection) :
  delivered selected data c =
  if Hub.is_open (Hub.ws c) && selected c then Hub.client_send data c else c.
Proof.
  unfold delivered, Hub.is_open, Hub.client_send, Hub.send.
  destruct (Hub.readyState (Hub.ws c)); reflexivity.
Qed.

Lemma delivered_ext (sel1 sel2 : Hub.ClientConnection -> bool) :
  (forall c, sel1 c = sel2 c) ->
  forall (data : string) (o : option Hub.ClientConnection),
    delivered sel1 data <$> o = delivered sel2 data <$> o.
Proof.
  intros H data [c|]; [|reflexivity]. cbn. f_equal. unfold delivered. now rewrite H.
Qed.

Lemma ticketId_is_tracks (T : Z) (c : Hub.ClientConnection) :
  Hub.ticketId_is (Hub.ticketId c) T = tracks T c.
Proof. unfold tracks. now destruct (Hub.ticketId c) as [|[|z]|v]. Qed.

Lemma fanout_lookup (selected : Hub.ClientConnection -> bool) (data : string)
  (clients : Hub.Clients) (k : string) :
  Hub.forEach_send data
    (List.filter (fun kc => selected (snd kc)) (map_to_list clients)) clients !! k =
  delivered selected data <$> clients !! k.
Proof.
  rewrite forEach_send_lookup.
  - destruct (clients !! k) as [c|] eqn:Hc; simpl; [|reflexivity]. f_equal.
    rewrite delivered_send.
    destruct (existsb _ _) eqn:E.
    + apply existsb_exists in E as ([k1 c1] & Hin & H). simpl in H.
      apply andb_true_iff in H as [Hk Ho]. apply String.eqb_eq in Hk. subst k1.
      apply filter_In in Hin as [Hin Hs]. simpl in Hs.
      apply list_elem_of_In, elem_of_map_to_list in Hin.
      rewrite Hc in Hin. injection Hin as <-. now rewrite Ho, Hs.
    + destruct (Hub.is_open (Hub.ws c) && selected c) eqn:E'; [|reflexivity].
      apply andb_true_iff in E' as [Ho Hs].
      apply not_true_iff_false in E. exfalso. apply E.
      apply existsb_exists. exists (k, c). split.
      * apply filter_In. split; [|exact Hs].
        now apply list_elem_of_In, elem_of_map_to_list.
      * simpl. now rewrite String.eqb_refl, Ho.
  - assert (forall l : list (string * Hub.ClientConnection),
              NoDup (l.*1) -> NoDup ((List.filter (fun kc => selected (snd kc)) l).*1)) as Hf.
    { induction l as [|[k0 c0] l IH]; simpl; intros Hnd; [constructor|].
      apply NoDup_cons in Hnd as [Hk0 Hnd]. destruct (selected c0); simpl.
      - apply NoDup_cons. split; [|now apply IH].
        intros Hin. apply Hk0.
        apply list_elem_of_fmap in Hin as ([k1 c1] & -> & Hin).
        apply list_elem_of_fmap. exists (k1, c1). split; [reflexivity|].
        apply list_elem_of_In. apply list_elem_of_In in Hin.
        now apply filter_In in Hin as [Hin _].
      - now apply IH. }
    apply Hf, NoDup_fst_map_to_list.
Qed.

(** C7.  After [broadcastTicketMessage T m] and after
    [broadcastTicketUpdate T u] the hub holds the same client ids, and under
    each id the connection it held, with one change: on a connection whose
    socket is open and whose tracked ticket id is the number [T], the
    payload has been added at the end of what was sent on the socket; no
    other connection has been sent anything.  After [notifyUser U n] the
    same holds with the connections whose socket is open and whose user id
    is [U], whatever ticket they track. *)
Theorem C7_fanout_targets (now_ : string) (clients : Hub.Clients) :
  (forall (T : Z) (m : Json.t) (k : string),
     Hub.broadcastTicketMessage encryptMessage JSON_stringify now_ T m clients !! k =
     delivered (tracks T)
       (encryptMessage
          (JSON_stringify
             (Json.Obj [("type", Json.Str "new_message"); ("ticketId", Json.Number T);
                        ("message", m); ("timestamp", Json.Str now_)])))
     <$> clients !! k) /\
  (forall (T : Z) (u : Json.t) (k : string),
     Hub.broadcastTicketUpdate encryptMessage JSON_stringify now_ T u clients !! k =
     delivered (tracks T)
       (encryptMessage
          (JSON_stringify
             (Json.Obj [("type", Json.Str "ticket_update"); ("ticketId", Json.Number T);
                        ("update", u); ("timestamp", Json.Str now_)])))
     <$> clients !! k) /\
  (forall (U : string) (n : Json.t) (k : string),
     Hub.notifyUser encryptMessage JSON_stringify now_ U n clients !! k =
     delivered (of_user U)
       (encryptMessage
          (JSON_stringify
             (Json.Obj [("type", Json.Str "notification"); ("notification", n);
                        ("timestamp", Json.Str now_)])))
     <$> clients !! k).
Proof.
  split; [|split]; intros.
  - rewrite <- (delivered_ext _ _ (ticketId_is_tracks T)).
    exact (fanout_lookup (fun c => Hub.ticketId_is (Hub.ticketId c) T) _ clients k).
  - rewrite <- (delivered_ext _ _ (ticketId_is_tracks T)).
    exact (fanout_lookup (fun c => Hub.ticketId_is (Hub.ticketId c) T) _ clients k).
  - exact (fanout_lookup (of_user U) _ clients k).
Qed.

End FanoutProperties.

(** *** Conversations *)

Lemma unit_rank_inj (x y : ascii) : Js.unit_rank x = Js.unit_rank y -> x = y.
Proof.
  intros H. rewrite <- (ascii_N_embedding x), <- (ascii_N_embedding y). f_equal.
  pose proof (N_ascii_bounded x) as Hx. pose proof (N_ascii_bounded y) as Hy.
  revert H. unfold Js.unit_rank. cbv zeta.
  destruct (N.leb_spec 240 (N_of_ascii x)), (N.leb_spec 238 (N_of_ascii x)),
    (N.leb_spec 240 (N_of_ascii y)), (N.leb_spec 238 (N_of_ascii y)); lia.
Qed.

Lemma ltb_asym (u v : string) : Js.lt u v = true -> Js.lt v u = false.
Proof.
  revert v. induction u as [|x u IH]; intros [|y v]; cbn [Js.lt]; try congruence.
  destruct (N.ltb_spec (Js.unit_rank x) (Js.unit_rank y)),
    (N.ltb_spec (Js.unit_rank y) (Js.unit_rank x)),
    (N.eqb_spec (Js.unit_rank x) (Js.unit_rank y)),
    (N.eqb_spec (Js.unit_rank y) (Js.unit_rank x)); try lia; try congruence.
  apply IH.
Qed.

Lemma ltb_total (u v : string) : u <> v -> Js.lt u v = false -> Js.lt v u = true.
Proof.
  revert v. induction u as [|x u IH]; intros [|y v]; cbn [Js.lt]; try congruence.
  intros Hne.
  destruct (N.ltb_spec (Js.unit_rank x) (Js.unit_rank y)),
    (N.ltb_spec (Js.unit_rank y) (Js.unit_rank x)),
    (N.eqb_spec (Js.unit_rank x) (Js.unit_rank y)) as [E|E],
    (N.eqb_spec (Js.unit_rank y) (Js.unit_rank x)); try lia; try congruence.
  apply unit_rank_inj in E. subst y. apply IH. congruence.
Qed.

Lemma ordered_members_sym (u v : string) : ordered_members v u = ordered_members u v.
Proof.
  unfold ordered_members.
  destruct (String.eqb_spec u v) as [->|Hne]; [reflexivity|].
  destruct (Js.lt u v) eqn:E.
  - now rewrite (ltb_asym u v E).
  - rewrite (ltb_total u v Hne E). reflexivity.
Qed.

Lemma ordered_members_canonical (u v a b : string) :
  ordered_members u v = (a, b) -> Js.lt b a = false.
Proof.
  unfold ordered_members. destruct (Js.lt u v) eqn:E; intros [= <- <-].
  - now apply ltb_asym.
  - exact E.
Qed.

Lemma getOrCreateConversation_found (at_ : Z) (u v : string) (dep : option Z) (d : DB) :
  let r := getOrCreateConversation at_ u v dep d in
  exists c rest,
    sql_select (conversation_of (fst (ordered_members u v)) (snd (ordered_members u v)))
      (conversations (snd r)) = c :: rest /\
    fst r = Some c.
Proof.
  unfold getOrCreateConversation.
  destruct (ordered_members u v) as [a b]. cbn [fst snd].
  destruct (sql_select (conversation_of a b) (conversations d)) as [|c rest] eqn:E.
  - cbn [sql_insert fst snd set_conversations conversations].
    unfold sql_select in *. cbn [rows]. rewrite List.filter_app, E. simpl.
    unfold conversation_of. simpl. rewrite !String.eqb_refl. simpl.
    eexists _, _. split; reflexivity.
  - cbn [fst snd]. exists c, rest. split; [exact E | reflexivity].
Qed.

Lemma getOrCreateConversation_again (at_ : Z) (u v : string) (dep : option Z) (d : DB)
  (c : ConversationRow) (rest : list ConversationRow) :
  sql_select (conversation_of (fst (ordered_members u v)) (snd (ordered_members u v)))
    (conversations d) = c :: rest ->
  getOrCreateConversation at_ u v dep d = (Some c, d).
Proof.
  unfold getOrCreateConversation.
  destruct (ordered_members u v) as [a b]. cbn [fst snd]. now intros ->.
Qed.

Lemma filter_pair_at_most_one (l : list ConversationRow) (a b : string) :
  List.NoDup (List.map (fun c => (member_a_id c, member_b_id c)) l) ->
  (List.length (List.filter (conversation_of a b) l) <= 1)%nat.
Proof.
  induction l as [|c l IH]; simpl; intros Hnd; [lia|].
  apply List.NoDup_cons_iff in Hnd as [Hc Hnd].
  destruct (conversation_of a b c) eqn:E; [|now apply IH].
  simpl. assert (List.filter (conversation_of a b) l = []) as ->; [|simpl; lia].
  destruct (List.filter (conversation_of a b) l) as [|c' r] eqn:F; [reflexivity|].
  exfalso. apply Hc.
  assert (In c' (List.filter (conversation_of a b) l)) as Hin by (rewrite F; now left).
  apply filter_In in Hin as [Hin E'].
  unfold conversation_of in E, E'.
  apply andb_true_iff in E as [Ea Eb]. apply andb_true_iff in E' as [Ea' Eb'].
  apply String.eqb_eq in Ea, Eb, Ea', Eb'.
  apply in_map_iff. exists c'. split; [congruence | exact Hin].
Qed.

Lemma between_ordered (l : list ConversationRow) (u v : string) :
  List.Forall (fun c => Js.lt (member_b_id c) (member_a_id c) = false) l ->
  forall c, In c l ->
    between u v c =
    conversation_of (fst (ordered_members u v)) (snd (ordered_members u v)) c.
Proof.
  intros Hcan c Hin.
  apply (proj1 (List.Forall_forall _ _)) with (x := c) in Hcan; [|exact Hin].
  unfold ordered_members, between, conversation_of.
  destruct (String.eqb_spec u v) as [->|Hne].
  - destruct (Js.lt v v); cbn [fst snd]; now rewrite orb_diag.
  - destruct (Js.lt u v) eqn:E; cbn [fst snd].
    + destruct (String.eqb_spec (member_a_id c) v) as [Ea|]; [|now rewrite orb_false_r].
      destruct (String.eqb_spec (member_b_id c) u) as [Eb|];
        [|simpl; now rewrite orb_false_r].
      rewrite Ea, Eb in Hcan. congruence.
    + destruct (String.eqb_spec (member_a_id c) u) as [Ea|]; [|reflexivity].
      destruct (String.eqb_spec (member_b_id c) v) as [Eb|]; [|reflexivity].
      rewrite Ea, Eb in Hcan. rewrite (ltb_total u v Hne E) in Hcan. discriminate.
Qed.

Lemma canonical_at_most_one (l : list ConversationRow) (u v : string) :
  canonical_table l -> (List.length (List.filter (between u v) l) <= 1)%nat.
Proof.
  intros [Hcan Hnd].
  rewrite (List.filter_ext_in _ _ _ (between_ordered l u v Hcan)).
  now apply filter_pair_at_most_one.
Qed.

Lemma getOrCreateConversation_canonical (at_ : Z) (u v : string) (dep : option Z) (d : DB) :
  canonical_table (rows (conversations d)) ->
  canonical_table (rows (conversations (snd (getOrCreateConversation at_ u v dep d)))).
Proof.
  intros [Hcan Hnd]. unfold getOrCreateConversation.
  destruct (ordered_members u v) as [a b] eqn:Hab.
  destruct (sql_select (conversation_of a b) (conversations d)) as [|c rest] eqn:E.
  - cbn [sql_insert fst snd set_conversations conversations rows]. split.
    + apply Forall_app. split; [exact Hcan|]. constructor; [|constructor]. simpl.
      now apply (ordered_members_canonical u v).
    + rewrite List.map_app. simpl.
      apply NoDup_ListNoDup, NoDup_app. split; [now apply NoDup_ListNoDup|].
      split; [|apply NoDup_singleton].
      intros p Hp Hq. apply list_elem_of_singleton in Hq. subst p.
      apply list_elem_of_In, in_map_iff in Hp as (c & Hc & Hin).
      assert (In c (sql_select (conversation_of a b) (conversations d))) as Hsel.
      { unfold sql_select. apply filter_In. split; [exact Hin|].
        unfold conversation_of. injection Hc as -> ->. now rewrite !String.eqb_refl. }
      rewrite E in Hsel. destruct Hsel.
  - cbn [snd]. split; assumption.
Qed.

Lemma reachable_canonical (d : DB) :
  conversations_reachable d -> canonical_table (rows (conversations d)).
Proof.
  induction 1 as [d Hd | d d' _ IH Heq | d at_ u v dep _ IH].
  - rewrite Hd. split; constructor.
  - now rewrite Heq.
  - now apply getOrCreateConversation_canonical.
Qed.

Lemma ordered_members_are (u v : string) :
  (fst (ordered_members u v) = u /\ snd (ordered_members u v) = v) \/
  (fst (ordered_members u v) = v /\ snd (ordered_members u v) = u).
Proof. unfold ordered_members. destruct (Js.lt u v); auto. Qed.

Lemma conversation_of_between (u v : string) (c : ConversationRow) :
  conversation_of (fst (ordered_members u v)) (snd (ordered_members u v)) c = true ->
  conversation_between u v c.
Proof.
  unfold conversation_of, conversation_between. intros H.
  apply andb_true_iff in H as [Ha Hb]. apply String.eqb_eq in Ha, Hb.
  rewrite Ha, Hb. split; [apply ordered_members_are|].
  apply (ordered_members_canonical u v). apply surjective_pairing.
Qed.

(** The two cases of [getOrCreateConversation]: the row of the ordered pair
    is there already and is returned; or there is none, and the row added
    under the counter is returned. *)
Lemma getOrCreateConversation_cases (at_ : Z) (u v : string) (dep : option Z) (d : DB) :
  (exists c rest,
     sql_select (conversation_of (fst (ordered_members u v)) (snd (ordered_members u v)))
       (conversations d) = c :: rest /\
     getOrCreateConversation at_ u v dep d = (Some c, d)) \/
  (sql_select (conversation_of (fst (ordered_members u v)) (snd (ordered_members u v)))
     (conversations d) = [] /\
   exists c,
     c = mkConversation (auto_increment (conversations d)) (fst (ordered_members u v))
           (snd (ordered_members u v)) (or_null dep) (Some at_) /\
     getOrCreateConversation at_ u v dep d =
     (Some c,
      set_conversations
        (fun t => mkTable (rows t ++ [c]) (auto_increment t + 1)) d)).
Proof.
  unfold getOrCreateConversation.
  destruct (ordered_members u v) as [a b]. cbn [fst snd].
  destruct (sql_select (conversation_of a b) (conversations d)) as [|c rest] eqn:E.
  - right. split; [reflexivity|]. eexists. split; [reflexivity|].
    cbn [sql_insert fst snd]. unfold sql_select in *. cbn [rows].
    rewrite List.filter_app, E. cbn [app List.filter].
    unfold conversation_of at 1. cbn [member_a_id member_b_id].
    rewrite !String.eqb_refl. reflexivity.
  - left. exists c, rest. split; reflexivity.
Qed.

Lemma filter_singleton_of_bound {A} (p : A -> bool) (l : list A) (c : A) :
  (List.length (List.filter p l) <= 1)%nat -> In c l -> p c = true ->
  List.filter p l = [c].
Proof.
  intros Hlen Hin Hp.
  assert (In c (List.filter p l)) as H by (apply filter_In; now split).
  destruct (List.filter p l) as [|x [|y r]]; [destruct H | | simpl in Hlen; lia].
  destruct H as [-> | []]. reflexivity.
Qed.


(** *** Ticket visibility *)

Lemma get_ticket_any_requester (w : World) (u1 u2 : HRMSUser) (id_ : Z) :
  get_ticket w u1 id_ = get_ticket w u2 id_.
Proof. reflexivity. Qed.

Lemma get_ticket_existing (w : World) (u : HRMSUser) (id_ : Z) (t : Ticket) :
  getTicketById id_ (db w) = Some t -> code (fst (get_ticket w u id_)) = 200.
Proof. intros H. unfold get_ticket. now rewrite H. Qed.

Lemma department_query_overrides (xss : string -> string) (u : HRMSUser) (dep : string)
  (q : TicketQuery) :
  q_department_id q = Some dep -> dep <> EmptyString ->
  f_departmentId (ticket_filters xss u q) = Some (Js.Number dep).
Proof.
  intros Hq Hd. unfold ticket_filters, truthy. rewrite Hq.
  apply string_truthy_iff in Hd. now rewrite Hd.
Qed.

(** C1, the code at the failing input.  Ticket 1 belongs to department 2
    and the requester is an employee of department 1.  [GET /tickets/1]
    answers 200 with the ticket, and [GET /tickets?department_id=2] lists
    it: the single-ticket handler never looks at the requester, and the
    list handler lets the query string replace the requester's department. *)
Theorem C1_employee_reads_other_department (xss : string -> string)
  (sql_like : string -> string -> bool) :
  role employee_dep1 = employee /\
  getTicketById 1 (db sample_world) = Some (ticket_of_row sample_row) /\
  ~ same_department employee_dep1 (ticket_of_row sample_row) /\
  code (fst (get_ticket sample_world employee_dep1 1)) = 200 /\
  fst (get_tickets xss sql_like sample_world employee_dep1
         (mkTicketQuery None (Some "2") None None None None)) =
  mkResponse 200 (Json.Arr [listed_ticket (ticket_of_row sample_row)]).
Proof.
  split; [reflexivity|]. split; [reflexivity|]. split; [|split; reflexivity].
  intros (d & Hd & Hn). cbn in Hd. injection Hd as <-. vm_compute in Hn. discriminate.
Qed.

(** *** Escaping and sanitising *)

Lemma includes_char_app (c : ascii) (a b : string) :
  Js.includes_char c (a +:+ b) = Js.includes_char c a || Js.includes_char c b.
Proof.
  induction a as [|x a IH]; simpl; [reflexivity|]. now rewrite IH, orb_assoc.
Qed.

Lemma replace_char_removes (c : ascii) (by_ s : string) :
  Js.includes_char c by_ = false ->
  Js.includes_char c (Html.replace_char c by_ s) = false.
Proof.
  intros Hby. induction s as [|x s IH]; simpl; [reflexivity|].
  destruct (Ascii.eqb x c) eqn:E.
  - now rewrite includes_char_app, Hby, IH.
  - simpl. now rewrite E, IH.
Qed.

Lemma replace_char_keeps_out (d c : ascii) (by_ s : string) :
  Js.includes_char d by_ = false ->
  Js.includes_char d s = false ->
  Js.includes_char d (Html.replace_char c by_ s) = false.
Proof.
  intros Hby. induction s as [|x s IH]; simpl; [reflexivity|].
  intros H. apply orb_false_iff in H as [Hx Hs].
  destruct (Ascii.eqb x c).
  - now rewrite includes_char_app, Hby, IH.
  - simpl. now rewrite Hx, IH.
Qed.

Lemma escapeHtml_no_markup (v : string) (c : ascii) :
  In c markup_chars -> Js.includes_char c (Html.escapeHtml v) = false.
Proof.
  unfold markup_chars, Html.escapeHtml.
  intros [<- | [<- | [<- | [<- | []]]]].
  - do 3 (apply replace_char_keeps_out; [reflexivity|]).
    apply replace_char_removes. reflexivity.
  - do 2 (apply replace_char_keeps_out; [reflexivity|]).
    apply replace_char_removes. reflexivity.
  - apply replace_char_keeps_out; [reflexivity|].
    apply replace_char_removes. reflexivity.
  - apply replace_char_removes. reflexivity.
Qed.

Lemma appended_nil {A} (P : A -> Prop) (l : list A) : appended P l l.
Proof. exists []. split; [now rewrite app_nil_r | constructor]. Qed.

Lemma appended_one {A} (P : A -> Prop) (l : list A) (x : A) : P x -> appended P l (l ++ [x]).
Proof. intros H. exists [x]. split; [reflexivity | now constructor]. Qed.

Lemma truthy_Some (v : option string) (s : string) : truthy v = Some s -> v = Some s.
Proof.
  unfold truthy. destruct v as [x|]; [|discriminate].
  destruct (Js.string_truthy x); [now intros [= ->] | discriminate].
Qed.

Lemma createTicketMessage_resolves (at_ : Z) (id_ : Z) (sender message : string) (d : DB) :
  appended (fun r => cms_resolve_desc r = message) (rows (resolves d))
    (rows (resolves (snd (createTicketMessage at_ id_ sender message d)))).
Proof.
  unfold createTicketMessage.
  destruct (head _) as [row|]; [|apply appended_nil].
  destruct (negb _); [apply appended_nil|].
  match goal with |- context [match ?x with Some _ => _ | None => _ end] => destruct x end;
    [|apply appended_nil].
  cbn [sql_insert snd set_resolves resolves rows]. now apply appended_one.
Qed.

Lemma createTicketSchema_fields (c d t : Js.number) (subject_ description_ priority_ by_ : string)
  (v : NewTicket) :
  createTicketSchema c d t subject_ description_ priority_ by_ = Some v ->
  nt_subject v = subject_ /\ nt_description v = description_.
Proof.
  unfold createTicketSchema. destruct c, d, t; try discriminate.
  destruct (_ && _); [|discriminate]. intros [= <-]. split; reflexivity.
Qed.

Lemma createTicketSchema_priority (c d t : Js.number)
  (subject_ description_ priority_ by_ : string) (v : NewTicket) :
  createTicketSchema c d t subject_ description_ priority_ by_ = Some v ->
  nt_priority v = priority_.
Proof.
  unfold createTicketSchema. destruct c, d, t; try discriminate.
  destruct (_ && _); [|discriminate]. now intros [= <-].
Qed.

Lemma store_attachments_view (row : ComplaintRow) (files : list UploadedFile) (d : DB) :
  store_attachments (created_view row) files d =
  match files with
  | [] => Ok d
  | _ :: _ => Throw "Bind parameters must not contain undefined"
  end.
Proof. now destruct files. Qed.

Section Persistence.

Variable xss : string -> string.
Variable encryptMessage : string -> string.
Variable JSON_stringify : Json.t -> string.
Variable env : Env.
Variable sys_name_le : string -> string -> bool.

Lemma resolve_target_system_complaints (dep : Z) (requested : Js.number) (d : DB) :
  complaints (snd (resolve_target_system env sys_name_le dep requested d)) = complaints d.
Proof.
  unfold resolve_target_system.
  destruct (_ || _); [|reflexivity].
  destruct (getTargetSystemsByDepartment sys_name_le dep d); reflexivity.
Qed.

Lemma ensure_creator_complaints (u : HRMSUser) (dep : Z) (d : DB) :
  complaints (ensure_creator u dep d) = complaints d.
Proof. unfold ensure_creator. now destruct (existsb _ _). Qed.

Lemma department_mail_html_only (u : HRMSUser) (v : NewTicket) (ticket : CreatedTicket)
  (d : DB) :
  Forall
    (fun m => mail_text m = None /\
              exists h,
                mail_html m = Some h /\
                escaped_html_body (nt_subject v) (nt_priority v)
                  (Js.or_string (first_name u) "") (Js.or_string (last_name u) "") h)
    (sendDepartmentNotification env sys_name_le u v ticket d).
Proof.
  unfold sendDepartmentNotification. destruct (smtp_configured env); [|constructor].
  apply List.Forall_forall. intros m Hin.
  apply in_flat_map in Hin as (r & _ & Hin).
  destruct (truthy (cms_user_email r)); [|destruct Hin].
  destruct Hin as [<- | []]. split; [reflexivity|].
  eexists. split; [reflexivity|]. unfold escaped_html_body, department_mail_html.
  eexists _, _, _. reflexivity.
Qed.

Lemma admin_mail_text_only (subject_ text : string) (d : DB) :
  Forall (fun m => mail_html m = None) (sendAdminNotification env subject_ text d).
Proof.
  unfold sendAdminNotification. destruct (smtp_configured env); [|constructor].
  apply List.Forall_forall. intros m Hin. apply in_map_iff in Hin as (r & <- & _). reflexivity.
Qed.

Lemma post_ticket_persists (w : World) (u : HRMSUser) (body_ : TicketForm)
  (files : list UploadedFile) :
  let r := post_ticket xss encryptMessage JSON_stringify env sys_name_le w u body_ files in
  appended
    (fun row => cms_com_description row =
                Some (Html.sanitizeInput xss (default "" (form_description body_))))
    (rows (complaints (db w))) (rows (complaints (db (snd r)))) /\
  (code (fst r) = 201 ->
   exists fields,
     body (fst r) = Json.Obj fields /\
     In ("subject", Json.Str (Html.sanitizeInput xss (default "" (form_subject body_))))
        fields) /\
  appended
    (fun m => forall h, mail_html m = Some h ->
       escaped_html_body (Html.sanitizeInput xss (default "" (form_subject body_)))
         (default "medium" (form_priority body_))
         (Js.or_string (first_name u) "") (Js.or_string (last_name u) "") h)
    (outbox w) (outbox (snd r)).
Proof.
  unfold post_ticket.
  destruct (Js.Number_opt _) as [|dep] eqn:Edep.
  { cbn [fst snd code]. split; [apply appended_nil|].
    split; [discriminate | apply appended_nil]. }
  pose proof (resolve_target_system_complaints dep
                (Js.Number_opt (Js.nullish (form_target_system_id body_)
                                  (form_targetSystemId body_))) (db w)) as H1.
  destruct (resolve_target_system env sys_name_le dep _ (db w)) as [target d1]. cbn [snd] in H1.
  destruct target as [|tgt].
  { cbn [fst snd code db outbox with_db]. rewrite H1. split; [apply appended_nil|].
    split; [discriminate | apply appended_nil]. }
  pose proof (ensure_creator_complaints u dep d1) as H2.
  destruct (createTicketSchema _ _ _ _ _ _ _) as [v|] eqn:Ev.
  2:{ cbn [fst snd code db outbox with_db]. rewrite H2, H1. split; [apply appended_nil|].
      split; [discriminate | apply appended_nil]. }
  pose proof (createTicketSchema_priority _ _ _ _ _ _ _ _ Ev) as Hprio.
  apply createTicketSchema_fields in Ev as [Hsub Hdesc].
  unfold createTicket. cbn [sql_insert].
  set (newrow := mkComplaint _ _ _ _ _ _ _ _ _ _ _ _).
  set (d3 := set_complaints _ _).
  destruct (head _) as [row|].
  2:{ cbn [fst snd code db outbox with_db]. subst d3. cbn [complaints set_complaints rows].
      rewrite H2, H1. split; [|split; [discriminate | apply appended_nil]].
      apply appended_one. subst newrow. cbn. now rewrite Hdesc. }
  rewrite store_attachments_view.
  assert (appended
            (fun row => cms_com_description row =
                        Some (Html.sanitizeInput xss (default "" (form_description body_))))
            (rows (complaints (db w))) (rows (complaints d3))) as Hrows.
  { subst d3. cbn [complaints set_complaints rows]. rewrite H2, H1.
    apply appended_one. subst newrow. cbn. now rewrite Hdesc. }
  assert (appended
            (fun m => forall h, mail_html m = Some h ->
               escaped_html_body (Html.sanitizeInput xss (default "" (form_subject body_)))
                 (default "medium" (form_priority body_))
                 (Js.or_string (first_name u) "") (Js.or_string (last_name u) "") h)
            (outbox w)
            (outbox w ++
             (new_ticket_admin_mail env v (created_view row) d3 ++
              sendDepartmentNotification env sys_name_le u v (created_view row) d3))) as Hmail.
  { eexists. split; [reflexivity|]. apply Forall_app. split.
    - unfold new_ticket_admin_mail.
      eapply List.Forall_impl; [|apply admin_mail_text_only].
      intros m Hm h Hh. congruence.
    - eapply List.Forall_impl; [|apply department_mail_html_only].
      intros m (_ & h0 & Hm & Hb) h Hh. rewrite Hm in Hh.
      injection Hh as <-. now rewrite Hsub, Hprio in Hb. }
  destruct files as [|f files].
  - cbn [fst snd code body db outbox with_db with_hub with_mail].
    split; [exact Hrows|]. split; [|exact Hmail].
    intros _. eexists. split; [reflexivity|]. cbn. left. now rewrite Hsub.
  - cbn [fst snd code body db outbox with_db with_hub with_mail].
    split; [exact Hrows|]. split; [discriminate | exact Hmail].
Qed.


End Persistence.


(** *** Runs on the sample data *)

(** C3 at work: the employee of department 2 closes the unassigned ticket
    of department 2. *)
Lemma C3_witness_department_member_closes :
  code (fst (patch_ticket_status identity_filter opaque_json sample_env sample_world
               employee_dep2 1 (Some "closed"))) = 200 /\
  stored_status 1
    (db (snd (patch_ticket_status identity_filter opaque_json sample_env sample_world
                employee_dep2 1 (Some "closed")))) = Some (Some "closed").
Proof.
  assert (valid_status "closed") as Hs by (right; right; right; reflexivity).
  apply (proj2 (proj1 (proj1 (C3_employee_status_update identity_filter opaque_json
                                sample_env sample_world employee_dep2 1
                                (ticket_of_row sample_row) "closed" eq_refl Hs)
                         eq_refl))).
  split.
  - exists 2. split; reflexivity.
  - left. left. reflexivity.
Defined.

(** C9 at work: an admin moves the resolved ticket back to open. *)
Lemma C9_witness_resolved_to_open :
  code (fst (patch_ticket_status identity_filter opaque_json sample_env sample_world
               admin_dep1 1 (Some "open"))) = 200 /\
  stored_status 1
    (db (snd (patch_ticket_status identity_filter opaque_json sample_env sample_world
                admin_dep1 1 (Some "open")))) = Some (Some "open") /\
  status <$>
    getTicketById 1
      (db (snd (patch_ticket_status identity_filter opaque_json sample_env sample_world
                  admin_dep1 1 (Some "open")))) = Some "open".
Proof.
  assert (authorized_to_update admin_dep1 (ticket_of_row sample_row)) as Ha
    by (left; reflexivity).
  apply (proj1 (C9_any_status_to_any_status identity_filter opaque_json sample_env
                  sample_world admin_dep1 1 (ticket_of_row sample_row) (Some "open")
                  eq_refl Ha) "open" eq_refl).
  left. reflexivity.
Defined.

(** C4 at work: an admin reassigns the ticket, an employee may not. *)
Lemma C4_witness_admin_reassigns :
  (code (fst (patch_ticket_assign identity_filter opaque_json sample_env sample_world
                admin_dep1 1 (Some "e2"))) = 200 /\
   stored_assignee 1
     (db (snd (patch_ticket_assign identity_filter opaque_json sample_env sample_world
                 admin_dep1 1 (Some "e2")))) = Some (Some "e2")) /\
  snd (patch_ticket_assign identity_filter opaque_json sample_env sample_world
         employee_dep2 1 (Some "e2")) = sample_world.
Proof.
  split.
  - apply (proj2 (proj1 (C4_only_admins_reassign identity_filter opaque_json sample_env
                           sample_world admin_dep1 1 (ticket_of_row sample_row) "e2"
                           eq_refl))).
    left. reflexivity.
  - apply (proj2 (C4_only_admins_reassign identity_filter opaque_json sample_env
                    sample_world employee_dep2 1 (ticket_of_row sample_row) "e2" eq_refl)).
    intros [H | H]; discriminate H.
Defined.

(** C5 at work: an employee accepts the unassigned ticket. *)
Lemma C5_witness_accept_unassigned :
  code (fst (post_ticket_accept identity_filter opaque_json sample_env sample_world
               employee_dep2 1)) = 200 /\
  stored_assignee 1
    (db (snd (post_ticket_accept identity_filter opaque_json sample_env sample_world
                employee_dep2 1))) = Some (Some "e2").
Proof.
  apply (proj2 (proj1 (C5_accept_only_unassigned identity_filter opaque_json sample_env
                         sample_world employee_dep2 1 (ticket_of_row sample_row) eq_refl))).
  left. reflexivity.
Defined.

(** C6 at work: the employee of department 2 posts in the chat of the
    ticket of department 2, and the employee of department 1 may not. *)
Lemma C6_witness_department_member_posts :
  code (fst (post_ticket_message identity_filter identity_filter opaque_json sample_env
               sample_world employee_dep2 1 (Some "hello"))) = 201 /\
  snd (post_ticket_message identity_filter identity_filter opaque_json sample_env
         sample_world employee_dep1 1 (Some "hello")) = sample_world.
Proof.
  assert (ticket_number (ticket_of_row sample_row) <> EmptyString) as Hno by discriminate.
  assert ("hello" <> EmptyString) as Hm by discriminate.
  split.
  - apply (proj1 (C6_chat_post_authorization identity_filter identity_filter opaque_json
                    sample_env sample_world employee_dep2 1 (ticket_of_row sample_row)
                    "hello" eq_refl Hno Hm)).
    right. right. left. exists 2. split; [discriminate|]. split; reflexivity.
  - apply (proj2 (C6_chat_post_authorization identity_filter identity_filter opaque_json
                    sample_env sample_world employee_dep1 1 (ticket_of_row sample_row)
                    "hello" eq_refl Hno Hm)).
    intros [H | [H | [(d & _ & Hd & Hn) | [H | H]]]]; try discriminate H.
    cbn in Hd. injection Hd as <-. vm_compute in Hn. discriminate Hn.
Defined.


(* ------------------------------------------------------------------ *)
(** ** Further properties of the code *)

(** *** [escapeHtml] *)

Lemma append_cons (x : ascii) (a b : string) :
  String x a +:+ b = String x (a +:+ b).
Proof. reflexivity. Qed.

Lemma append_assoc (a b c : string) : (a +:+ b) +:+ c = a +:+ (b +:+ c).
Proof.
  induction a as [|x a IH]; [reflexivity|]. now rewrite !append_cons, IH.
Qed.

Lemma length_append (a b : string) :
  String.length (a +:+ b) = (String.length a + String.length b)%nat.
Proof.
  induction a as [|x a IH]; [reflexivity|].
  rewrite append_cons. simpl. now rewrite IH.
Qed.

Lemma replace_char_app (c : ascii) (by_ a b : string) :
  Html.replace_char c by_ (a +:+ b) =
  Html.replace_char c by_ a +:+ Html.replace_char c by_ b.
Proof.
  induction a as [|x a IH]; [reflexivity|].
  rewrite append_cons. cbn [Html.replace_char].
  destruct (Ascii.eqb x c).
  - now rewrite IH, append_assoc.
  - now rewrite append_cons, IH.
Qed.

Lemma escapeHtml_app (a b : string) :
  Html.escapeHtml (a +:+ b) = Html.escapeHtml a +:+ Html.escapeHtml b.
Proof. unfold Html.escapeHtml. now rewrite !replace_char_app. Qed.

Lemma escapeHtml_char (c : ascii) :
  Html.escapeHtml (String c EmptyString) = escape_char c.
Proof.
  unfold Html.escapeHtml, escape_char. simpl.
  destruct (Ascii.eqb_spec c "&") as [->|H1]; [reflexivity|]. simpl.
  destruct (Ascii.eqb_spec c "<") as [->|H2]; [reflexivity|]. simpl.
  destruct (Ascii.eqb_spec c ">") as [->|H3]; [reflexivity|]. simpl.
  destruct (Ascii.eqb_spec c Html.dquote) as [->|H4]; [reflexivity|]. simpl.
  destruct (Ascii.eqb_spec c "'") as [->|H5]; reflexivity.
Qed.

Lemma escapeHtml_each (s : string) : Html.escapeHtml s = escape_each s.
Proof.
  induction s as [|c r IH]; [reflexivity|].
  change (String c r) with (String c EmptyString +:+ r).
  rewrite escapeHtml_app, escapeHtml_char, IH. reflexivity.
Qed.

(** X1.  The five global replacements of [escapeHtml], done one after the
    other, amount to escaping each character once (no entity written by an
    earlier replacement is rewritten by a later one), so that escaping a
    concatenation is concatenating the escaped parts. *)
Theorem escapeHtml_is_one_pass (a b : string) :
  Html.escapeHtml a = escape_each a /\
  Html.escapeHtml (a +:+ b) = Html.escapeHtml a +:+ Html.escapeHtml b.
Proof. split; [apply escapeHtml_each | apply escapeHtml_app]. Qed.

Lemma escape_char_prefix_free (c1 c2 : ascii) (r1 r2 : string) :
  escape_char c1 +:+ r1 = escape_char c2 +:+ r2 -> c1 = c2 /\ r1 = r2.
Proof.
  unfold escape_char.
  destruct (Ascii.eqb_spec c1 "&") as [->|A1];
    [|destruct (Ascii.eqb_spec c1 "<") as [->|A2];
      [|destruct (Ascii.eqb_spec c1 ">") as [->|A3];
        [|destruct (Ascii.eqb_spec c1 Html.dquote) as [->|A4];
          [|destruct (Ascii.eqb_spec c1 "'") as [->|A5]]]]];
  (destruct (Ascii.eqb_spec c2 "&") as [->|B1];
    [|destruct (Ascii.eqb_spec c2 "<") as [->|B2];
      [|destruct (Ascii.eqb_spec c2 ">") as [->|B3];
        [|destruct (Ascii.eqb_spec c2 Html.dquote) as [->|B4];
          [|destruct (Ascii.eqb_spec c2 "'") as [->|B5]]]]]);
  cbv [String.append]; intros H; inversion H; subst;
    try (split; reflexivity); congruence.
Qed.

Lemma escape_char_nonempty (c : ascii) (r : string) : escape_char c +:+ r <> EmptyString.
Proof.
  unfold escape_char.
  repeat match goal with |- context [Ascii.eqb ?x ?k] => destruct (Ascii.eqb x k) end;
    cbv [String.append]; discriminate.
Qed.

(** X2.  [escapeHtml] loses nothing: two strings have the same escaped form
    only when they are the same string. *)
Theorem escapeHtml_injective (s1 s2 : string) :
  Html.escapeHtml s1 = Html.escapeHtml s2 <-> s1 = s2.
Proof.
  split; [|now intros ->].
  rewrite !escapeHtml_each. revert s2.
  induction s1 as [|c1 r1 IH]; intros [|c2 r2]; simpl; intros H.
  - reflexivity.
  - symmetry in H. now apply escape_char_nonempty in H.
  - now apply escape_char_nonempty in H.
  - apply escape_char_prefix_free in H as [-> H]. f_equal. now apply IH.
Qed.

Lemma escape_each_length (s : string) :
  (String.length s <= String.length (escape_each s))%nat.
Proof.
  induction s as [|c r IH]; simpl; [lia|]. rewrite length_append.
  assert (1 <= String.length (escape_char c))%nat; [|lia].
  unfold escape_char.
  repeat match goal with |- context [Ascii.eqb ?x ?k] => destruct (Ascii.eqb x k) end;
    simpl; lia.
Qed.

Lemma includes_char_cons (c x : ascii) (r : string) :
  Js.includes_char c (String x r) = false <-> x <> c /\ Js.includes_char c r = false.
Proof.
  simpl. rewrite orb_false_iff. destruct (Ascii.eqb_spec x c); intuition congruence.
Qed.

(** X3.  [escapeHtml] returns its argument unchanged exactly when the
    argument contains none of the five characters it replaces (ampersand,
    less-than, greater-than, double quote, single quote). *)
Theorem escapeHtml_fixes_plain_text_only (s : string) :
  Html.escapeHtml s = s <->
  (forall c, In c escaped_chars -> Js.includes_char c s = false).
Proof.
  rewrite escapeHtml_each. unfold escaped_chars. induction s as [|x r IH].
  - split; [intros _ c _; reflexivity | reflexivity].
  - split.
    + intros H. cbn [escape_each] in H. unfold escape_char in H.
      assert (escape_each r = r /\ ~ In x ["&"; "<"; ">"; Html.dquote; "'"]%char) as [Hr Hx].
      { destruct (Ascii.eqb_spec x "&") as [->|A1].
        { exfalso. cbv [String.append] in H. injection H as H.
          pose proof (escape_each_length r) as L. rewrite <- H in L at 1. simpl in L. lia. }
        destruct (Ascii.eqb_spec x "<") as [->|A2];
          [cbv [String.append] in H; discriminate H|].
        destruct (Ascii.eqb_spec x ">") as [->|A3];
          [cbv [String.append] in H; discriminate H|].
        destruct (Ascii.eqb_spec x Html.dquote) as [->|A4];
          [cbv [String.append] in H; discriminate H|].
        destruct (Ascii.eqb_spec x "'") as [->|A5];
          [cbv [String.append] in H; discriminate H|].
        cbv [String.append] in H. injection H as H. split; [exact H|]. simpl. intuition congruence. }
      intros c Hc. apply includes_char_cons. split.
      * intros ->. contradiction.
      * now apply IH.
    + intros H. cbn [escape_each].
      assert (escape_each r = r) as ->.
      { apply IH. intros c Hc. now apply (includes_char_cons c x r), H. }
      assert (forall c, In c ["&"; "<"; ">"; Html.dquote; "'"]%char -> x <> c) as Hx.
      { intros c Hc. now apply (includes_char_cons c x r), H. }
      unfold escape_char.
      destruct (Ascii.eqb_spec x "&") as [E|_]; [exfalso; apply (Hx _ (or_introl eq_refl) E)|].
      destruct (Ascii.eqb_spec x "<") as [E|_];
        [exfalso; apply (Hx "<"%char); [simpl; tauto | exact E]|].
      destruct (Ascii.eqb_spec x ">") as [E|_];
        [exfalso; apply (Hx ">"%char); [simpl; tauto | exact E]|].
      destruct (Ascii.eqb_spec x Html.dquote) as [E|_];
        [exfalso; apply (Hx Html.dquote); [simpl; tauto | exact E]|].
      destruct (Ascii.eqb_spec x "'") as [E|_];
        [exfalso; apply (Hx "'"%char); [simpl; tauto | exact E]|].
      reflexivity.
Qed.

(** *** [mapStatusToStandard] *)

Lemma lower_char_idem (c : ascii) : Js.lower_char (Js.lower_char c) = Js.lower_char c.
Proof. destruct c as [[] [] [] [] [] [] [] []]; reflexivity. Qed.

Lemma toLowerCase_idem (s : string) : Js.toLowerCase (Js.toLowerCase s) = Js.toLowerCase s.
Proof.
  induction s as [|c r IH]; simpl; [reflexivity|]. now rewrite lower_char_idem, IH.
Qed.

Lemma toLowerCase_truthy (s : string) :
  Js.string_truthy (Js.toLowerCase s) = Js.string_truthy s.
Proof. now destruct s. Qed.

(** X4.  Normalising a status twice is normalising it once: what
    [mapStatusToStandard] returns is a status it maps to itself, and it is
    never the empty string. *)
Theorem mapStatusToStandard_idempotent (s : option string) :
  mapStatusToStandard (Some (mapStatusToStandard s)) = mapStatusToStandard s /\
  mapStatusToStandard s <> "".
Proof.
  unfold mapStatusToStandard at 2 3 4.
  destruct (Js.opt_string_truthy s) eqn:Ht; cbn [negb]; [|split; [reflexivity|discriminate]].
  destruct s as [v|]; [|discriminate]. change (default "" (Some v)) with v. simpl in Ht.
  destruct (mem_string (Js.toLowerCase v) ["open"; "opened"; "new"]) eqn:E1;
    [split; [reflexivity|discriminate]|].
  destruct (mem_string (Js.toLowerCase v) ["in_progress"; "in-progress"; "progress"; "assigned"])
    eqn:E2; [split; [reflexivity|discriminate]|].
  destruct (mem_string (Js.toLowerCase v) ["resolved"; "done"; "fixed"]) eqn:E3;
    [split; [reflexivity|discriminate]|].
  destruct (mem_string (Js.toLowerCase v) ["closed"; "complete"; "completed"]) eqn:E4;
    [split; [reflexivity|discriminate]|].
  split.
  - unfold mapStatusToStandard. cbn [Js.opt_string_truthy].
    change (default "" (Some (Js.toLowerCase v))) with (Js.toLowerCase v).
    rewrite toLowerCase_truthy, Ht, toLowerCase_idem, E1, E2, E3, E4. reflexivity.
  - intros H. rewrite <- toLowerCase_truthy, H in Ht. discriminate.
Qed.

(** *** [getTicketStats] *)

Lemma count_where_cons {A} (p : A -> bool) (x : A) (l : list A) :
  count_where p (x :: l) = (if p x then 1 else 0) + count_where p l.
Proof.
  unfold count_where. simpl. destruct (p x); simpl; lia.
Qed.

Lemma count_where_nonneg {A} (p : A -> bool) (l : list A) : 0 <= count_where p l.
Proof. unfold count_where. lia. Qed.

Lemma stats_buckets_partition (l : list ComplaintRow) :
  count_where (fun r => Js.string_eq_opt "open" (cms_com_status r)) l +
  count_where
    (fun r =>
       match cms_com_status r with
       | Some s => mem_string s ["in_progress"; "in-progress"; "assigned"]
       | None => false
       end) l +
  count_where (fun r => Js.string_eq_opt "resolved" (cms_com_status r)) l +
  count_where (fun r => Js.string_eq_opt "closed" (cms_com_status r)) l +
  count_where (fun r => negb (counted_status (cms_com_status r))) l =
  Z.of_nat (List.length l).
Proof.
  induction l as [|r l IH]; [reflexivity|].
  rewrite !count_where_cons. cbn [List.length]. rewrite Nat2Z.inj_succ.
  assert ((if Js.string_eq_opt "open" (cms_com_status r) then 1 else 0) +
          (if match cms_com_status r with
              | Some s => mem_string s ["in_progress"; "in-progress"; "assigned"]
              | None => false
              end then 1 else 0) +
          (if Js.string_eq_opt "resolved" (cms_com_status r) then 1 else 0) +
          (if Js.string_eq_opt "closed" (cms_com_status r) then 1 else 0) +
          (if negb (counted_status (cms_com_status r)) then 1 else 0) = 1) as H; [|lia].
  destruct (cms_com_status r) as [v|]; [|reflexivity].
  unfold counted_status, mem_string, Js.string_eq_opt. cbn [existsb].
  rewrite (String.eqb_sym "open" v), (String.eqb_sym "resolved" v),
    (String.eqb_sym "closed" v).
  destruct (String.eqb_spec v "open") as [->|]; [reflexivity|].
  destruct (String.eqb_spec v "in_progress") as [->|]; [reflexivity|].
  destruct (String.eqb_spec v "in-progress") as [->|]; [reflexivity|].
  destruct (String.eqb_spec v "assigned") as [->|]; [reflexivity|].
  destruct (String.eqb_spec v "resolved") as [->|]; [reflexivity|].
  destruct (String.eqb_spec v "closed") as [->|]; reflexivity.
Qed.

Lemma count_where_zero {A} (p : A -> bool) (l : list A) :
  count_where p l = 0 <-> List.Forall (fun x => p x = false) l.
Proof.
  induction l as [|x l IH].
  - split; [constructor | reflexivity].
  - rewrite count_where_cons. pose proof (count_where_nonneg p l) as Hn. split.
    + intros H. destruct (p x) eqn:E; [lia|].
      constructor; [exact E | apply IH; lia].
    + intros H. inversion H as [|? ? Hx Hl]; subst. rewrite Hx.
      apply IH in Hl. lia.
Qed.

(** X5.  In what [getTicketStats] returns the four buckets never add up to
    more than the total, and they add up to the total exactly when every
    counted ticket has one of the six stored statuses the query names
    (open, in_progress, in-progress, assigned, resolved, closed): a ticket
    with another status, which a ticket view may still show as open or
    resolved, is in the total only. *)
Theorem getTicketStats_buckets (userId : option string) (departmentId : option Js.number)
  (d : DB) :
  let s := getTicketStats userId departmentId d in
  open s + in_progress s + resolved s + closed s <= total s /\
  (open s + in_progress s + resolved s + closed s = total s <->
   List.Forall (fun r => counted_status (cms_com_status r) = true)
     (sql_select (stats_where userId departmentId) (complaints d))).
Proof.
  cbn zeta. unfold getTicketStats. cbn [total open in_progress resolved closed].
  set (rs := sql_select _ _).
  pose proof (stats_buckets_partition rs) as P.
  pose proof (count_where_nonneg (fun r => negb (counted_status (cms_com_status r))) rs) as N.
  split; [lia|].
  rewrite <- P. split.
  - intros H.
    assert (count_where (fun r => negb (counted_status (cms_com_status r))) rs = 0) as Z0
      by lia.
    apply count_where_zero in Z0.
    eapply List.Forall_impl; [|exact Z0]. intros r Hr. simpl in Hr.
    now apply negb_false_iff in Hr.
  - intros H.
    assert (count_where (fun r => negb (counted_status (cms_com_status r))) rs = 0) as Z0.
    { apply count_where_zero. eapply List.Forall_impl; [|exact H].
      intros r Hr. simpl. now rewrite Hr. }
    lia.
Qed.

(** *** [GET /stats] and [GET /tickets] *)

Lemma Number_nonzero_truthy (s : string) (z : Z) :
  Js.Number s = Js.Num z -> z <> 0 -> Js.string_truthy s = true.
Proof.
  destruct s; [|reflexivity]. intros H Hz. vm_compute in H. congruence.
Qed.

Lemma is_role_super_admin (u : HRMSUser) :
  is_role super_admin u = true <-> role u = super_admin.
Proof. unfold is_role. destruct (role u); split; congruence. Qed.

Lemma not_super_admin (u : HRMSUser) :
  role u <> super_admin -> is_role super_admin u = false.
Proof.
  intros H. apply not_true_is_false. intros E. now apply is_role_super_admin in E.
Qed.

(** X6.  A requester who is no super admin and whose department is the
    non-zero number [z] gets from [GET /stats] the counts of department
    [z], whose total is the number of that department's tickets; but with a
    non-empty [department_id] in the query string the answer is the same
    for every requester. *)
Theorem get_stats_scope (w : World) (u : HRMSUser) (z : Z) :
  role u <> super_admin -> Js.Number (department u) = Js.Num z -> z <> 0 ->
  fst (get_stats w u None) =
    mkResponse 200 (json_stats (getTicketStats None (Some (Js.Num z)) (db w))) /\
  total (getTicketStats None (Some (Js.Num z)) (db w)) =
    count_where (of_department z) (rows (complaints (db w))) /\
  (forall (q : string) (other : HRMSUser),
     Js.string_truthy q = true -> get_stats w u (Some q) = get_stats w other (Some q)).
Proof.
  intros Hr Hn Hz. split; [|split].
  - unfold get_stats, stats_department, userDep. cbn [truthy fst].
    rewrite (not_super_admin u Hr), (Number_nonzero_truthy _ _ Hn Hz), Hn. reflexivity.
  - unfold getTicketStats, count_where, sql_select, stats_where, of_department.
    cbn [total andb]. apply Z.eqb_neq in Hz. rewrite Hz. reflexivity.
  - intros q other Hq. unfold get_stats, stats_department, truthy. now rewrite Hq.
Qed.

Lemma get_stats_scope_witness :
  fst (get_stats sample_world employee_dep2 None) =
    mkResponse 200 (json_stats (getTicketStats None (Some (Js.Num 2)) (db sample_world))) /\
  total (getTicketStats None (Some (Js.Num 2)) (db sample_world)) =
    count_where (of_department 2) (rows (complaints (db sample_world))) /\
  (forall (q : string) (other : HRMSUser),
     Js.string_truthy q = true ->
     get_stats sample_world employee_dep2 (Some q) = get_stats sample_world other (Some q)).
Proof.
  apply (get_stats_scope sample_world employee_dep2 2);
    [discriminate | reflexivity | discriminate].
Defined.

Lemma order_by_In {A} (le : A -> A -> bool) (l : list A) (x : A) :
  In x (order_by le l) <-> In x l.
Proof.
  assert (forall y m, In x (insert_by le y m) <-> x = y \/ In x m) as Hi.
  { intros y m. induction m as [|b m IH]; simpl; [intuition|].
    destruct (le y b); simpl; [intuition|]. rewrite IH. intuition. }
  unfold order_by. induction l as [|a l IH]; simpl; [reflexivity|].
  rewrite Hi, IH. intuition.
Qed.

Lemma order_by_length {A} (le : A -> A -> bool) (l : list A) :
  List.length (order_by le l) = List.length l.
Proof.
  assert (forall y m, List.length (insert_by le y m) = S (List.length m)) as Hi.
  { intros y m. induction m as [|b m IH]; simpl; [reflexivity|].
    destruct (le y b); simpl; [reflexivity | now rewrite IH]. }
  unfold order_by. induction l as [|a l IH]; simpl; [reflexivity|].
  now rewrite Hi, IH.
Qed.

Lemma In_firstn {A} (n : nat) (l : list A) (x : A) : In x (firstn n l) -> In x l.
Proof.
  revert l. induction n as [|n IH]; intros [|a l]; simpl; try tauto.
  intros [H | H]; [left; exact H | right; now apply IH].
Qed.

Lemma In_skipn {A} (n : nat) (l : list A) (x : A) : In x (skipn n l) -> In x l.
Proof.
  revert l. induction n as [|n IH]; intros [|a l]; simpl; try tauto.
  intros H. right. now apply IH.
Qed.

Lemma getTickets_length (sql_like : string -> string -> bool) (f : Filters) (l o : Z)
  (d : DB) :
  (List.length (getTickets sql_like f l o d) <= Z.to_nat l)%nat.
Proof.
  unfold getTickets. rewrite List.length_map. apply List.firstn_le_length.
Qed.

Lemma getTickets_In (sql_like : string -> string -> bool) (f : Filters) (l o : Z) (d : DB)
  (t : Ticket) :
  In t (getTickets sql_like f l o d) ->
  exists r, In r (rows (complaints d)) /\ tickets_where sql_like f r = true /\
            t = ticket_of_row r.
Proof.
  unfold getTickets. intros H. apply in_map_iff in H as (r & <- & H).
  exists r. apply In_firstn, In_skipn in H.
  apply order_by_In in H. unfold sql_select in H. apply filter_In in H as [H1 H2].
  auto.
Qed.

Section Listing.

Variable xss : string -> string.
Variable sql_like : string -> string -> bool.

(** X7.  [GET /tickets] changes nothing and answers either 500 (a limit or
    an offset that has no leading number) or 200 with a list of at most 100
    tickets, however large the limit asked for, and of at most 20 when the
    query gives no limit. *)
Theorem get_tickets_page_size (w : World) (u : HRMSUser) (query : TicketQuery) :
  snd (get_tickets xss sql_like w u query) = w /\
  (fst (get_tickets xss sql_like w u query) = error 500 "Failed to fetch tickets" \/
   exists l,
     fst (get_tickets xss sql_like w u query) = mkResponse 200 (Json.Arr l) /\
     (List.length l <= 100)%nat /\
     (truthy (q_limit query) = None -> (List.length l <= 20)%nat)).
Proof.
  unfold get_tickets.
  destruct (truthy (q_limit query)) as [lim|].
  - destruct (Js.parseInt lim) as [|n]; cbn [Js.clamp].
    + split; [reflexivity | left; reflexivity].
    + destruct (match truthy (q_offset query) with
                | Some o => Js.at_least 0 (Js.parseInt o)
                | None => Js.Num 0
                end) as [|o].
      * split; [reflexivity | left; reflexivity].
      * split; [reflexivity|]. right. eexists. split; [reflexivity|]. split.
        -- rewrite List.length_map.
           pose proof (getTickets_length sql_like (ticket_filters xss u query)
                         (Z.max 1 (Z.min 100 n)) o (db w)). lia.
        -- discriminate.
  - destruct (match truthy (q_offset query) with
              | Some o => Js.at_least 0 (Js.parseInt o)
              | None => Js.Num 0
              end) as [|o].
    + split; [reflexivity | left; reflexivity].
    + split; [reflexivity|]. right. eexists. split; [reflexivity|].
      rewrite List.length_map.
      pose proof (getTickets_length sql_like (ticket_filters xss u query) 20 o (db w)).
      split; [lia | intros _; lia].
Qed.

(** X8.  Without a [department_id] in the query string, a requester who is
    no super admin and whose department is the non-zero number [z] is
    listed tickets of department [z] only, whatever the other filters and
    the page. *)
Theorem get_tickets_own_department (w : World) (u : HRMSUser) (query : TicketQuery)
  (z l o : Z) :
  role u <> super_admin -> Js.Number (department u) = Js.Num z -> z <> 0 ->
  truthy (q_department_id query) = None ->
  List.Forall (fun t => department_id t = Some z)
    (getTickets sql_like (ticket_filters xss u query) l o (db w)).
Proof.
  intros Hr Hn Hz Hq. apply List.Forall_forall. intros t Ht.
  apply getTickets_In in Ht as (r & _ & Hw & ->).
  unfold tickets_where, ticket_filters in Hw. cbn [f_departmentId f_userId] in Hw.
  rewrite Hq, (not_super_admin u Hr) in Hw. unfold userDep in Hw.
  rewrite (Number_nonzero_truthy _ _ Hn Hz), Hn in Hw. cbn [negb Js.number_truthy] in Hw.
  apply Z.eqb_neq in Hz. rewrite Hz in Hw. cbn [negb andb] in Hw.
  apply andb_true_iff in Hw as [Hw _]. apply andb_true_iff in Hw as [Hw _].
  apply andb_true_iff in Hw as [Hw _]. rewrite Hz in Hw.
  cbn [ticket_of_row department_id].
  destruct (cms_sys_dep_id r) as [x|]; [|discriminate].
  apply Z.eqb_eq in Hw. now subst.
Qed.

End Listing.

Lemma get_tickets_own_department_witness :
  List.Forall (fun t => department_id t = Some 2)
    (getTickets (fun _ _ => true)
       (ticket_filters identity_filter employee_dep2
          (mkTicketQuery None None None None None None)) 20 0 (db sample_world)).
Proof.
  apply (get_tickets_own_department identity_filter (fun _ _ => true) sample_world
           employee_dep2 (mkTicketQuery None None None None None None) 2 20 0);
    [discriminate | reflexivity | discriminate | reflexivity].
Defined.

(** *** The hub: connections, client messages and broadcasts together *)

Lemma delivered_exclusive (sel1 sel2 : Hub.ClientConnection -> bool) (d1 d2 : string)
  (c : Hub.ClientConnection) :
  (forall d x, sel1 (Hub.client_send d x) = sel1 x) ->
  (forall d x, sel2 (Hub.client_send d x) = sel2 x) ->
  sel1 c && sel2 c = false ->
  delivered sel1 d1 (delivered sel2 d2 c) = delivered sel2 d2 (delivered sel1 d1 c).
Proof.
  intros H1 H2 Hx.
  assert (forall d x, Hub.is_open (Hub.ws (Hub.client_send d x)) = Hub.is_open (Hub.ws x))
    as Ho by reflexivity.
  rewrite !delivered_send.
  destruct (Hub.is_open (Hub.ws c)) eqn:Eo, (sel1 c) eqn:E1, (sel2 c) eqn:E2;
    try discriminate Hx; cbn [andb];
    rewrite ?Ho, ?H1, ?H2, ?Eo, ?E1, ?E2; reflexivity.
Qed.

Section HubSessions.

Variable encryptMessage : string -> string.
Variable JSON_stringify : Json.t -> string.

Lemma broadcastTicketMessage_lookup (now_ : string) (T : Z) (m : Json.t)
  (clients : Hub.Clients) (k : string) :
  Hub.broadcastTicketMessage encryptMessage JSON_stringify now_ T m clients !! k =
  delivered (fun c => Hub.ticketId_is (Hub.ticketId c) T)
    (message_frame encryptMessage JSON_stringify now_ T m) <$> clients !! k.
Proof. exact (fanout_lookup (fun c => Hub.ticketId_is (Hub.ticketId c) T) _ clients k). Qed.

Lemma broadcastTicketUpdate_lookup (now_ : string) (T : Z) (u : Json.t)
  (clients : Hub.Clients) (k : string) :
  Hub.broadcastTicketUpdate encryptMessage JSON_stringify now_ T u clients !! k =
  delivered (fun c => Hub.ticketId_is (Hub.ticketId c) T)
    (update_frame encryptMessage JSON_stringify now_ T u) <$> clients !! k.
Proof. exact (fanout_lookup (fun c => Hub.ticketId_is (Hub.ticketId c) T) _ clients k). Qed.

Lemma notifyUser_lookup (now_ : string) (U : string) (n : Json.t)
  (clients : Hub.Clients) (k : string) :
  Hub.notifyUser encryptMessage JSON_stringify now_ U n clients !! k =
  delivered (fun c => String.eqb (Hub.userId c) U)
    (notification_frame encryptMessage JSON_stringify now_ n) <$> clients !! k.
Proof. exact (fanout_lookup (fun c => String.eqb (Hub.userId c) U) _ clients k). Qed.

Lemma handleMessage_join (now_ k : string) (t : Hub.TicketId) (clients : Hub.Clients)
  (c : Hub.ClientConnection) :
  clients !! k = Some c ->
  Hub.handleMessage JSON_stringify now_ k (Hub.join_ticket t) clients !! k =
  Some (Hub.mkClient (Hub.ws c) (Hub.userId c) t).
Proof. intros H. unfold Hub.handleMessage. rewrite H. apply lookup_insert_eq. Qed.

Lemma handleMessage_leave (now_ k : string) (clients : Hub.Clients)
  (c : Hub.ClientConnection) :
  clients !! k = Some c ->
  Hub.handleMessage JSON_stringify now_ k Hub.leave_ticket clients !! k =
  Some (Hub.mkClient (Hub.ws c) (Hub.userId c) Hub.Undefined).
Proof. intros H. unfold Hub.handleMessage. rewrite H. apply lookup_insert_eq. Qed.

(** X9.  A tracked client with an open socket that joins ticket [T] with
    the number [T] is sent the next message broadcast for [T]; one that
    joins with a ticket id that is no number (the string of the number,
    say) is sent nothing, and neither is one that has left, whatever the
    ticket of the broadcast. *)
Theorem join_then_broadcast (now_ k : string) (clients : Hub.Clients)
  (c : Hub.ClientConnection) (T : Z) (m : Json.t) :
  clients !! k = Some c -> Hub.is_open (Hub.ws c) = true ->
  sent_to k
    (Hub.broadcastTicketMessage encryptMessage JSON_stringify now_ T m
       (Hub.handleMessage JSON_stringify now_ k (Hub.join_ticket (Hub.Numeric (Js.Num T)))
          clients)) =
  Some (Hub.sent (Hub.ws c) ++ [message_frame encryptMessage JSON_stringify now_ T m]) /\
  (forall v : Json.t,
     sent_to k
       (Hub.broadcastTicketMessage encryptMessage JSON_stringify now_ T m
          (Hub.handleMessage JSON_stringify now_ k (Hub.join_ticket (Hub.NonNumeric v))
             clients)) =
     Some (Hub.sent (Hub.ws c))) /\
  sent_to k
    (Hub.broadcastTicketMessage encryptMessage JSON_stringify now_ T m
       (Hub.handleMessage JSON_stringify now_ k Hub.leave_ticket clients)) =
  Some (Hub.sent (Hub.ws c)).
Proof.
  intros Hk Ho. unfold sent_to. split; [|split]; [|intros v|].
  - rewrite broadcastTicketMessage_lookup, (handleMessage_join _ _ _ _ _ Hk).
    cbn [fmap option_fmap option_map]. rewrite delivered_send.
    cbn [fmap option_fmap option_map Hub.ws Hub.ticketId Hub.ticketId_is
                             Js.number_eq].
    now rewrite Ho, Z.eqb_refl.
  - rewrite broadcastTicketMessage_lookup, (handleMessage_join _ _ _ _ _ Hk).
    cbn [fmap option_fmap option_map]. rewrite delivered_send.
    cbn [fmap option_fmap option_map Hub.ws Hub.ticketId Hub.ticketId_is].
    now rewrite andb_false_r.
  - rewrite broadcastTicketMessage_lookup, (handleMessage_leave _ _ _ _ Hk).
    cbn [fmap option_fmap option_map]. rewrite delivered_send.
    cbn [fmap option_fmap option_map Hub.ws Hub.ticketId Hub.ticketId_is].
    now rewrite andb_false_r.
Qed.

(** X10.  A message a client sends changes no other connection, adds and
    removes no client, and never changes the user or the socket state of
    the connection it came from. *)
Theorem handleMessage_frame (now_ k : string) (message : Hub.ClientMessage)
  (clients : Hub.Clients) (k' : string) :
  (k' <> k ->
   Hub.handleMessage JSON_stringify now_ k message clients !! k' = clients !! k') /\
  Hub.userId <$> Hub.handleMessage JSON_stringify now_ k message clients !! k' =
    Hub.userId <$> clients !! k' /\
  (fun c => Hub.readyState (Hub.ws c)) <$>
    Hub.handleMessage JSON_stringify now_ k message clients !! k' =
    (fun c => Hub.readyState (Hub.ws c)) <$> clients !! k'.
Proof.
  unfold Hub.handleMessage.
  destruct (clients !! k) as [c|] eqn:Hk; [|repeat split; reflexivity].
  destruct (String.eqb_spec k' k) as [->|Hne].
  - split; [congruence|].
    destruct message; [| |destruct (Hub.is_open (Hub.ws c))|];
      rewrite ?lookup_insert_eq, Hk; split; reflexivity.
  - destruct message; [| |destruct (Hub.is_open (Hub.ws c))|];
      rewrite ?lookup_insert_ne by congruence; repeat split; reflexivity.
Qed.

(** X11.  A connection that names no user is not tracked.  A connection of
    user [u] is tracked under a client id made of [u] and the time, is sent
    the confirmation first, is reached by [notifyUser u], and is reached by
    the broadcasts of ticket [T] when the [ticketId] of its URL parses to
    [T]; closing it again leaves the hub as it was before, provided the
    client id was free. *)
Theorem connection_is_tracked (now_ms : Z) (now_ u t : string) (T : Z) (n upd : Json.t)
  (clients : Hub.Clients) :
  Js.string_truthy u = true -> Js.string_truthy t = true ->
  Js.parseInt_no_radix t = Js.Num T ->
  Hub.connection encryptMessage JSON_stringify now_ms now_ None (Some t) clients = clients /\
  sent_to (client_id u now_ms)
    (Hub.connection encryptMessage JSON_stringify now_ms now_ (Some u) (Some t) clients) =
    Some [connected_frame encryptMessage JSON_stringify now_ (client_id u now_ms)] /\
  sent_to (client_id u now_ms)
    (Hub.notifyUser encryptMessage JSON_stringify now_ u n
       (Hub.connection encryptMessage JSON_stringify now_ms now_ (Some u) (Some t) clients)) =
    Some [connected_frame encryptMessage JSON_stringify now_ (client_id u now_ms);
          notification_frame encryptMessage JSON_stringify now_ n] /\
  sent_to (client_id u now_ms)
    (Hub.broadcastTicketUpdate encryptMessage JSON_stringify now_ T upd
       (Hub.connection encryptMessage JSON_stringify now_ms now_ (Some u) (Some t) clients)) =
    Some [connected_frame encryptMessage JSON_stringify now_ (client_id u now_ms);
          update_frame encryptMessage JSON_stringify now_ T upd] /\
  (clients !! client_id u now_ms = None ->
   Hub.close (client_id u now_ms)
     (Hub.connection encryptMessage JSON_stringify now_ms now_ (Some u) (Some t) clients) =
   clients).
Proof.
  intros Hu Ht Hp. split; [reflexivity|].
  assert (Hub.connection encryptMessage JSON_stringify now_ms now_ (Some u) (Some t) clients
            !! client_id u now_ms =
          Some (Hub.mkClient
                  (Hub.mkWebSocket Hub.OPEN
                     [connected_frame encryptMessage JSON_stringify now_ (client_id u now_ms)])
                  u (Hub.Numeric (Js.Num T)))) as Hl.
  { unfold Hub.connection. rewrite Hu, Ht, Hp. cbn [negb]. apply lookup_insert_eq. }
  unfold sent_to. split; [|split; [|split]].
  - now rewrite Hl.
  - rewrite notifyUser_lookup, Hl. cbn [fmap option_fmap option_map].
    rewrite delivered_send.
    cbn [fmap option_fmap option_map Hub.ws Hub.userId Hub.is_open Hub.readyState andb].
    now rewrite String.eqb_refl.
  - rewrite broadcastTicketUpdate_lookup, Hl. cbn [fmap option_fmap option_map].
    rewrite delivered_send.
    cbn [fmap option_fmap option_map Hub.ws Hub.ticketId Hub.ticketId_is Js.number_eq
           Hub.is_open Hub.readyState andb].
    now rewrite Z.eqb_refl.
  - intros Hf. unfold Hub.close, Hub.connection. rewrite Hu. cbn [negb].
    now apply delete_insert_id.
Qed.

(** X12.  Broadcasts for two different tickets reach different
    connections, so the order in which they happen does not matter. *)
Theorem broadcasts_commute (now1 now2 : string) (T1 T2 : Z) (m u : Json.t)
  (clients : Hub.Clients) :
  T1 <> T2 ->
  Hub.broadcastTicketMessage encryptMessage JSON_stringify now1 T1 m
    (Hub.broadcastTicketUpdate encryptMessage JSON_stringify now2 T2 u clients) =
  Hub.broadcastTicketUpdate encryptMessage JSON_stringify now2 T2 u
    (Hub.broadcastTicketMessage encryptMessage JSON_stringify now1 T1 m clients).
Proof.
  intros Hne. apply map_eq. intros k.
  rewrite broadcastTicketMessage_lookup, !broadcastTicketUpdate_lookup,
    broadcastTicketMessage_lookup.
  destruct (clients !! k) as [c|]; [|reflexivity].
  cbn [fmap option_fmap option_map]. f_equal.
  apply delivered_exclusive; try reflexivity.
  destruct (Hub.ticketId c) as [|[|x]|v]; try reflexivity.
  cbn [Hub.ticketId_is Js.number_eq].
  destruct (Z.eqb_spec x T1) as [->|]; [|reflexivity].
  destruct (Z.eqb_spec T1 T2); [contradiction | reflexivity].
Qed.

End HubSessions.

(** *** Preferences and the daily summary *)

Lemma same_ignoring_case_equivalence : key_equivalence same_ignoring_case.
Proof.
  unfold key_equivalence, same_ignoring_case. split; [|split].
  - intros a. apply String.eqb_refl.
  - intros a b. apply String.eqb_sym.
  - intros a b c H1 H2. apply String.eqb_eq in H1, H2. apply String.eqb_eq. congruence.
Qed.

Section PrefsProperties.

Variable key_eq : string -> string -> bool.
Hypothesis key_eq_equivalence : key_equivalence key_eq.

Lemma key_eq_congruence (u v k : string) : key_eq v u = true -> key_eq k v = key_eq k u.
Proof.
  destruct key_eq_equivalence as (_ & Hsym & Htrans). intros H.
  destruct (key_eq k u) eqn:E.
  - apply (Htrans k u v E). now rewrite Hsym.
  - destruct (key_eq k v) eqn:E'; [|reflexivity].
    rewrite <- E. symmetry. now apply (Htrans k v u).
Qed.

Lemma key_eq_apart (u v k : string) : key_eq v u = false -> key_eq k u = true -> key_eq k v = false.
Proof.
  destruct key_eq_equivalence as (_ & Hsym & Htrans). intros H Hk.
  destruct (key_eq k v) eqn:E; [|reflexivity].
  rewrite <- H. symmetry. apply (Htrans v k u); [now rewrite Hsym | exact Hk].
Qed.

Lemma getUserPrefs_upsert_same (u : string) (n s : option bool) (d : DB) :
  getUserPrefs key_eq u (upsertUserPrefs key_eq u n s d) =
  mkUserPrefs (default (up_notifications (getUserPrefs key_eq u d)) n)
    (default (up_daily_summary (getUserPrefs key_eq u d)) s).
Proof.
  destruct key_eq_equivalence as (Hrefl & _ & _).
  unfold upsertUserPrefs, set_prefs. unfold getUserPrefs at 1. cbn [prefs].
  set (nn := default _ n). set (ss := default _ s).
  induction (prefs d) as [|p l IH]; cbn [List.existsb List.map List.find app].
  - now rewrite Hrefl.
  - destruct (key_eq (prefs_user_id p) u) eqn:E; cbn [orb].
    + cbn [List.find prefs_user_id]. now rewrite E.
    + destruct (List.existsb _ l) eqn:Ex; cbn [List.find]; rewrite E; exact IH.
Qed.

Lemma getUserPrefs_upsert_other (u v : string) (n s : option bool) (d : DB) :
  key_eq v u = false ->
  getUserPrefs key_eq v (upsertUserPrefs key_eq u n s d) = getUserPrefs key_eq v d.
Proof.
  destruct key_eq_equivalence as (_ & Hsym & _). intros Hv.
  assert (forall (nn ss : bool) (l : list PrefsRow),
            List.find (fun p => key_eq (prefs_user_id p) v)
              (if List.existsb (fun p => key_eq (prefs_user_id p) u) l
               then List.map
                      (fun p =>
                         if key_eq (prefs_user_id p) u then mkPrefs (prefs_user_id p) nn ss
                         else p) l
               else l ++ [mkPrefs u nn ss]) =
            List.find (fun p => key_eq (prefs_user_id p) v) l) as Hfind.
  { intros nn ss l. destruct (List.existsb _ l).
    - induction l as [|p l IH]; cbn [List.map List.find]; [reflexivity|].
      destruct (key_eq (prefs_user_id p) u) eqn:E.
      + cbn [prefs_user_id]. rewrite (key_eq_apart u v _ Hv E). exact IH.
      + now rewrite IH.
    - induction l as [|p l IH]; cbn [app List.find prefs_user_id].
      + now rewrite Hsym, Hv.
      + now rewrite IH. }
  unfold upsertUserPrefs, set_prefs, getUserPrefs. cbn [prefs]. now rewrite Hfind.
Qed.

Lemma getUserPrefs_same_key (u v : string) (d : DB) :
  key_eq v u = true -> getUserPrefs key_eq v d = getUserPrefs key_eq u d.
Proof.
  intros H. unfold getUserPrefs.
  assert (List.find (fun p => key_eq (prefs_user_id p) v) (prefs d) =
          List.find (fun p => key_eq (prefs_user_id p) u) (prefs d)) as ->; [|reflexivity].
  induction (prefs d) as [|p l IH]; cbn [List.find]; [reflexivity|].
  now rewrite (key_eq_congruence u v _ H), IH.
Qed.

Lemma upsertUserPrefs_keys (u : string) (n s : option bool) (d : DB) :
  prefs_keys (upsertUserPrefs key_eq u n s d) =
  if List.existsb (fun p => key_eq (prefs_user_id p) u) (prefs d)
  then prefs_keys d else prefs_keys d ++ [u].
Proof.
  unfold prefs_keys, upsertUserPrefs, set_prefs. cbn [prefs].
  destruct (List.existsb _ (prefs d)).
  - rewrite List.map_map. apply List.map_ext. intros p.
    now destruct (key_eq (prefs_user_id p) u).
  - now rewrite List.map_app.
Qed.

(** X13.  Whatever equivalence the table's collation makes of its keys:
    after [upsertUserPrefs] for a key that fits the key column,
    [getUserPrefs] reads for that key, and for every key the collation
    takes for the same, each value that was given, and for a value that was
    left out what it read before (notifications on and daily summary off,
    when there was no row); what it reads for any other key is unchanged;
    and the table has the keys it had, with the given key added only when no
    row had the same key. *)
Theorem upsertUserPrefs_then_get (u : string) (n s : option bool) (d : DB) :
  fits_varchar 255 u ->
  (forall v, key_eq v u = true ->
     getUserPrefs key_eq v (upsertUserPrefs key_eq u n s d) =
     mkUserPrefs (default (up_notifications (getUserPrefs key_eq u d)) n)
       (default (up_daily_summary (getUserPrefs key_eq u d)) s)) /\
  (forall v, key_eq v u = false ->
     getUserPrefs key_eq v (upsertUserPrefs key_eq u n s d) = getUserPrefs key_eq v d) /\
  prefs_keys (upsertUserPrefs key_eq u n s d) =
    (if List.existsb (fun p => key_eq (prefs_user_id p) u) (prefs d)
     then prefs_keys d else prefs_keys d ++ [u]).
Proof.
  intros _. split; [|split].
  - intros v Hv. rewrite (getUserPrefs_same_key u v _ Hv). apply getUserPrefs_upsert_same.
  - intros v. apply getUserPrefs_upsert_other.
  - apply upsertUserPrefs_keys.
Qed.

(** X14.  Whatever equivalence the table's collation makes of its keys:
    through [POST /admin/prefs] a requester who is no super admin, and whose
    employee id fits the key column, changes the preferences of no key but
    their own employee id (and the keys the collation takes for the same),
    whatever [user_id] the body names, and an employee changes nothing at
    all. *)
Theorem post_admin_prefs_own_only (u : HRMSUser) (body_user_id : option string)
  (n s : option bool) (w : World) :
  role u <> super_admin ->
  fits_varchar 255 (employee_id u) ->
  (forall v, key_eq v (employee_id u) = false ->
     getUserPrefs key_eq v (db (snd (post_admin_prefs key_eq (Some u) body_user_id n s w))) =
     getUserPrefs key_eq v (db w)) /\
  (role u = employee ->
   post_admin_prefs key_eq (Some u) body_user_id n s w =
   (message 403 "Insufficient permissions", w)).
Proof.
  intros Hr _. unfold post_admin_prefs, guarded, requireAuth, requireRole, prefs_target.
  rewrite (not_super_admin u Hr).
  destruct (role u) eqn:E; [| |congruence]; cbn.
  - split; [reflexivity | reflexivity].
  - split; [|discriminate]. intros v Hv.
    destruct body_user_id; now apply getUserPrefs_upsert_other.
Qed.

End PrefsProperties.

(** X13 at work, under a comparison that ignores case: setting the
    notifications of A1 overwrites the row of a1 and adds none. *)
Lemma upsertUserPrefs_then_get_witness :
  getUserPrefs same_ignoring_case "A1"
    (upsertUserPrefs same_ignoring_case "A1" (Some false) None prefs_db) =
    mkUserPrefs false true /\
  getUserPrefs same_ignoring_case "a1"
    (upsertUserPrefs same_ignoring_case "A1" (Some false) None prefs_db) =
    mkUserPrefs false true /\
  prefs_keys (upsertUserPrefs same_ignoring_case "A1" (Some false) None prefs_db) = ["a1"].
Proof.
  assert (fits_varchar 255 "A1") as Hfit by (unfold fits_varchar; cbn; lia).
  destruct (upsertUserPrefs_then_get same_ignoring_case same_ignoring_case_equivalence
              "A1" (Some false) None prefs_db Hfit) as (H1 & _ & H3).
  split; [exact (H1 "A1" eq_refl) | split; [exact (H1 "a1" eq_refl) | exact H3]].
Defined.

Lemma post_admin_prefs_own_only_witness :
  (forall v, same_ignoring_case v (employee_id admin_dep1) = false ->
     getUserPrefs same_ignoring_case v
       (db (snd (post_admin_prefs same_ignoring_case (Some admin_dep1) (Some "e2")
                   (Some false) None sample_world))) =
     getUserPrefs same_ignoring_case v (db sample_world)) /\
  (role admin_dep1 = employee ->
   post_admin_prefs same_ignoring_case (Some admin_dep1) (Some "e2") (Some false) None
     sample_world =
   (message 403 "Insufficient permissions", sample_world)).
Proof.
  apply (post_admin_prefs_own_only same_ignoring_case same_ignoring_case_equivalence
           admin_dep1 (Some "e2") (Some false) None sample_world).
  - discriminate.
  - unfold fits_varchar. cbn. lia.
Defined.


(** *** The user directory *)

Lemma In_sql_update {A} (p : A -> bool) (f : A -> A) (t : Table A) (x : A) :
  In x (rows (sql_update p f t)) ->
  In x (rows t) \/ exists r, In r (rows t) /\ p r = true /\ x = f r.
Proof.
  unfold sql_update. cbn [rows]. intros H. apply in_map_iff in H as (r & Hx & Hr).
  destruct (p r) eqn:E; [right; exists r; auto | left; now subst].
Qed.

(** X16.  Through [PATCH /admin/users/:id/role] a requester who is no
    super admin makes nobody a super admin, and changes the directory only
    when they are an admin and the user they name is recorded in the
    non-zero department that is their own; the change then is the role of
    that user, to admin or employee. *)
Theorem patch_user_role_bounds (u : HRMSUser) (userId : string) (body_role : option string)
  (directory : Table UserRow) :
  role u <> super_admin ->
  (forall r, In r (rows (snd (patch_user_role (Some u) userId body_role directory))) ->
     cms_user_type_id r = 99 -> In r (rows directory)) /\
  (snd (patch_user_role (Some u) userId body_role directory) = directory \/
   role u = admin /\
   (exists dep,
      head (sql_select (fun r => String.eqb (cms_user_id_u r) userId) directory)
        ≫= cms_user_dep_id = Some dep /\
      dep <> 0 /\ Js.Number (department u) = Js.Num dep) /\
   (exists z, (z = 1 \/ z = 3) /\
      snd (patch_user_role (Some u) userId body_role directory) =
      sql_update (fun r => String.eqb (cms_user_id_u r) userId) (set_user_type z)
        directory)).
Proof.
  intros Hr.
  assert (snd (patch_user_role (Some u) userId body_role directory) = directory \/
          role u = admin /\
          (exists dep,
             head (sql_select (fun r => String.eqb (cms_user_id_u r) userId) directory)
               ≫= cms_user_dep_id = Some dep /\
             dep <> 0 /\ Js.Number (department u) = Js.Num dep) /\
          (exists z, (z = 1 \/ z = 3) /\
             snd (patch_user_role (Some u) userId body_role directory) =
             sql_update (fun r => String.eqb (cms_user_id_u r) userId) (set_user_type z)
               directory)) as H.
  { pose proof (not_super_admin u Hr) as Hs.
    unfold patch_user_role, guarded, requireAuth, requireRole, update_user_role.
    rewrite !Hs.
    destruct (role u) eqn:E; [left; reflexivity | | congruence].
    cbn [role_name mem_string existsb String.eqb Ascii.eqb Bool.eqb orb negb].
    unfold role_update_map.
    destruct (String.eqb (Js.trim (default "" body_role)) "super_admin");
      [left; reflexivity|].
    destruct (head (sql_select (fun r => String.eqb (cms_user_id_u r) userId) directory)
                ≫= cms_user_dep_id) as [dep|] eqn:Ed.
    2:{ left. repeat match goal with
                     | |- context [if ?b then _ else _] => destruct b
                     end; reflexivity. }
    destruct (Z.eqb_spec dep 0) as [->|Hd0]; cbn [orb].
    { left. repeat match goal with
                   | |- context [if ?b then _ else _] => destruct b
                   end; reflexivity. }
    destruct (Js.Number (department u)) as [|x] eqn:En; cbn [Js.number_eq negb].
    { left. repeat match goal with
                   | |- context [if ?b then _ else _] => destruct b
                   end; reflexivity. }
    destruct (Z.eqb_spec dep x) as [->|Hx]; cbn [negb].
    2:{ left. repeat match goal with
                     | |- context [if ?b then _ else _] => destruct b
                     end; reflexivity. }
    destruct (String.eqb (Js.trim (default "" body_role)) "admin").
    { right. split; [reflexivity|]. split; [exists x; auto|].
      exists 1. split; [left; reflexivity | reflexivity]. }
    destruct (String.eqb (Js.trim (default "" body_role)) "employee").
    { right. split; [reflexivity|]. split; [exists x; auto|].
      exists 3. split; [right; reflexivity | reflexivity]. }
    left. destruct (mem_string _ _); reflexivity. }
  split; [|exact H].
  intros r Hin H99.
  destruct H as [H | (_ & _ & z & Hz & Hs)]; [rewrite H in Hin; exact Hin|].
  rewrite Hs in Hin. apply In_sql_update in Hin as [Hin | (r0 & _ & _ & ->)]; [exact Hin|].
  cbn [set_user_type cms_user_type_id] in H99. lia.
Qed.

Section Directory.

Variable is_email : string -> bool.
Variable md5_hex : string -> string.
Variable directory_refuses : UserRow -> Table UserRow -> bool.

(** X17.  [POST /admin/users] adds at most one row to the directory, and
    only for an admin or super admin.  The row is active, has a non-empty
    user id and is an admin or an employee: the handler creates no super
    admin, although its schema admits the role.  A user created by an admin
    is in the admin's own department, whatever the body asks for. *)
Theorem post_admin_user_bounds (session_user : option HRMSUser) (f : UserForm)
  (directory : Table UserRow) :
  snd (post_admin_user is_email md5_hex directory_refuses session_user f directory) =
    directory \/
  exists (u : HRMSUser) (row : UserRow),
    session_user = Some u /\ (role u = admin \/ role u = super_admin) /\
    rows (snd (post_admin_user is_email md5_hex directory_refuses session_user f directory)) =
      rows directory ++ [row] /\
    (cms_user_type_id row = 1 \/ cms_user_type_id row = 3) /\
    cms_user_status row = 1 /\
    Js.string_truthy (cms_user_id_u row) = true /\
    (role u = admin ->
     exists z, cms_user_dep_id row = Some z /\ Js.Number (department u) = Js.Num z).
Proof.
  unfold post_admin_user, guarded, requireAuth, requireRole.
  destruct session_user as [u|]; [|left; reflexivity].
  assert (role u = admin \/ role u = super_admin \/
          (role u = employee /\ is_role super_admin u = false)) as Hrole.
  { unfold is_role. destruct (role u); auto. }
  destruct Hrole as [Er | [Er | [Er Es]]].
  - assert (is_role super_admin u = false) as Es by (unfold is_role; now rewrite Er).
    rewrite Es, Er.
    cbn [role_name mem_string existsb String.eqb Ascii.eqb Bool.eqb orb negb].
    unfold create_user. cbv zeta. rewrite Es.
    destruct (createUserSchema is_email f); [|left; reflexivity]. cbn [negb].
    destruct (Js.string_truthy (Js.trim _)) eqn:Et; [|left; reflexivity]. cbn [negb].
    destruct (uf_role f) as [r|]; [|left; reflexivity].
    destruct (Js.Number (department u)) as [|z] eqn:En.
    { destruct (String.eqb r "admin"); [left; reflexivity|].
      destruct (String.eqb r "employee"); left; reflexivity. }
    destruct (String.eqb r "admin"); [|destruct (String.eqb r "employee")];
      [| |left; reflexivity];
      (destruct (directory_refuses _ _); [left; reflexivity|]; right;
       eexists u, _; split; [reflexivity|]; split; [left; exact Er|];
       split; [reflexivity|];
       cbn [cms_user_type_id cms_user_status cms_user_id_u cms_user_dep_id];
       split; [auto|]; split; [reflexivity|]; split; [exact Et|];
       intros _; exists z; split; [reflexivity | exact En]).
  - assert (is_role super_admin u = true) as Es by (unfold is_role; now rewrite Er).
    rewrite Es. unfold create_user. cbv zeta. rewrite Es.
    destruct (createUserSchema is_email f); [|left; reflexivity]. cbn [negb].
    destruct (Js.string_truthy (Js.trim _)) eqn:Et; [|left; reflexivity]. cbn [negb].
    destruct (uf_role f) as [r|]; [|left; reflexivity].
    destruct (String.eqb r "admin"); [|destruct (String.eqb r "employee")];
      [| |left; reflexivity];
      (destruct (uf_departmentId f) as [dpt|];
       [destruct (Js.string_truthy dpt && Js.string_truthy (Js.trim dpt));
        [destruct (Js.Number dpt) as [|z]; [left; reflexivity|]|]|];
       (destruct (directory_refuses _ _); [left; reflexivity|]; right;
        eexists u, _; split; [reflexivity|]; split; [right; exact Er|];
        split; [reflexivity|];
        cbn [cms_user_type_id cms_user_status cms_user_id_u cms_user_dep_id];
        split; [auto|]; split; [reflexivity|]; split; [exact Et|];
        intros Ha; congruence)).
  - rewrite Es, Er. left. reflexivity.
Qed.

End Directory.

(** *** Attachments and new tickets read back *)

Lemma split_comma_plain (acc name : string) :
  Js.includes_char "," name = false -> split_comma acc name = [acc +:+ name].
Proof.
  revert acc. induction name as [|c r IH]; intros acc H.
  - cbn [split_comma]. f_equal. clear. induction acc as [|x a IHa]; [reflexivity|].
    rewrite append_cons. now rewrite <- IHa.
  - cbn [Js.includes_char] in H. apply orb_false_iff in H as [Hc Hr].
    cbn [split_comma]. rewrite Hc, (IH _ Hr), append_assoc. reflexivity.
Qed.

Lemma split_comma_snoc (acc l name : string) :
  Js.includes_char "," name = false ->
  split_comma acc (l +:+ "," +:+ name) = split_comma acc l ++ [name].
Proof.
  intros Hn. revert acc. induction l as [|c r IH]; intros acc.
  - change (EmptyString +:+ "," +:+ name) with (String "," name).
    cbn [split_comma Ascii.eqb Bool.eqb]. cbn [app]. f_equal.
    now rewrite (split_comma_plain EmptyString name Hn).
  - rewrite append_cons. cbn [split_comma].
    destruct (Ascii.eqb c ","); [cbn [app]; f_equal|]; apply IH.
Qed.

Lemma getTicketAttachments_append (name : string) (r : ComplaintRow) :
  plain_file_name name ->
  split_comma EmptyString name = [name] /\
  match append_file_location name (cms_file_location r) with
  | Some loc => if Js.string_truthy loc then split_comma EmptyString loc else []
  | None => []
  end = getTicketAttachments r ++ [name].
Proof.
  intros [Hne Hc]. pose proof (split_comma_plain EmptyString name Hc) as Hp.
  cbn [String.append] in Hp. split; [exact Hp|].
  apply string_truthy_iff in Hne.
  unfold append_file_location, getTicketAttachments.
  destruct (cms_file_location r) as [l|].
  - destruct (Js.string_truthy l) eqn:El.
    + assert (Js.string_truthy (l +:+ "," +:+ name) = true) as ->.
      { destruct l; [discriminate | reflexivity]. }
      now apply split_comma_snoc.
    + now rewrite Hne, Hp.
  - now rewrite Hne, Hp.
Qed.

(** X18.  A file name that is not empty and has no comma, attached to an
    existing ticket with [createTicketAttachment], is read back as the last
    attachment of that ticket, after the ones it had; nothing else of the
    ticket changes. *)
Theorem attachment_round_trip (id_ : Z) (name : string) (d : DB) (t : Ticket) :
  plain_file_name name ->
  getTicketById id_ d = Some t ->
  getTicketById id_ (createTicketAttachment id_ name d) =
  Some (with_attachments (attachments t ++ [name]) t).
Proof.
  intros Hn Ht. apply head_select_of_ticket in Ht as (r & Hr & ->).
  rewrite getTicketById_spec. unfold createTicketAttachment.
  change (complaints (set_complaints ?f d)) with (f (complaints d)).
  rewrite select_update_same by (intros x Hx; exact Hx).
  rewrite head_map, Hr. cbn [fmap option_fmap option_map]. f_equal.
  unfold with_attachments, ticket_of_row.
  cbn [cms_com_id cms_com_ticket_no cms_com_comp_id cms_sys_dep_id cms_sys_id
         cms_com_description cms_com_user_priority cms_com_status cms_user_id
         cms_sys_l1_id cms_created_at cms_file_location ticket_id ticket_number company_id
         department_id target_system_id subject description priority status created_by
         assigned_to created_at updated_at attachments].
  f_equal. unfold getTicketAttachments at 1. cbn [cms_file_location].
  apply (getTicketAttachments_append name r Hn).
Qed.

Lemma attachment_round_trip_witness :
  getTicketById 1 (createTicketAttachment 1 "scan.png" sample_db) =
  Some (with_attachments (attachments (ticket_of_row sample_row) ++ ["scan.png"])
          (ticket_of_row sample_row)).
Proof.
  apply (attachment_round_trip 1 "scan.png" sample_db (ticket_of_row sample_row)).
  - split; [discriminate | reflexivity].
  - reflexivity.
Defined.

Lemma select_key_fresh (t : Table ComplaintRow) (new : ComplaintRow) (i : Z) :
  keys_below_counter t ->
  sql_select (fun r => cms_com_id r =? i) (mkTable (rows t ++ [new]) (auto_increment t + 1)) =
  if cms_com_id new =? i
  then (if i <? auto_increment t then sql_select (fun r => cms_com_id r =? i) t else []) ++ [new]
  else sql_select (fun r => cms_com_id r =? i) t.
Proof.
  intros Hk. unfold sql_select. cbn [rows]. rewrite List.filter_app. cbn [List.filter].
  destruct (cms_com_id new =? i); [|now rewrite app_nil_r].
  f_equal. destruct (Z.ltb_spec i (auto_increment t)) as [|Hge]; [reflexivity|].
  unfold keys_below_counter in Hk. induction Hk as [|r l Hr Hl IH]; [reflexivity|].
  cbn [List.filter]. destruct (Z.eqb_spec (cms_com_id r) i); [lia | exact IH].
Qed.

(** X19.  On a ticket table whose keys are below its AUTO_INCREMENT
    counter, [createTicket] returns the row it inserted; the new ticket is
    read back under the old counter value as an open, unassigned ticket
    without attachments that carries the given number, department,
    description, priority and creator; every other ticket reads as before;
    and the keys of the table are again below its counter. *)
Theorem createTicket_round_trip (now_ : Z) (no : string) (v : NewTicket) (d : DB) :
  keys_below_counter (complaints d) ->
  let k := auto_increment (complaints d) in
  let d' := snd (createTicket now_ no v d) in
  fst (createTicket now_ no v d) = Some (created_row k now_ no v) /\
  getTicketById k d' = Some (ticket_of_row (created_row k now_ no v)) /\
  status (ticket_of_row (created_row k now_ no v)) = "open" /\
  assigned_to (ticket_of_row (created_row k now_ no v)) = None /\
  attachments (ticket_of_row (created_row k now_ no v)) = [] /\
  (forall i, i <> k -> getTicketById i d' = getTicketById i d) /\
  keys_below_counter (complaints d').
Proof.
  intros Hk k d'. subst k d'. unfold createTicket. cbn [sql_insert fst snd].
  change (complaints (set_complaints ?f d)) with (f (complaints d)). cbv beta.
  fold (created_row (auto_increment (complaints d)) now_ no v).
  split; [|split; [|split; [|split; [|split; [|split]]]]]; try reflexivity.
  - rewrite (select_key_fresh _ _ _ Hk). cbn [created_row cms_com_id].
    rewrite Z.eqb_refl, Z.ltb_irrefl. reflexivity.
  - rewrite getTicketById_spec.
    change (complaints (set_complaints ?f d)) with (f (complaints d)). cbv beta.
    rewrite (select_key_fresh _ _ _ Hk). cbn [created_row cms_com_id].
    rewrite Z.eqb_refl, Z.ltb_irrefl. reflexivity.
  - intros i Hi. rewrite !getTicketById_spec.
    change (complaints (set_complaints ?f d)) with (f (complaints d)). cbv beta.
    rewrite (select_key_fresh _ _ _ Hk). cbn [created_row cms_com_id].
    destruct (Z.eqb_spec (auto_increment (complaints d)) i); [congruence | reflexivity].
  - change (complaints (set_complaints ?f d)) with (f (complaints d)). cbv beta.
    unfold keys_below_counter in *. cbn [rows auto_increment].
    apply List.Forall_app. split.
    + eapply List.Forall_impl; [|exact Hk]. intros r Hr. simpl in Hr. lia.
    + constructor; [|constructor]. cbn [created_row cms_com_id]. lia.
Qed.

Lemma createTicket_round_trip_witness :
  fst (createTicket 7 "TKT-9" (mkNewTicket 1 2 1 "s" "d" "low" "e2") sample_db) =
    Some (created_row 4 7 "TKT-9" (mkNewTicket 1 2 1 "s" "d" "low" "e2")) /\
  getTicketById 1 (snd (createTicket 7 "TKT-9" (mkNewTicket 1 2 1 "s" "d" "low" "e2") sample_db))
    = getTicketById 1 sample_db.
Proof.
  assert (keys_below_counter (complaints sample_db)) as Hk.
  { unfold keys_below_counter. cbn. repeat constructor. }
  pose proof (createTicket_round_trip 7 "TKT-9" (mkNewTicket 1 2 1 "s" "d" "low" "e2")
                sample_db Hk) as H.
  cbv zeta in H. destruct H as (H1 & _ & _ & _ & _ & H6 & _).
  split; [exact H1 | apply H6; discriminate].
Defined.

(** *** Posting and reading back *)

Lemma createTicketMessage_sender (at_ : Z) (id_ : Z) (sender message : string) (d : DB)
  (row : ComplaintRow) :
  head (sql_select (fun r => cms_com_id r =? id_) (complaints d)) = Some row ->
  Js.string_truthy (cms_com_ticket_no row) = true ->
  exists k u d',
    createTicketMessage at_ id_ sender message d =
      (Ok (mkTicketMessage k id_ sender message at_), d') /\
    In (mkResolve k (cms_com_ticket_no row) message (user_pk u) (Some at_) 1)
      (rows (resolves d')) /\
    In u (rows (users d')) /\
    complaints d' = complaints d.
Proof.
  intros Hrow Hno. unfold createTicketMessage. rewrite Hrow, Hno. cbn [negb].
  set (users1 := if existsb _ _ then _ else _).
  assert (exists u r, sql_select (fun u => String.eqb (cms_user_id_u u) sender) users1 = u :: r)
    as (u & r & Hu).
  { subst users1. unfold sql_select.
    destruct (existsb _ (rows (users d))) eqn:E.
    - now apply filter_nonempty_of_existsb.
    - cbn [sql_insert snd rows]. apply filter_nonempty_snoc. cbn. apply String.eqb_refl. }
  rewrite Hu. cbn [sql_insert].
  exists (auto_increment (resolves d)), u. eexists. split; [reflexivity|].
  cbn [resolves set_resolves set_users users complaints rows].
  split; [apply in_or_app; right; left; reflexivity|]. split; [|reflexivity].
  assert (In u (sql_select (fun u => String.eqb (cms_user_id_u u) sender) users1)) as Hin
    by (rewrite Hu; left; reflexivity).
  unfold sql_select in Hin. now apply filter_In in Hin.
Qed.

Lemma createTicketMessage_unnumbered (at_ : Z) (id_ : Z) (sender message : string) (d : DB)
  (row : ComplaintRow) :
  head (sql_select (fun r => cms_com_id r =? id_) (complaints d)) = Some row ->
  Js.string_truthy (cms_com_ticket_no row) = false ->
  createTicketMessage at_ id_ sender message d = (Throw "Ticket not found", d).
Proof. intros Hrow Hno. unfold createTicketMessage. now rewrite Hrow, Hno. Qed.

Lemma getTicketMessages_In (id_ : Z) (d : DB) (row : ComplaintRow) (r : ResolveRow)
  (u : UserRow) :
  head (sql_select (fun r => cms_com_id r =? id_) (complaints d)) = Some row ->
  Js.string_truthy (cms_com_ticket_no row) = true ->
  In r (rows (resolves d)) -> cms_resolove_ticket_no r = cms_com_ticket_no row ->
  In u (rows (users d)) -> user_pk u = cms_resolve_user_id r ->
  exists cm,
    In cm (getTicketMessages id_ d) /\ chat_id cm = cms_resolve_id r /\
    chat_ticket_id cm = id_ /\ chat_message cm = cms_resolve_desc r /\
    chat_created_at cm = cms_resolve_created_at r.
Proof.
  intros Hrow Hno Hr Hrn Hu Hpk. unfold getTicketMessages. rewrite Hrow, Hno. cbn [negb].
  assert (In u (sql_select (fun u => user_pk u =? cms_resolve_user_id r) (users d))) as Hus.
  { unfold sql_select. apply filter_In. split; [exact Hu|]. now apply Z.eqb_eq. }
  destruct (sql_select (fun u => user_pk u =? cms_resolve_user_id r) (users d))
    as [|u0 us] eqn:Eus; [contradiction|].
  exists (mkChatMessage (cms_resolve_id r) id_ (Some (cms_user_id_u u0)) (cms_resolve_desc r)
            (cms_resolve_created_at r) (Some (cms_user_firstname u0))
            (Some (cms_user_lastname u0)) (cms_user_email u0)).
  split; [|repeat split].
  apply in_flat_map. exists r. split.
  - apply order_by_In. unfold sql_select. apply filter_In. split; [exact Hr|].
    rewrite Hrn. apply String.eqb_refl.
  - rewrite Eus. left. reflexivity.
Qed.

Section Chat.

Variable xss : string -> string.
Variable encryptMessage : string -> string.
Variable JSON_stringify : Json.t -> string.
Variable env : Env.

(** X20.  A message that [POST /tickets/:id/messages] accepted (201) is in
    what [GET /tickets/:id/messages] answers afterwards, sanitised, under
    the id the post answered with, and to every requester: reading the chat
    of a ticket asks for no role, department or part in the ticket. *)
Theorem chat_post_then_read (w : World) (u reader : HRMSUser) (id_ : Z) (m : string) :
  code (fst (post_ticket_message xss encryptMessage JSON_stringify env w u id_ (Some m)))
    = 201 ->
  exists cm,
    chat_message cm = Html.sanitizeInput xss m /\
    chat_created_at cm = Some (now env) /\
    property "id"
      (body (fst (post_ticket_message xss encryptMessage JSON_stringify env w u id_ (Some m))))
      = Some (Json.Number (chat_id cm)) /\
    exists l,
      get_ticket_messages
        (snd (post_ticket_message xss encryptMessage JSON_stringify env w u id_ (Some m)))
        reader (Js.Num id_) =
      (mkResponse 200 (Json.Arr l),
       snd (post_ticket_message xss encryptMessage JSON_stringify env w u id_ (Some m))) /\
      In (json_chat_message cm) l.
Proof.
  unfold post_ticket_message.
  destruct (messageSchema (Some m)) as [raw|] eqn:Em; [|discriminate].
  assert (raw = m) as ->.
  { unfold messageSchema in Em. destruct (Js.string_truthy m); congruence. }
  destruct (getTicketById id_ (db w)) as [t|] eqn:Et; [|discriminate].
  destruct (allowed u t); cbn [negb]; [|discriminate].
  destruct (head_select_of_ticket _ _ _ Et) as (row & Hrow & ->).
  destruct (Js.string_truthy (cms_com_ticket_no row)) eqn:Hno.
  2:{ rewrite (createTicketMessage_unnumbered _ _ _ _ _ _ Hrow Hno). discriminate. }
  destruct (createTicketMessage_sender (now env) id_ (employee_id u)
              (Html.sanitizeInput xss m) (db w) row Hrow Hno)
    as (k & su & d' & -> & Hres & Hu & Hc).
  intros _. cbn [fst snd body].
  assert (head (sql_select (fun r => cms_com_id r =? id_) (complaints d')) = Some row) as Hrow'
    by (now rewrite Hc).
  destruct (getTicketMessages_In id_ d' row _ su Hrow' Hno Hres eq_refl Hu eq_refl)
    as (cm & Hin & Hid & _ & Hm & Hat).
  cbn [cms_resolve_id cms_resolve_desc cms_resolve_created_at] in Hid, Hm, Hat.
  exists cm. split; [exact Hm|]. split; [exact Hat|].
  split; [cbn; now rewrite Hid|].
  unfold get_ticket_messages. cbn [db with_hub with_db].
  eexists. split; [reflexivity|]. now apply in_map.
Qed.

(** X21.  For a sender id and a trimmed text that fit their columns: a
    message that [POST /messages/conversations/:id] accepted (201) is in
    what [GET /messages/conversations/:id] answers afterwards, trimmed and
    under the sender's employee id, and to every requester; and whether the
    post is accepted does not depend on who posts, as long as the id fits:
    neither handler asks whether the requester is a member of the
    conversation. *)
Theorem conversation_post_then_read (w : World) (u reader other : HRMSUser) (convId : Z)
  (body_message : option string) :
  fits_varchar 255 (employee_id u) ->
  fits_text (Js.trim (default "" body_message)) ->
  code (fst (post_conversation_message env w u convId body_message)) = 201 ->
  (fits_varchar 255 (employee_id other) ->
   code (fst (post_conversation_message env w other convId body_message)) = 201) /\
  exists msg l,
    sender_id_c msg = employee_id u /\
    message_c msg = Js.trim (default "" body_message) /\
    conversation_id msg = convId /\
    get_conversation_messages (snd (post_conversation_message env w u convId body_message))
      reader convId =
    (mkResponse 200 (Json.Arr l),
     snd (post_conversation_message env w u convId body_message)) /\
    In (json_conversation_message msg) l.
Proof.
  intros _ _. unfold post_conversation_message.
  destruct (Js.string_truthy (Js.trim (default "" body_message))); cbn [negb];
    [|discriminate].
  unfold addConversationMessage.
  destruct (existsb _ (rows (conversations (db w)))); [|discriminate].
  cbn [sql_insert fst snd code]. intros _. split; [reflexivity|].
  exists (mkConversationMessage (auto_increment (conversation_messages (db w))) convId
            (employee_id u) (Js.trim (default "" body_message)) (Some (now env))).
  eexists. split; [reflexivity|]. split; [reflexivity|]. split; [reflexivity|].
  unfold get_conversation_messages. split; [reflexivity|].
  apply in_map. unfold getConversationMessages. apply order_by_In.
  cbn [db with_db conversation_messages set_conversation_messages].
  unfold sql_select. cbn [rows]. apply filter_In. split.
  - apply in_or_app. right. left. reflexivity.
  - cbn [conversation_id]. apply Z.eqb_refl.
Qed.

(** X22.  Once [POST /tickets/:id/accept] has succeeded for a requester
    with a non-empty employee id, the ticket is taken: every further accept,
    by anyone, answers 409 and changes nothing, and every status change
    asked for by an employee other than the one who accepted changes
    nothing either and is not answered 200. *)
Theorem accept_is_exclusive (w : World) (u : HRMSUser) (id_ : Z) :
  code (fst (post_ticket_accept encryptMessage JSON_stringify env w u id_)) = 200 ->
  employee_id u <> EmptyString ->
  let w' := snd (post_ticket_accept encryptMessage JSON_stringify env w u id_) in
  stored_assignee id_ (db w') = Some (Some (employee_id u)) /\
  (forall u',
     post_ticket_accept encryptMessage JSON_stringify env w' u' id_ =
     (error 409 "Ticket already accepted", w')) /\
  (forall u' s,
     role u' = employee -> employee_id u' <> employee_id u ->
     snd (patch_ticket_status encryptMessage JSON_stringify env w' u' id_ s) = w' /\
     code (fst (patch_ticket_status encryptMessage JSON_stringify env w' u' id_ s)) <> 200).
Proof.
  intros H200 Hne w'.
  assert (exists row f,
            head (sql_select (fun r => cms_com_id r =? id_) (complaints (db w))) = Some row /\
            w' = with_hub f (with_db (snd (assignTicket id_ (employee_id u) (db w))) w))
    as (row & f & Hrow & Hw).
  { subst w'. revert H200. unfold post_ticket_accept.
    destruct (getTicketById id_ (db w)) as [t|] eqn:Et; [|discriminate].
    destruct (Js.opt_string_truthy (assigned_to t)); [discriminate|].
    rewrite (surjective_pairing (assignTicket id_ (employee_id u) (db w))).
    destruct (head_select_of_ticket _ _ _ Et) as (row & Hrow & ->).
    destruct (fst (assignTicket id_ (employee_id u) (db w))); [|discriminate].
    intros _. cbn [snd]. eexists row, _. split; [exact Hrow | reflexivity]. }
  clearbody w'. subst w'.
  set (d' := snd (assignTicket id_ (employee_id u) (db w))).
  assert (head (sql_select (fun r => cms_com_id r =? id_) (complaints d')) =
          Some (assigned_row (employee_id u) row)) as Hrow'.
  { subst d'. now rewrite assignTicket_select, head_map, Hrow. }
  assert (getTicketById id_ d' = Some (ticket_of_row (assigned_row (employee_id u) row)))
    as Et'.
  { now rewrite getTicketById_spec, Hrow'. }
  cbn [snd db with_hub with_db].
  apply string_truthy_iff in Hne.
  split; [|split].
  - unfold stored_assignee. now rewrite Hrow'.
  - intros u'. unfold post_ticket_accept. cbn [db with_hub with_db]. rewrite Et'.
    cbn [ticket_of_row assigned_row assigned_to cms_sys_l1_id Js.opt_string_truthy].
    now rewrite Hne.
  - intros u' s Hr Hu'. unfold patch_ticket_status. cbn [db with_hub with_db].
    destruct (updateStatusSchema s); [|split; [reflexivity | discriminate]].
    rewrite Et'.
    assert (canUpdate u' (ticket_of_row (assigned_row (employee_id u) row)) = false) as ->.
    { unfold canUpdate, is_role, unassigned. rewrite Hr.
      cbn [ticket_of_row assigned_row assigned_to cms_sys_l1_id Js.opt_string_truthy
             Js.string_eq_opt orb].
      rewrite Hne. cbn [negb]. rewrite orb_false_r.
      replace (String.eqb (employee_id u') (employee_id u)) with false
        by (symmetry; now apply String.eqb_neq).
      now rewrite andb_false_r. }
    cbn [negb]. split; [reflexivity | discriminate].
Qed.

End Chat.

(** *** Meetings *)

Lemma appended_trans {A} (P : A -> Prop) (l1 l2 l3 : list A) :
  appended P l1 l2 -> appended P l2 l3 -> appended P l1 l3.
Proof.
  intros (n1 & -> & H1) (n2 & -> & H2). exists (n1 ++ n2). split.
  - now rewrite app_assoc.
  - apply List.Forall_app. now split.
Qed.

Lemma attendees_appended (id_ : Z) (emails : list string) (t : Table AttendeeRow)
  (P : string -> Prop) :
  List.Forall P emails ->
  appended (fun a => P (attendee_email a)) (rows t)
    (rows (List.fold_left (fun a e => snd (sql_insert (fun k => mkAttendee k id_ e) a))
             emails t)).
Proof.
  intros H. revert t. induction H as [|e l He Hl IH]; intros t; cbn [List.fold_left].
  - apply appended_nil.
  - eapply appended_trans; [|apply IH]. cbn [sql_insert snd rows].
    now apply appended_one.
Qed.

Lemma stored_all_appended (stored_as : ColumnType -> string -> option string)
  (P : string -> Prop) (emails stored : list string) :
  List.Forall P emails -> stored_all stored_as (VARCHAR 255) emails = Some stored ->
  List.Forall (fun s => exists e, P e /\ stored_as (VARCHAR 255) e = Some s) stored.
Proof.
  intros H. revert stored. induction H as [|e l He Hl IH]; intros stored; cbn [stored_all].
  - intros [= <-]. constructor.
  - destruct (stored_as (VARCHAR 255) e) as [e'|] eqn:Ee; [|discriminate].
    destruct (stored_all stored_as (VARCHAR 255) l) as [r'|]; [|discriminate].
    intros [= <-]. constructor; [now exists e | now apply IH].
Qed.

Lemma stored_meeting_row (stored_as : ColumnType -> string -> option string) (now_ : Z)
  (data : NewMeeting) (row : Z -> MeetingRow) :
  stored_meeting stored_as now_ data = Some row ->
  forall k,
    meeting_id (row k) = k /\
    stored_as (VARCHAR 255) (nm_title data) = Some (title (row k)) /\
    stored_as DATE (nm_date data) = Some (date (row k)) /\
    stored_as (VARCHAR 20) (nm_time data) = Some (time (row k)) /\
    stored_as (VARCHAR 255) (nm_created_by data) = Some (created_by_m (row k)) /\
    (or_null_string (nm_meeting_link data) = None -> meeting_link (row k) = None) /\
    (or_null_string (nm_location data) = None -> location (row k) = None).
Proof.
  unfold stored_meeting, stored_nullable.
  destruct (stored_as (VARCHAR 255) (nm_title data)) as [t|]; [|discriminate].
  destruct (stored_as DATE (nm_date data)) as [dt|]; [|discriminate].
  destruct (stored_as (VARCHAR 20) (nm_time data)) as [tm|]; [|discriminate].
  cbn [mbind option_bind].
  destruct (or_null_string (nm_meeting_link data)) as [l|].
  - destruct (stored_as (VARCHAR 255) l) as [l'|]; [|discriminate]. cbn.
    destruct (or_null_string (nm_location data)) as [o|].
    + destruct (stored_as (VARCHAR 255) o) as [o'|]; [|discriminate]. cbn.
      destruct (match or_null_string (nm_description data) with
                | Some s => Some <$> stored_as TEXT s
                | None => Some None
                end) as [ds|]; [|discriminate]. cbn.
      destruct (stored_as (VARCHAR 255) (nm_created_by data)) as [b|]; [|discriminate].
      cbn. intros [= <-] k. cbn. repeat split; discriminate.
    + cbn.
      destruct (match or_null_string (nm_description data) with
                | Some s => Some <$> stored_as TEXT s
                | None => Some None
                end) as [ds|]; [|discriminate]. cbn.
      destruct (stored_as (VARCHAR 255) (nm_created_by data)) as [b|]; [|discriminate].
      cbn. intros [= <-] k. cbn. repeat split; discriminate.
  - cbn.
    destruct (or_null_string (nm_location data)) as [o|].
    + destruct (stored_as (VARCHAR 255) o) as [o'|]; [|discriminate]. cbn.
      destruct (match or_null_string (nm_description data) with
                | Some s => Some <$> stored_as TEXT s
                | None => Some None
                end) as [ds|]; [|discriminate]. cbn.
      destruct (stored_as (VARCHAR 255) (nm_created_by data)) as [b|]; [|discriminate].
      cbn. intros [= <-] k. cbn. repeat split; discriminate.
    + cbn.
      destruct (match or_null_string (nm_description data) with
                | Some s => Some <$> stored_as TEXT s
                | None => Some None
                end) as [ds|]; [|discriminate]. cbn.
      destruct (stored_as (VARCHAR 255) (nm_created_by data)) as [b|]; [|discriminate].
      cbn. intros [= <-] k. cbn. repeat split; discriminate.
Qed.

(** The three ways [createMeeting] ends: the meeting is refused and nothing
    is written; the meeting is stored and the attendees are refused; both
    are stored. *)
Lemma createMeeting_cases (stored_as : ColumnType -> string -> option string) (now_ : Z)
  (data : NewMeeting) (d : DB) :
  (stored_meeting stored_as now_ data = None /\
   exists msg, createMeeting stored_as now_ data d = (Throw msg, d)) \/
  exists row,
    stored_meeting stored_as now_ data = Some row /\
    ((stored_all stored_as (VARCHAR 255) (nm_attendees data) = None /\
      exists msg,
        createMeeting stored_as now_ data d =
        (Throw msg,
         set_meetings
           (fun t => mkTable (rows t ++ [row (auto_increment t)]) (auto_increment t + 1)) d)) \/
     exists emails,
       stored_all stored_as (VARCHAR 255) (nm_attendees data) = Some emails /\
       createMeeting stored_as now_ data d =
       (Ok (auto_increment (meetings d)),
        set_attendees
          (fun a =>
             List.fold_left
               (fun a e =>
                  snd (sql_insert (fun k => mkAttendee k (auto_increment (meetings d)) e) a))
               emails a)
          (set_meetings
             (fun t => mkTable (rows t ++ [row (auto_increment t)]) (auto_increment t + 1))
             d))).
Proof.
  unfold createMeeting.
  destruct (stored_meeting stored_as now_ data) as [row|]; [|left; eauto].
  right. exists row. split; [reflexivity|]. cbn [sql_insert].
  destruct (nm_attendees data) as [|e l] eqn:Ea.
  - right. exists []. split; reflexivity.
  - rewrite <- Ea. destruct (stored_all stored_as (VARCHAR 255) (nm_attendees data)).
    + right. eauto.
    + left. eauto.
Qed.

Section MeetingHandler.

Variable env : Env.
Variable stored_as : ColumnType -> string -> option string.


End MeetingHandler.

(** *** The client's reconnect schedule *)

Lemma closes_from (n : nat) (a : Z) :
  0 <= a ->
  List.length (fst (Client.closes n a)) = Nat.min n (Z.to_nat (10 - a)) /\
  snd (Client.closes n a) = a + Z.of_nat (List.length (fst (Client.closes n a))) /\
  (forall i d,
     nth_error (fst (Client.closes n a)) i = Some d ->
     d = Z.min (1000 * 2 ^ (a + Z.of_nat i)) 30000).
Proof.
  revert a. induction n as [|n IH]; intros a Ha; cbn [Client.closes].
  - cbn [fst snd List.length]. split; [lia|]. split; [lia|].
    intros [|i] d H; discriminate H.
  - unfold Client.onclose, Client.MAX_RECONNECT_ATTEMPTS, Client.BASE_RECONNECT_DELAY,
      Client.MAX_RECONNECT_DELAY.
    destruct (Z.ltb_spec a 10) as [Hlt|Hge].
    + destruct (IH (a + 1) ltac:(lia)) as (H1 & H2 & H3).
      destruct (Client.closes n (a + 1)) as [ds a'].
      cbn [fst snd List.length] in *. split; [lia|]. split; [lia|].
      intros [|i] d H; cbn [nth_error] in H.
      * injection H as <-. now replace (a + Z.of_nat 0) with a by lia.
      * apply H3 in H. subst d. f_equal. f_equal. f_equal. lia.
    + destruct (IH a Ha) as (H1 & H2 & H3).
      split; [lia|]. split; [exact H2 | exact H3].
Qed.

(** X24.  Counting from a connection that opened, the hook schedules a
    reconnect after each of the first ten closes in a row and after none of
    the later ones; the [i]-th of them (from 0) waits
    [min (1000 * 2^i) 30000] milliseconds, so between one and thirty
    seconds; and the attempt counter never passes ten. *)
Theorem reconnect_schedule (n : nat) :
  List.length (fst (Client.closes n 0)) = Nat.min n 10 /\
  snd (Client.closes n 0) = Z.of_nat (Nat.min n 10) /\
  (forall i d,
     nth_error (fst (Client.closes n 0)) i = Some d ->
     d = Z.min (1000 * 2 ^ Z.of_nat i) 30000 /\ 1000 <= d <= 30000).
Proof.
  destruct (closes_from n 0 ltac:(lia)) as (H1 & H2 & H3).
  change (Z.to_nat (10 - 0)) with 10%nat in H1.
  split; [exact H1|]. split; [lia|].
  intros i d H. apply H3 in H. cbn [Z.add] in H. split; [exact H|].
  subst d. assert (0 < 2 ^ Z.of_nat i) by (apply Z.pow_pos_nonneg; lia). lia.
Qed.

(** *** What [POST /tickets] prepares *)

Lemma filter_fresh_key {A} (key : A -> Z) (k : Z) (l : list A) :
  List.Forall (fun r => key r < k) l -> List.filter (fun r => key r =? k) l = [].
Proof.
  induction 1 as [|r l Hr Hl IH]; [reflexivity|]. cbn [List.filter].
  destruct (Z.eqb_spec (key r) k); [lia | exact IH].
Qed.

Lemma leb_trans (a b c : string) :
  String.leb a b = true -> String.leb b c = true -> String.leb a c = true.
Proof.
  unfold String.leb. revert b c.
  induction a as [|x a IH]; intros [|y b] [|z c]; cbn [String.compare]; try congruence.
  specialize (IH b c). unfold Ascii.compare.
  destruct (N.compare_spec (N_of_ascii x) (N_of_ascii y)) as [E1|E1|E1],
    (N.compare_spec (N_of_ascii y) (N_of_ascii z)) as [E2|E2|E2],
    (N.compare_spec (N_of_ascii x) (N_of_ascii z)) as [E3|E3|E3];
    try congruence; try lia; auto.
Qed.

Lemma leb_total_preorder : total_preorder String.leb.
Proof. split; [exact String.leb_total | exact leb_trans]. Qed.

(** What [ORDER BY] puts first is a row of the list that no row comes
    before. *)
Lemma order_by_head {A} (le : A -> A -> bool) (l : list A) :
  (forall a b, le a b = true \/ le b a = true) ->
  (forall a b c, le a b = true -> le b c = true -> le a c = true) ->
  match order_by le l with
  | [] => l = []
  | m :: _ => In m l /\ forall y, In y l -> le m y = true
  end.
Proof.
  intros Htot Htr. unfold order_by.
  induction l as [|a l IH]; cbn [List.fold_right]; [reflexivity|].
  assert (le a a = true) as Hrefl by (destruct (Htot a a); assumption).
  destruct (List.fold_right (insert_by le) [] l) as [|m rest]; cbn [insert_by].
  - subst l. split; [now left|]. intros y [<-|[]]. exact Hrefl.
  - destruct IH as [Hm Hmin]. destruct (le a m) eqn:E.
    + split; [now left|]. intros y [<-|Hy]; [exact Hrefl|].
      exact (Htr _ _ _ E (Hmin y Hy)).
    + split; [now right|]. intros y [<-|Hy]; [|exact (Hmin y Hy)].
      destruct (Htot a m) as [H|H]; [congruence | exact H].
Qed.

Section Preparation.

Variable env : Env.
Variable sys_name_le : string -> string -> bool.

(** X25.  Which target system [POST /tickets] settles on, on a
    target-system table whose keys are below its counter and under a
    collation that orders the names.  When the department has the requested
    system, it is the requested one, and nothing is written.  Otherwise,
    when the department has systems, it is one of them that no other comes
    before by name, and nothing is written; when it has none, it is a system
    'General' that is created for the department under the next key, with
    the department's company.  And so the system settled on is always a
    system of the ticket's department. *)
Theorem resolve_target_system_in_department (dep : Z) (requested : Js.number) (d : DB) :
  system_keys_below_counter (systems d) ->
  total_preorder sys_name_le ->
  (offered dep requested d ->
   resolve_target_system env sys_name_le dep requested d = (requested, d)) /\
  (~ offered dep requested d ->
   (exists s0,
      In s0 (rows (systems d)) /\ cms_dep_id_s s0 = dep /\
      (forall x, In x (rows (systems d)) -> cms_dep_id_s x = dep ->
                 sys_name_le (cms_sys_name s0) (cms_sys_name x) = true) /\
      resolve_target_system env sys_name_le dep requested d =
      (Js.Num (cms_sys_id_s s0), d)) \/
   ((forall x, In x (rows (systems d)) -> cms_dep_id_s x <> dep) /\
    resolve_target_system env sys_name_le dep requested d =
    (Js.Num (auto_increment (systems d)),
     set_systems
       (fun t =>
          mkTable
            (rows t ++
             [mkSystem (auto_increment t) "General" dep
                (or_null (head (sql_select (fun r => cms_dep_id_d r =? dep) (departments d))
                            ≫= cms_dep_com_id))
                (Some (now env)) 1])
            (auto_increment t + 1))
       d))) /\
  (forall s,
     fst (resolve_target_system env sys_name_le dep requested d) = Js.Num s ->
     exists row,
       In row (rows (systems (snd (resolve_target_system env sys_name_le dep requested d)))) /\
       cms_sys_id_s row = s /\ cms_dep_id_s row = dep).
Proof.
  intros Hk [Htot Htr].
  assert (forall x, In x (sql_select (fun r => cms_dep_id_s r =? dep) (systems d)) <->
                    In x (rows (systems d)) /\ cms_dep_id_s x = dep) as Hsel.
  { intros x. unfold sql_select. rewrite filter_In. now rewrite Z.eqb_eq. }
  pose proof (order_by_head
                (fun a b => sys_name_le (cms_sys_name a) (cms_sys_name b))
                (sql_select (fun r => cms_dep_id_s r =? dep) (systems d))
                (fun a b => Htot _ _) (fun a b c => Htr _ _ _)) as Hhead.
  fold (getTargetSystemsByDepartment sys_name_le dep d) in Hhead.
  assert (forall x, In x (getTargetSystemsByDepartment sys_name_le dep d) <->
                    In x (rows (systems d)) /\ cms_dep_id_s x = dep) as Hin.
  { intros x. unfold getTargetSystemsByDepartment. rewrite order_by_In. apply Hsel. }
  remember (negb (Js.number_truthy requested) ||
            negb (existsb (fun s0 => Js.number_eq (Js.Num (cms_sys_id_s s0)) requested)
                    (getTargetSystemsByDepartment sys_name_le dep d))) as b eqn:Eb.
  assert (b = false <-> offered dep requested d) as Hoff.
  { subst b. rewrite orb_false_iff, !negb_false_iff, existsb_exists. split.
    - intros [Ht (x & Hx & He)]. apply Hin in Hx as [H1 H2].
      destruct requested as [|r]; [discriminate|]. cbn [Js.number_eq] in He.
      apply Z.eqb_eq in He. subst r. exists x. repeat split; try assumption.
      cbn [Js.number_truthy] in Ht. apply negb_true_iff in Ht.
      now apply Z.eqb_neq in Ht.
    - intros (x & H1 & H2 & H3 & ->). split.
      + cbn [Js.number_truthy]. apply negb_true_iff. now apply Z.eqb_neq.
      + exists x. split; [apply Hin; now split|]. cbn [Js.number_eq]. apply Z.eqb_refl. }
  assert (resolve_target_system env sys_name_le dep requested d =
          if b then
            match getTargetSystemsByDepartment sys_name_le dep d with
            | [] =>
                (Js.Num (auto_increment (systems d)),
                 set_systems
                   (fun t =>
                      mkTable
                        (rows t ++
                         [mkSystem (auto_increment t) "General" dep
                            (or_null
                               (head (sql_select (fun r => cms_dep_id_d r =? dep)
                                        (departments d))
                                  ≫= cms_dep_com_id))
                            (Some (now env)) 1])
                        (auto_increment t + 1))
                   d)
            | s0 :: _ => (Js.Num (cms_sys_id_s s0), d)
            end
          else (requested, d)) as ->.
  { unfold resolve_target_system. cbv zeta. rewrite <- Eb. destruct b; [|reflexivity].
    destruct (getTargetSystemsByDepartment sys_name_le dep d); [|reflexivity].
    unfold createTargetSystem. cbn [sql_insert fst snd].
    set (new := mkSystem (auto_increment (systems d)) "General" dep _ (Some (now env)) 1).
    assert (sql_select (fun r => cms_sys_id_s r =? auto_increment (systems d))
              (mkTable (rows (systems d) ++ [new]) (auto_increment (systems d) + 1)) =
            [new]) as ->.
    { unfold sql_select. cbn [rows]. rewrite List.filter_app.
      cbn [List.filter new cms_sys_id_s]. rewrite Z.eqb_refl.
      now rewrite (filter_fresh_key cms_sys_id_s _ _ Hk). }
    reflexivity. }
  clear Eb. split; [|split].
  - intros Ho. apply Hoff in Ho. subst b. reflexivity.
  - intros Ho. destruct b; [|exfalso; apply Ho; now apply Hoff].
    destruct (getTargetSystemsByDepartment sys_name_le dep d) as [|s0 rest].
    + right. split; [|reflexivity].
      intros x Hx Hd. assert (In x []) as []. rewrite <- Hhead. apply Hsel. now split.
    + left. exists s0. destruct Hhead as [Hm Hmin]. apply Hsel in Hm as [H1 H2].
      split; [exact H1|]. split; [exact H2|]. split; [|reflexivity].
      intros x Hx Hd. apply Hmin. apply Hsel. now split.
  - intros s. destruct b.
    + destruct (getTargetSystemsByDepartment sys_name_le dep d) as [|s0 rest].
      * cbn [fst snd]. intros [= <-]. eexists. split.
        -- cbn [systems set_systems rows]. apply in_or_app. right. left. reflexivity.
        -- split; reflexivity.
      * cbn [fst snd]. intros [= <-]. exists s0. destruct Hhead as [Hm _].
        apply Hsel in Hm as [H1 H2]. auto.
    + destruct Hoff as [Hoff _]. destruct (Hoff eq_refl) as (x & H1 & H2 & H3 & ->).
      cbn [fst snd]. intros [= <-]. exists x. auto.
Qed.

End Preparation.

(** X25 at work, with names in byte order: department 2 has Payroll (1) and
    Email (2), department 5 has VPN (3).  A ticket of department 2 that
    asks for system 1 gets it; one that asks for system 3 gets Email, the
    first by name of its own department. *)
Lemma resolve_target_system_in_department_witness :
  resolve_target_system sample_env String.leb 2 (Js.Num 1) systems_db =
  (Js.Num 1, systems_db) /\
  resolve_target_system sample_env String.leb 2 (Js.Num 3) systems_db =
  (Js.Num 2, systems_db).
Proof.
  assert (system_keys_below_counter (systems systems_db)) as Hk by (repeat constructor).
  split.
  - apply (proj1 (resolve_target_system_in_department sample_env String.leb 2 (Js.Num 1)
                    systems_db Hk leb_total_preorder)).
    exists (mkSystem 1 "Payroll" 2 None None 1).
    split; [now left|]. split; [reflexivity|]. split; [discriminate | reflexivity].
  - destruct (proj1 (proj2 (resolve_target_system_in_department sample_env String.leb 2
                              (Js.Num 3) systems_db Hk leb_total_preorder)))
      as [(s0 & Hin & Hd & Hmin & ->) | [Hnone _]].
    + intros (x & Hx & Hd & _ & Hr).
      destruct Hx as [<-|[<-|[<-|[]]]]; cbn in Hd, Hr; discriminate.
    + destruct Hin as [<-|[<-|[<-|[]]]].
      * specialize (Hmin (mkSystem 2 "Email" 2 None None 1) (or_intror (or_introl eq_refl))
                      eq_refl).
        discriminate Hmin.
      * reflexivity.
      * discriminate Hd.
    + exfalso. apply (Hnone (mkSystem 1 "Payroll" 2 None None 1)); [now left | reflexivity].
Defined.

(** X26.  [POST /tickets] registers its creator at most once: after the
    creator has been ensured the user table has a row for the employee id,
    ensuring the same creator again changes nothing, and the rows that were
    there are untouched, the row added (if any) being an employee row for
    that id. *)
Theorem ensure_creator_once (u : HRMSUser) (dep dep' : Z) (d : DB) :
  registered (employee_id u) (ensure_creator u dep d) = true /\
  ensure_creator u dep' (ensure_creator u dep d) = ensure_creator u dep d /\
  appended (fun r => cms_user_id_u r = employee_id u /\ cms_user_type_id r = 3)
    (rows (users d)) (rows (users (ensure_creator u dep d))).
Proof.
  assert (registered (employee_id u) (ensure_creator u dep d) = true) as Hr.
  { unfold registered, ensure_creator.
    destruct (existsb _ (rows (users d))) eqn:E; [exact E|].
    cbn [users set_users sql_insert snd rows]. rewrite existsb_app.
    cbn [existsb cms_user_id_u]. now rewrite String.eqb_refl, orb_true_r. }
  split; [exact Hr|]. split.
  - unfold registered in Hr. unfold ensure_creator at 1. now rewrite Hr.
  - unfold ensure_creator. destruct (existsb _ (rows (users d))); [apply appended_nil|].
    cbn [users set_users sql_insert snd rows]. apply appended_one. split; reflexivity.
Qed.

(** *** Runs of the further properties on the sample data *)

Lemma join_then_broadcast_witness :
  sent_to "e2-1"
    (Hub.broadcastTicketMessage identity_filter opaque_json "now" 1 Json.Null
       (Hub.handleMessage opaque_json "now" "e2-1" (Hub.join_ticket (Hub.Numeric (Js.Num 1)))
          sample_hub)) =
  Some [message_frame identity_filter opaque_json "now" 1 Json.Null] /\
  sent_to "e2-1"
    (Hub.broadcastTicketMessage identity_filter opaque_json "now" 1 Json.Null
       (Hub.handleMessage opaque_json "now" "e2-1" Hub.leave_ticket sample_hub)) =
  Some [].
Proof.
  destruct (join_then_broadcast identity_filter opaque_json "now" "e2-1" sample_hub
              (Hub.mkClient (Hub.mkWebSocket Hub.OPEN []) "e2" Hub.Undefined) 1 Json.Null
              (lookup_singleton_eq _ _) eq_refl) as (H1 & _ & H3).
  split; [exact H1 | exact H3].
Defined.

(** X11 at work: a connection whose URL has the ticket id 0x1F is reached by
    the broadcasts of ticket 31. *)
Lemma connection_is_tracked_witness :
  sent_to (client_id "e2" 5)
    (Hub.broadcastTicketUpdate identity_filter opaque_json "now" 31 Json.Null
       (Hub.connection identity_filter opaque_json 5 "now" (Some "e2") (Some "0x1F")
          sample_hub)) =
  Some [connected_frame identity_filter opaque_json "now" (client_id "e2" 5);
        update_frame identity_filter opaque_json "now" 31 Json.Null].
Proof.
  apply (connection_is_tracked identity_filter opaque_json 5 "now" "e2" "0x1F" 31 Json.Null
           Json.Null sample_hub eq_refl eq_refl eq_refl).
Defined.

Lemma broadcasts_commute_witness :
  Hub.broadcastTicketMessage identity_filter opaque_json "a" 1 Json.Null
    (Hub.broadcastTicketUpdate identity_filter opaque_json "b" 2 Json.Null sample_hub) =
  Hub.broadcastTicketUpdate identity_filter opaque_json "b" 2 Json.Null
    (Hub.broadcastTicketMessage identity_filter opaque_json "a" 1 Json.Null sample_hub).
Proof.
  apply (broadcasts_commute identity_filter opaque_json "a" "b" 1 2 Json.Null Json.Null sample_hub).
  discriminate.
Defined.

Lemma patch_user_role_bounds_witness :
  (forall r,
     In r (rows (snd (patch_user_role (Some admin_dep1) "e1" (Some "admin") sample_directory))) ->
     cms_user_type_id r = 99 -> In r (rows sample_directory)) /\
  snd (patch_user_role (Some admin_dep1) "e2" (Some "admin") sample_directory) =
    sample_directory.
Proof.
  split.
  - apply (proj1 (patch_user_role_bounds admin_dep1 "e1" (Some "admin") sample_directory
                    ltac:(discriminate))).
  - reflexivity.
Defined.

Lemma chat_post_then_read_witness :
  exists cm,
    chat_message cm = Html.sanitizeInput identity_filter "hello" /\
    chat_created_at cm = Some (now sample_env) /\
    property "id"
      (body (fst (post_ticket_message identity_filter identity_filter opaque_json sample_env
                    sample_world employee_dep2 1 (Some "hello"))))
      = Some (Json.Number (chat_id cm)) /\
    exists l,
      get_ticket_messages
        (snd (post_ticket_message identity_filter identity_filter opaque_json sample_env
                sample_world employee_dep2 1 (Some "hello")))
        employee_dep1 (Js.Num 1) =
      (mkResponse 200 (Json.Arr l),
       snd (post_ticket_message identity_filter identity_filter opaque_json sample_env
              sample_world employee_dep2 1 (Some "hello"))) /\
      In (json_chat_message cm) l.
Proof.
  apply (chat_post_then_read identity_filter identity_filter opaque_json sample_env
           sample_world employee_dep2 employee_dep1 1 "hello").
  reflexivity.
Defined.

Lemma conversation_post_then_read_witness :
  (fits_varchar 255 (employee_id admin_dep1) ->
   code (fst (post_conversation_message sample_env chat_world admin_dep1 1 (Some " hi "))) =
   201) /\
  exists msg l,
    sender_id_c msg = employee_id employee_dep1 /\
    message_c msg = Js.trim (default "" (Some " hi ")) /\
    conversation_id msg = 1 /\
    get_conversation_messages
      (snd (post_conversation_message sample_env chat_world employee_dep1 1 (Some " hi ")))
      employee_dep2 1 =
    (mkResponse 200 (Json.Arr l),
     snd (post_conversation_message sample_env chat_world employee_dep1 1 (Some " hi "))) /\
    In (json_conversation_message msg) l.
Proof.
  apply (conversation_post_then_read sample_env chat_world employee_dep1 employee_dep2
           admin_dep1 1 (Some " hi ")).
  - unfold fits_varchar. cbn. lia.
  - unfold fits_text. vm_compute. discriminate.
  - reflexivity.
Defined.

Lemma accept_is_exclusive_witness :
  stored_assignee 1
    (db (snd (post_ticket_accept identity_filter opaque_json sample_env sample_world
                employee_dep2 1))) = Some (Some "e2") /\
  post_ticket_accept identity_filter opaque_json sample_env
    (snd (post_ticket_accept identity_filter opaque_json sample_env sample_world
            employee_dep2 1)) employee_dep1 1 =
  (error 409 "Ticket already accepted",
   snd (post_ticket_accept identity_filter opaque_json sample_env sample_world
          employee_dep2 1)).
Proof.
  assert (employee_id employee_dep2 <> EmptyString) as Hne by discriminate.
  pose proof (accept_is_exclusive identity_filter opaque_json sample_env sample_world
                employee_dep2 1 eq_refl Hne) as H.
  cbv zeta in H. destruct H as (H1 & H2 & _).
  split; [exact H1 | apply H2].
Defined.
